(** * Search gateway: search pipeline, search cache, search client, formatter

    A shallow embedding of
      - [src/backend/functions/src/cloud-functions/searxng-searcher.ts]
        (class [SearXNGSearchHost] and its [sendResponse]),
      - [src/backend/functions/src/cloud-functions/crawler.ts]
        ([CrawlerHost.getTurndown], [CrawlerHost.formatSnapshot],
        [CrawlerHost.crawl] with [getTargetUrl], [isValidTLD], [scrap],
        [sendFormattedResponse] and its [sendResponse],
        [CrawlerHost.simpleCrawl]),
      - the search client [SearXNGSearchService.search],
    with the properties of the specification stated and settled on it.

    Conventions.  A JavaScript value of type [string | undefined] is an
    [option string]; JavaScript truthiness of such a value is [truthy].
    A JavaScript object carries an identity ([oid], [sid]) next to its
    fields wherever the source compares or stores objects by reference
    ([Set], [WeakMap], [!==]).  Collaborators that live outside the
    embedded files (the DOM builder, the Turndown engine, the URL parser,
    the digest, the clock, the upstream HTTP endpoint) are [Variable]s of
    the section that uses them. *)

From stdpp Require Import base option list gmap strings pretty.
From Stdlib Require Import Ascii ZArith QArith Lia.
Close Scope Q_scope.

Local Open Scope string_scope.
Local Open Scope list_scope.

(** ** JavaScript values used by the embedded code *)

Module JS.

(** [!!v] for [v : string | undefined]: the empty string and
    [undefined] are falsy. *)
Definition truthy (v : option string) : bool :=
  match v with
  | Some s => negb (String.eqb s "")
  | None => false
  end.

(** [a || b] on [string | undefined]. *)
Definition or_else (a b : option string) : option string :=
  if truthy a then a else b.

(** [a ?? b]: only [undefined] (and [null]) is replaced. *)
Definition nullish (a b : option string) : option string :=
  match a with Some _ => a | None => b end.

(** [Array.prototype.includes] on a list of string literals. *)
Definition includes (l : list string) (s : string) : bool :=
  existsb (String.eqb s) l.

End JS.

(** ** The data model of [crawler.ts] *)

(** [interface FormattedPage].  The [Buffer] fields [screenshot] and
    [pageshot] are never set by the embedded code and are left out;
    [toString] is a method, not data. *)
Record FormattedPage := mkPage {
  title : option string;
  description : option string;
  url : option string;
  content : option string;
  publishedTime : option string;
  html : option string;
  text : option string;
  screenshotUrl : option string;
  pageshotUrl : option string;
  links : option (list (string * string));
  images : option (list (string * string));
  textRepresentation : option string;
}.

(** A page object on the heap: the reference and the fields behind it. *)
Record PageObj := mkObj { oid : nat; fields : FormattedPage }.

(** ** [SearXNGSearchHost]: page qualification and reorganisation *)

Module Searcher.

Definition targetResultCount : nat := 5.
Definition reasonableDelayMs : Z := 15000.
Definition cacheRetentionMs : Z := 1000 * 3600 * 24 * 7.
Definition cacheValidMs : Z := 1000 * 3600.
Definition pageCacheToleranceMs : Z := 1000 * 3600 * 24.

(** [pageQualified]: [title && content || screenshotUrl || pageshotUrl
    || text || html], read as a condition. *)
Definition pageQualified (p : FormattedPage) : bool :=
  (JS.truthy (title p) && JS.truthy (content p))
  || JS.truthy (screenshotUrl p)
  || JS.truthy (pageshotUrl p)
  || JS.truthy (text p)
  || JS.truthy (html p).

(** [searchResultsQualified(results, targetResultCount)]; every call in
    the source passes the count. *)
Definition searchResultsQualified (results : list FormattedPage) (target : nat) : bool :=
  forallb pageQualified results && (target <=? length results)%nat.

(** [count || this.targetResultCount]: an absent count and the count 0
    both give the default.  A count is a natural number: the request
    handler passes an integer between 1 and 20. *)
Definition effectiveCount (count : option nat) : nat :=
  match count with
  | Some (S n) => S n
  | _ => targetResultCount
  end.

(** [_.partition(searchResults, pageQualified)]. *)
Definition partitionPages (l : list PageObj) : list PageObj * list PageObj :=
  (filter (fun x => pageQualified (fields x) = true) l,
   filter (fun x => pageQualified (fields x) <> true) l).

(** [new Set(qualifiedPages)] followed by [acceptSet.add(x)] for the
    first [n] unqualified pages; the set holds references. *)
Definition acceptSet (l : list PageObj) (target : nat) : gset nat :=
  let '(qualifiedPages, unqualifiedPages) := partitionPages l in
  let n := (Z.of_nat target - Z.of_nat (length qualifiedPages))%Z in
  let extra := take (Z.to_nat (if (0 <=? n)%Z then n else 0%Z)) unqualifiedPages in
  list_to_set (oid <$> qualifiedPages) ∪ list_to_set (oid <$> extra).

(** The local [filtered] of [reOrganizeSearchResults]. *)
Definition filtered (l : list PageObj) (count : option nat) : list PageObj :=
  let target := effectiveCount count in
  let acc := acceptSet l target in
  take target (filter (fun x => oid x ∈ acc) l).

(** [reOrganizeSearchResults]: the result array holds fresh objects
    [{...x, toString}], one per entry of [filtered] and in its order;
    their data fields are those of [x]. *)
Definition reOrganizeSearchResults (l : list PageObj) (count : option nat) : list FormattedPage :=
  fields <$> filtered l count.

End Searcher.

(** ** [SearXNGSearchHost.search]: the response loop

    The handler iterates the batches of [fetchSearchResults]; between two
    batches the event loop may run the callback of the early-return
    timer.  One [Event] is one such turn of the event loop.  The body of
    a response is the string form of a batch or the fixed error text;
    the string rendering plays no part in the control flow and a batch
    body is kept as the batch itself. *)

Module Pipeline.
Import Searcher.

Inductive Body :=
| BatchBody (batch : list FormattedPage)
| ErrorBody.

(** The Express response object: [headersSent], the status set by
    [res.status], the content type set by [res.type] and what
    [res.send] has put on the wire.  [res.send] writes the headers. *)
Record Res := mkRes {
  headersSent : bool;
  status : Z;
  contentType : option string;
  wire : list (Z * Body);
}.

Definition res_send (r : Res) (data : Body) : Res :=
  mkRes true (status r) (contentType r) (wire r ++ [(status r, data)]).

(** [TransferProtocolMetadata] as far as the callers fill it. *)
Record Meta := mkMeta { code : option Z; metaContentType : option string }.

(** [sendResponse(res, data, meta)] of [searxng-searcher.ts]; the
    function returns [data], the effect is on [res]. *)
Definition sendResponse (r : Res) (data : Body) (meta : Meta) : Res :=
  if headersSent r then r
  else
    let r1 := match code meta with
              | Some c => if (c =? 0)%Z then r else mkRes (headersSent r) c (contentType r) (wire r)
              | None => r
              end in
    let r2 := if JS.truthy (metaContentType meta)
              then mkRes (headersSent r1) (status r1) (metaContentType meta) (wire r1)
              else r1 in
    res_send r2 data.

Definition plainOk : Meta := mkMeta None (Some "text/plain").
Definition plain500 : Meta := mkMeta (Some 500%Z) (Some "text/plain").

(** Calls made to the timer API. *)
Inductive TimerCall :=
| SetTimeout (ms : Z)
| ClearTimeout.

Inductive Phase :=
| Running
| Returned (value : Body).

Record State := mkState {
  lastScrapped : option (list FormattedPage);
  earlyReturnTimer : option Z;  (* the handle of [setTimeout], kept with its delay *)
  timerPending : bool;          (* scheduled, neither fired nor cleared *)
  timerCalls : list TimerCall;
  res : Res;
  phase : Phase;
}.

Inductive Event :=
| Emit (scrapped : list FormattedPage)  (* the generator yields a batch *)
| Done                                  (* the generator returns *)
| Throw                                 (* the generator throws *)
| TimerFire.                            (* the timer callback runs *)

Definition init : State :=
  mkState None None false [] (mkRes false 200 None []) Running.

(** [((crawlerOptions.timeout || 0) * 1000) || this.reasonableDelayMs];
    [timeout] is in seconds. *)
Definition earlyReturnDelay (timeout : option Z) : Z :=
  let ms := ((match timeout with Some t => t | None => 0 end) * 1000)%Z in
  if (ms =? 0)%Z then reasonableDelayMs else ms.

(** [setEarlyReturnTimer()]. *)
Definition setEarlyReturnTimer (timeout : option Z) (s : State) : State :=
  match earlyReturnTimer s with
  | Some _ => s
  | None =>
      let d := earlyReturnDelay timeout in
      mkState (lastScrapped s) (Some d) true (timerCalls s ++ [SetTimeout d]) (res s) (phase s)
  end.

(** [if (earlyReturnTimer) clearTimeout(earlyReturnTimer)]. *)
Definition clearEarlyReturnTimer (s : State) : State :=
  match earlyReturnTimer s with
  | Some _ =>
      mkState (lastScrapped s) (earlyReturnTimer s) false (timerCalls s ++ [ClearTimeout]) (res s) (phase s)
  | None => s
  end.

(** [return sendResponse(ctx.res, data, meta)]. *)
Definition returnResponse (data : Body) (meta : Meta) (s : State) : State :=
  mkState (lastScrapped s) (earlyReturnTimer s) (timerPending s) (timerCalls s)
          (sendResponse (res s) data meta) (Returned data).

(** The [catch] of [search]. *)
Definition catchError (s : State) : State := returnResponse ErrorBody plain500 s.

(** One iteration of [for await (const scrapped of searchResultGenerator)]. *)
Definition onEmit (timeout : option Z) (count : nat) (scrapped : list FormattedPage) (s : State) : State :=
  let s1 := mkState (Some scrapped) (earlyReturnTimer s) (timerPending s) (timerCalls s) (res s) (phase s) in
  let s2 := if existsb pageQualified scrapped then setEarlyReturnTimer timeout s1 else s1 in
  if negb (searchResultsQualified scrapped count) then s2
  else returnResponse (BatchBody scrapped) plainOk (clearEarlyReturnTimer s2).

(** The code after the loop. *)
Definition onDone (s : State) : State :=
  let s1 := clearEarlyReturnTimer s in
  match lastScrapped s1 with
  | None => catchError s1   (* [AssertionFailureError], caught below *)
  | Some batch => returnResponse (BatchBody batch) plainOk s1
  end.

(** The callback given to [setTimeout]. *)
Definition onTimer (s : State) : State :=
  let s1 := mkState (lastScrapped s) (earlyReturnTimer s) false (timerCalls s) (res s) (phase s) in
  match lastScrapped s1 with
  | None => s1
  | Some batch =>
      mkState (lastScrapped s1) (earlyReturnTimer s1) (timerPending s1) (timerCalls s1)
              (sendResponse (res s1) (BatchBody batch) plainOk) (phase s1)
  end.

Definition isRunning (s : State) : bool :=
  match phase s with Running => true | Returned _ => false end.

(** A turn of the event loop; [None] when the event cannot happen in
    the state (the generator is only driven while the handler runs,
    the callback only runs for a pending timeout). *)
Definition step (timeout : option Z) (count : nat) (s : State) (e : Event) : option State :=
  match e with
  | Emit scrapped => if isRunning s then Some (onEmit timeout count scrapped s) else None
  | Done => if isRunning s then Some (onDone s) else None
  | Throw => if isRunning s then Some (catchError s) else None
  | TimerFire => if timerPending s then Some (onTimer s) else None
  end.

Fixpoint run (timeout : option Z) (count : nat) (s : State) (evs : list Event) : option State :=
  match evs with
  | [] => Some s
  | e :: rest =>
      match step timeout count s e with
      | Some s' => run timeout count s' rest
      | None => None
      end
  end.

Definition isSetTimeout (c : TimerCall) : bool :=
  match c with SetTimeout _ => true | ClearTimeout => false end.

(** *** Invariants of the loop *)

(** Some batch among the events has a qualified slot. *)
Definition seenQualified (evs : list Event) : bool :=
  existsb (fun e => match e with Emit b => existsb pageQualified b | _ => false end) evs.

(** What holds of the response object in every state of the loop. *)
Definition resOk (r : Res) : Prop :=
  length (wire r) <= 1 /\ (headersSent r = false -> wire r = []).

(** The timer is pending only if it was armed, it was armed exactly
    when [setTimeout] was called, and that was with the delay of the
    request. *)
Definition timerOk (timeout : option Z) (s : State) : Prop :=
  (timerPending s = true -> is_Some (earlyReturnTimer s))
  /\ (earlyReturnTimer s = None -> timerCalls s = [])
  /\ (is_Some (earlyReturnTimer s) ->
      filter (fun c => isSetTimeout c = true) (timerCalls s) = [SetTimeout (earlyReturnDelay timeout)]).

Definition stateOk (timeout : option Z) (s : State) : Prop :=
  timerOk timeout s /\ resOk (res s).

End Pipeline.

(** ** The upstream search client, [SearXNGSearchService.search] *)

(** [interface SearXNGSearchResult]; the numeric ranking fields
    ([positions], [score]) and [parsed_url] are not read by the embedded
    code. *)
Record SearXNGSearchResult := mkResult {
  sr_url : string;
  sr_title : string;
  sr_content : string;
  sr_engine : string;
  sr_category : string;
}.

(** [class SearXNGSearchResponse]; the [any[]] members are kept as
    strings. *)
Record SearXNGSearchResponse := mkResponse {
  query : string;
  number_of_results : Z;
  results : list SearXNGSearchResult;
  answers : list string;
  corrections : list string;
  infoboxes : list string;
  suggestions : list string;
  unresponsive_engines : list string;
}.

(** [DownstreamServiceFailureError({ message })]. *)
Inductive Failure :=
| DownstreamServiceFailureError (message : string).

Module Client.

(** What one HTTP exchange gives: a response with a status and a body,
    or no response at all (network error). *)
Inductive BodyValue (Raw : Type) :=
| JObject (o : Raw)   (* [typeof data === 'object'], not [null] *)
| JNull
| JString (s : string)
| JNumber (n : Z).
Arguments JObject {Raw} o.
Arguments JNull {Raw}.
Arguments JString {Raw} s.
Arguments JNumber {Raw} n.

Inductive Exchange (Raw : Type) :=
| HttpResponse (status : Z) (data : BodyValue Raw)
| NetworkError.
Arguments HttpResponse {Raw} status data.
Arguments NetworkError {Raw}.

Inductive Effect :=
| Get (attempt : nat)
| Sleep (ms : Z).

(** [validateStatus: (status) => status >= 200 && status < 300]. *)
Definition validateStatus (status : Z) : bool :=
  ((200 <=? status) && (status <? 300))%Z.

(** [!response.data || typeof response.data !== 'object'];
    [""] and [0] are falsy and, like every string and number, not
    objects. *)
Definition invalidFormat {Raw} (data : BodyValue Raw) : bool :=
  match data with
  | JObject _ => false
  | _ => true
  end.

Section Search.
Variable Raw : Type.
(** [new SearXNGSearchResponse(response.data)]; [None] when the
    constructor throws. *)
Variable construct : Raw -> option SearXNGSearchResponse.
(** The exchange that the [k]-th [axios.get] of this call sees. *)
Variable http : nat -> Exchange Raw.
(** [1000 * Math.random()] of the [k]-th back-off, in whole
    milliseconds. *)
Variable jitter : nat -> Z.

(** [err?.response?.status === 429] for the error of an attempt.
    axios rejects with [err.response] set when a response arrived
    and [validateStatus] refused it. *)
Definition rejected429 (x : Exchange Raw) : bool :=
  match x with
  | HttpResponse status _ => negb (validateStatus status) && (status =? 429)%Z
  | NetworkError => false
  end.

(** The body of the [while] loop from the state it is entered with:
    [maxTries] is the value of the counter before the test
    [maxTries--], [k] counts the requests already made. *)
Fixpoint attempts (maxTries : nat) (k : nat) : (Failure + SearXNGSearchResponse) * list Effect :=
  match maxTries with
  | O => (inl (DownstreamServiceFailureError "Search failed"), [])
  | S n =>
      match http k with
      | HttpResponse status data =>
          if validateStatus status then
            (* the inner throws are caught by the outer [catch];
               their errors carry no [response] *)
            if invalidFormat data then
              (inl (DownstreamServiceFailureError "Search failed"), [Get k])
            else
              match data with
              | JObject o =>
                  match construct o with
                  | Some r => (inr r, [Get k])
                  | None => (inl (DownstreamServiceFailureError "Search failed"), [Get k])
                  end
              | _ => (inl (DownstreamServiceFailureError "Search failed"), [Get k])
              end
          else if (status =? 429)%Z then
            let '(r, t) := attempts n (S k) in
            (r, Get k :: Sleep (500 + jitter k) :: t)
          else (inl (DownstreamServiceFailureError "Search failed"), [Get k])
      | NetworkError => (inl (DownstreamServiceFailureError "Search failed"), [Get k])
      end
  end.

(** [let maxTries = 5; while (maxTries--) ...]. *)
Definition search : (Failure + SearXNGSearchResponse) * list Effect :=
  attempts 5 0.

(** The requests and the sleeps of a trace, in order. *)
Definition requests (t : list Effect) : list nat :=
  omap (fun e => match e with Get k => Some k | Sleep _ => None end) t.

Definition sleeps (t : list Effect) : list Z :=
  omap (fun e => match e with Sleep ms => Some ms | Get _ => None end) t.

(** The number of consecutive attempts answered 429, from attempt
    [k] on and among at most [n] attempts. *)
Fixpoint leading429 (n k : nat) : nat :=
  match n with
  | O => O
  | S m => if rejected429 (http k) then S (leading429 m (S k)) else O
  end.

(** What a single attempt that is not answered 429 ends the call
    with. *)
Definition settle (x : Exchange Raw) : Failure + SearXNGSearchResponse :=
  match x with
  | HttpResponse status (JObject o) =>
      if validateStatus status then
        match construct o with
        | Some r => inr r
        | None => inl (DownstreamServiceFailureError "Search failed")
        end
      else inl (DownstreamServiceFailureError "Search failed")
  | _ => inl (DownstreamServiceFailureError "Search failed")
  end.

End Search.

End Client.

(** ** The search cache, [SearXNGSearchHost.cachedWebSearch] *)

Module Cache.
Import Searcher.

(** The [query] argument of [cachedWebSearch]. *)
Record Query := mkQuery {
  q : string;
  count : nat;
  categories : list string;
  engines : list string;
  language : option string;
}.

(** The argument of [searxngSearchService.search]. *)
Record SearchParams := mkParams {
  p_q : string;
  p_pageno : nat;
  p_engines : list string;
  p_categories : list string;
  p_language : option string;
}.

(** A [SearchResult] record of the cache collection. *)
Record CacheEntry := mkEntry {
  queryDigest : string;
  entryQuery : Query;
  response : SearXNGSearchResponse;
  createdAt : Z;
  expireAt : Z;
}.

Inductive Effect :=
| Upstream (p : SearchParams)
| Delay (ms : Z)
| Save (record : CacheEntry).

Record Outcome := mkOutcome {
  value : Failure + SearXNGSearchResponse;
  trace : list Effect;
}.

(** [orderBy('createdAt', 'desc').limit(1)] over the matching
    records: a record no other matching record is newer than. *)
Fixpoint newest (l : list CacheEntry) : option CacheEntry :=
  match l with
  | [] => None
  | e :: rest =>
      match newest rest with
      | Some e' => if (createdAt e <? createdAt e')%Z then Some e' else Some e
      | None => Some e
      end
  end.

(** [SearchResult.COLLECTION.where('queryDigest', '==', queryDigest)
    .orderBy('createdAt', 'desc').limit(1)], then [[0]]. *)
Definition fromFirestoreQuery (store : list CacheEntry) (digest : string) : option CacheEntry :=
  newest (filter (fun e => queryDigest e = digest) store).

(** [cache.createdAt.valueOf() < (Date.now() - this.cacheValidMs)]. *)
Definition stale (now : Z) (cache : CacheEntry) : bool :=
  (createdAt cache <? now - cacheValidMs)%Z.

Section CachedWebSearch.
(** [objHashMd5B64Of]. *)
Variable objHashMd5B64Of : Query -> string.
(** [this.searxngSearchService.search]. *)
Variable upstream : SearchParams -> Failure + SearXNGSearchResponse.
(** The collection at lookup time, [Date.now()] at the lookup,
    [new Date()] at the save, and [Math.random() * 1000] in whole
    milliseconds. *)
Variable store : list CacheEntry.
Variable now : Z.
Variable nowDate : Z.
Variable jitter : Z.

Definition pageParams (query : Query) (pageno : nat) : SearchParams :=
  mkParams (q query) pageno (engines query) (categories query) (language query).

(** The [try] block: one or two upstream calls, the merge, the
    fire-and-forget save.  A failed call leaves the block with its
    error. *)
Definition tryUpstream (query : Query) : Outcome :=
  match upstream (pageParams query 1) with
  | inl err => mkOutcome (inl err) [Upstream (pageParams query 1)]
  | inr firstResponse =>
      let allResults := [] ++ results firstResponse in
      let finish (allResults : list SearXNGSearchResult) (t : list Effect) :=
        (* [{ ...firstResponse, results: allResults.slice(0, query.count) }] *)
        let r := match firstResponse with
                 | mkResponse rq rn _ ra rc ri rs ru =>
                     mkResponse rq rn (take (count query) allResults) ra rc ri rs ru
                 end in
        let record := mkEntry (objHashMd5B64Of query) query r nowDate (nowDate + cacheRetentionMs) in
        mkOutcome (inr r) (t ++ [Save record]) in
      if (length allResults <? count query)%nat then
        match upstream (pageParams query 2) with
        | inl err =>
            mkOutcome (inl err)
              [Upstream (pageParams query 1); Delay (1000 + jitter); Upstream (pageParams query 2)]
        | inr secondResponse =>
            finish (allResults ++ results secondResponse)
              [Upstream (pageParams query 1); Delay (1000 + jitter); Upstream (pageParams query 2)]
        end
      else finish allResults [Upstream (pageParams query 1)]
  end.

(** The [catch] block, with the value of the local [cache]. *)
Definition withFallback (cache : option CacheEntry) (o : Outcome) : Outcome :=
  match value o with
  | inl err =>
      match cache with
      | Some c => mkOutcome (inr (response c)) (trace o)
      | None => o
      end
  | inr _ => o
  end.

Definition cachedWebSearch (query : Query) (noCache : bool) : Outcome :=
  let queryDigest := objHashMd5B64Of query in
  let cache := if noCache then None else fromFirestoreQuery store queryDigest in
  match cache with
  | Some c =>
      if stale now c then withFallback cache (tryUpstream query)
      else mkOutcome (inr (response c)) []
  | None => withFallback cache (tryUpstream query)
  end.

End CachedWebSearch.

End Cache.

(** ** String helpers of the JavaScript runtime

    Strings are sequences of one-byte characters; the white space of
    [trim] is the ASCII white space (tab, line feed, vertical tab, form
    feed, carriage return, space). *)

Module Str.

Definition isSpace (c : ascii) : bool :=
  let n := nat_of_ascii c in
  (n =? 32)%nat || ((9 <=? n)%nat && (n <=? 13)%nat).

Definition newline : ascii := ascii_of_nat 10.

Fixpoint trimStart (s : string) : string :=
  match s with
  | EmptyString => EmptyString
  | String c rest => if isSpace c then trimStart rest else s
  end.

Fixpoint trimEnd (s : string) : string :=
  match s with
  | EmptyString => EmptyString
  | String c rest =>
      match trimEnd rest with
      | EmptyString => if isSpace c then EmptyString else String c EmptyString
      | String d rest' => String c (String d rest')
      end
  end.

(** [String.prototype.trim]. *)
Definition trim (s : string) : string := trimEnd (trimStart s).

(** [s.startsWith(c)] and [s.endsWith(c)] for a one-character [c]. *)
Definition startsWith (c : ascii) (s : string) : bool :=
  match s with
  | String d _ => Ascii.eqb c d
  | EmptyString => false
  end.

Fixpoint endsWith (c : ascii) (s : string) : bool :=
  match s with
  | EmptyString => false
  | String d EmptyString => Ascii.eqb c d
  | String _ rest => endsWith c rest
  end.

(** [s.replace(/\n{3,}/g, '\n\n')]: [run] counts the line feeds that
    directly precede the position and were kept. *)
Fixpoint collapseNewlines (run : nat) (s : string) : string :=
  match s with
  | EmptyString => EmptyString
  | String c rest =>
      if Ascii.eqb c newline then
        if (2 <=? run)%nat then collapseNewlines run rest
        else String c (collapseNewlines (S run) rest)
      else String c (collapseNewlines 0 rest)
  end.

(** [chunks.join(sep)]. *)
Fixpoint join (sep : string) (chunks : list string) : string :=
  match chunks with
  | [] => EmptyString
  | [x] => x
  | x :: rest => (x ++ sep ++ join sep rest)%string
  end.

(** A string of white space only. *)
Fixpoint allSpace (s : string) : bool :=
  match s with
  | EmptyString => true
  | String c rest => isSpace c && allSpace rest
  end.

Definition lt : ascii := ascii_of_nat 60.  (* '<' *)
Definition gt : ascii := ascii_of_nat 62.  (* '>' *)
Definition nl : string := String newline EmptyString.

End Str.

(** ** [CrawlerHost]: the Markdown rewriter configuration and
    [formatSnapshot] *)

Module Crawler.

(** The fields of [PageSnapshot] that [formatSnapshot] reads, with the
    identity of the snapshot object. *)
Record Parsed := mkParsed {
  parsedTitle : option string;
  parsedContent : option string;
  parsedPublishedTime : option string;
}.

Record PageSnapshot := mkSnapshot {
  sid : nat;
  href : string;
  snapTitle : option string;
  snapHtml : option string;
  snapText : option string;
  parsed : option Parsed;
  screenshot : option string;
  pageshot : option string;
  snapScreenshotUrl : option string;
  snapPageshotUrl : option string;
  rebase : option string;
  maxElemDepth : option Z;
  elemCount : option Z;
}.

(** The argument of [getTurndown]. *)
Record TurndownOptions := mkOptions {
  noRules : bool;
  optUrl : option string;
  imgDataUrlToObjectUrl : bool;
}.

(** A configured [TurndownService]: the rules added, in the order of
    the [addRule] calls, the plugins in use and the base URL the rules
    close over. *)
Record TurndownService := mkService {
  rules : list string;
  plugins : list string;
  baseUrl : option string;
}.

Definition getTurndown (options : TurndownOptions) : TurndownService :=
  mkService
    ((if noRules options then []
      else ["remove-irrelevant"; "truncate-svg"; "title-as-h1"])
     ++ (if imgDataUrlToObjectUrl options then ["data-url-to-pseudo-object-url"] else [])
     ++ ["improved-paragraph"; "improved-inline-link"; "improved-code"])
    [] (optUrl options).

Definition use (plugin : string) (service : TurndownService) : TurndownService :=
  mkService (rules service) (plugins service ++ [plugin]) (baseUrl service).

Definition addRule (name : string) (service : TurndownService) : TurndownService :=
  mkService (rules service ++ [name]) (plugins service) (baseUrl service).

(** [turnDownPlugins = [require('turndown-plugin-gfm').tables]]. *)
Definition turnDownPlugins : list string := ["gfm-tables"].

(** The replacement function of the rule [improved-paragraph]. *)
Definition improvedParagraph (innerText : string) : string :=
  let trimmed := Str.trim innerText in
  if String.eqb trimmed "" then ""
  else (Str.collapseNewlines 0 trimmed ++ Str.nl ++ Str.nl)%string.

(** [snapshot.maxElemDepth! > 256 || snapshot.elemCount! > 70_000];
    a comparison with [undefined] is false. *)
Definition degraded (snapshot : PageSnapshot) : bool :=
  match maxElemDepth snapshot with Some d => (256 <? d)%Z | None => false end
  || match elemCount snapshot with Some c => (70000 <? c)%Z | None => false end.

(** [par2.length >= 0.3 * par1.length].  Both lengths are integers;
    the double nearest to [0.3 * n] lies within one part in 10^16 of
    [3n/10] and equals it when [3n/10] is an integer, so for every
    length a string can have the test agrees with [3 n <= 10 m]. *)
Definition readabilityDidItsJob (par1 par2 : string) : bool :=
  (3 * String.length par1 <=? 10 * String.length par2)%nat.

(** [(contentText.startsWith('<') && contentText.endsWith('>'))] and
    the [||] variant, on a possibly undefined text that the guard
    [!contentText ||] has found truthy. *)
Definition looksLikeHtml (contentText : option string) : bool :=
  match contentText with
  | Some s => Str.startsWith Str.lt s && Str.endsWith Str.gt s
  | None => false
  end.

Definition startsOrEndsLikeHtml (contentText : option string) : bool :=
  match contentText with
  | Some s => Str.startsWith Str.lt s || Str.endsWith Str.gt s
  | None => false
  end.

(** [`${v}`] for [v : string | undefined]. *)
Definition template (v : option string) : string :=
  match v with Some s => s | None => "undefined" end.

Definition earlyModes : list string := ["screenshot"; "pageshot"; "html"; "text"].

Section Formatter.
(** The DOM of [jsdomControl.snippetToElement]; [None] when the call
    throws. *)
Variable Element : Type.
Variable snippetToElement : option string -> string -> option Element.

Inductive TurndownInput :=
| OfElement (e : Element)
| OfHtml (html : option string).

(** [jsdomControl.runTurndown(service, input)] started with the
    image counter [imgIdx] of the rule [img-generated-alt]: the text
    ([None] when the run throws) and the counter afterwards. *)
Variable runTurndown : TurndownService -> TurndownInput -> nat -> option string * nat.

(** The request context ([threadLocal]) and what the collaborators
    of the mixins return. *)
Variable host : string.
Variable keepImgDataUrl : bool.
Variable withImagesSummary : bool.
Variable withLinksSummary : bool.
Variable inferredImages : PageSnapshot -> list (string * string).
Variable inferredLinks : PageSnapshot -> list (string * string).
(** The image summary that the runs of [img-generated-alt] leave. *)
Variable imageSummary : PageSnapshot -> list (string * string).
(** [randomUUID()] and the success of [saveFileLocally]. *)
Variable randomUUID : string.
Variable saveFileLocally : string -> string -> bool.

Definition Run : Type := TurndownService * TurndownInput.

(** [getGeneralSnapshotMixins]: the [images] and the [links]. *)
Definition generalImages (snapshot : PageSnapshot) : option (list (string * string)) :=
  if withImagesSummary then Some (inferredImages snapshot) else None.
Definition generalLinks (snapshot : PageSnapshot) : option (list (string * string)) :=
  if withLinksSummary then Some (inferredLinks snapshot) else None.

(** [try { contentText = run(service) } catch { try { contentText =
    run(vanilla) } catch {} }], with [post] for the [.trim()] of the
    first use. *)
Definition runWithRetry (service vanilla : TurndownService) (input : TurndownInput)
    (post : string -> string) (contentText : option string) (imgIdx : nat)
    : option string * nat * list Run :=
  match runTurndown service input imgIdx with
  | (Some t, k) => (Some (post t), k, [(service, input)])
  | (None, k) =>
      match runTurndown vanilla input k with
      | (Some t, k') => (Some (post t), k', [(service, input); (vanilla, input)])
      | (None, k') => (contentText, k', [(service, input); (vanilla, input)])
      end
  end.

(** The [do { ... } while (false)] block of [formatSnapshot] ([pdfMode]
    is the constant [false]): the final [contentText] and the runs of
    the rewriter, or [None] when the block throws. *)
Definition contentOf (mode : string) (snapshot : PageSnapshot) (nominalUrl : option string)
    : option (option string * list Run) :=
  if degraded snapshot then Some (snapText snapshot, [])
  else
    match snippetToElement (snapHtml snapshot) (href snapshot) with
    | None => None
    | Some jsDomElementOfHTML =>
        let url := JS.or_else (rebase snapshot) nominalUrl in
        let withRules := getTurndown (mkOptions false url (negb keepImgDataUrl)) in
        let parsedContent := match parsed snapshot with Some p => parsedContent p | None => None end in
        (* the chosen service, the chosen element, whether it is
           [jsDomElementOfHTML], and the runs made to choose *)
        let chosen : option (TurndownService * Element * bool * list Run) :=
          if negb (String.eqb mode "markdown") && JS.truthy parsedContent then
            match snippetToElement parsedContent (href snapshot) with
            | None => None
            | Some jsDomElementOfParsed =>
                match runTurndown withRules (OfElement jsDomElementOfHTML) 0 with
                | (None, _) => None
                | (Some par1, _) =>
                    match runTurndown withRules (OfElement jsDomElementOfParsed) 0 with
                    | (None, _) => None
                    | (Some par2, _) =>
                        let runs := [(withRules, OfElement jsDomElementOfHTML);
                                     (withRules, OfElement jsDomElementOfParsed)] in
                        if readabilityDidItsJob par1 par2 then
                          Some (getTurndown (mkOptions true url (negb keepImgDataUrl)),
                                jsDomElementOfParsed, false, runs)
                        else Some (withRules, jsDomElementOfHTML, true, runs)
                    end
                end
            end
          else Some (withRules, jsDomElementOfHTML, true, []) in
        match chosen with
        | None => None
        | Some (service0, toBeTurnedToMd, isWholeDocument, runs0) =>
            (* an element is truthy: [if (toBeTurnedToMd)] is taken *)
            let turnDownService :=
              addRule "img-generated-alt" (foldl (fun s p => use p s) service0 turnDownPlugins) in
            let vanilla := withRules in
            let '(contentText1, imgIdx1, runs1) :=
              runWithRetry turnDownService vanilla (OfElement toBeTurnedToMd) Str.trim (Some "") 0 in
            let '(contentText2, imgIdx2, runs2) :=
              if negb (JS.truthy contentText1)
                 || (looksLikeHtml contentText1 && negb isWholeDocument)
              then runWithRetry turnDownService vanilla (OfHtml (snapHtml snapshot))
                     (fun t => t) contentText1 imgIdx1
              else (contentText1, imgIdx1, []) in
            let contentText3 :=
              if negb (JS.truthy contentText2) || startsOrEndsLikeHtml contentText2
              then snapText snapshot else contentText2 in
            Some (contentText3, runs0 ++ runs1 ++ runs2)
        end
    end.

(** The [toString] of the page built on the markdown path. *)
Definition summaryChunks (head : string) (bang : string) (none : string)
    (entries : list (string * string)) : string :=
  let chunks := head :: map (fun kv => ("- " ++ bang ++ "[" ++ fst kv ++ "](" ++ snd kv ++ ")")%string) entries in
  Str.join Str.nl (if (length chunks =? 1)%nat then chunks ++ [none] else chunks).

Definition pageToString (mode : string) (p : FormattedPage) : option string :=
  if String.eqb mode "markdown" then content p
  else
    let mixins :=
      if JS.truthy (publishedTime p)
      then [("Published Time: " ++ template (publishedTime p))%string] else [] in
    let suffixMixins :=
      match images p with
      | Some im => [summaryChunks "Images:" "!" "This page does not seem to contain any images." im]
      | None => []
      end ++
      match links p with
      | Some li => [summaryChunks "Links/Buttons:" "" "This page does not seem to contain any buttons/links." li]
      | None => []
      end in
    let sep := (Str.nl ++ Str.nl)%string in
    Some ("Title: " ++ template (title p) ++ sep
          ++ "URL Source: " ++ template (url p) ++ Str.nl
          ++ (if (length mixins =? 0)%nat then "" else Str.nl ++ Str.join sep mixins ++ Str.nl)
          ++ Str.nl ++ "Markdown Content:" ++ Str.nl
          ++ template (content p) ++ Str.nl
          ++ (if (length suffixMixins =? 0)%nat then ""
              else Str.nl ++ Str.join sep suffixMixins ++ Str.nl))%string.

(** The URL of a stored shot: the one the snapshot already has, or
    the one of the file just saved.  [None] when saving throws. *)
Definition shotUrl (kind : string) (bytes : option string) (known : option string)
    : option (option string) :=
  match bytes with
  | Some b =>
      if JS.truthy known then Some known
      else
        let fileName := (kind ++ "-" ++ randomUUID ++ ".png")%string in
        if saveFileLocally fileName b
        then Some (Some ("http://" ++ host ++ "/instant-screenshots/" ++ fileName)%string)
        else None
  | None => Some known
  end.

(** [formatSnapshot(mode, snapshot, nominalUrl)]: the formatted page
    and the runs of the rewriter, or [None] when the promise is
    rejected.  The assignment to [snapshot.screenshotUrl] is not
    carried back to the snapshot. *)
Definition formatSnapshot (mode : string) (snapshot : PageSnapshot) (nominalUrl : option string)
    : option (FormattedPage * list Run) :=
  if String.eqb mode "screenshot" then
    match shotUrl "screenshot" (screenshot snapshot) (snapScreenshotUrl snapshot) with
    | None => None
    | Some u =>
        Some (mkPage None None None None None None None u None
                (generalLinks snapshot) (generalImages snapshot)
                (Some (template u ++ Str.nl)%string), [])
    end
  else if String.eqb mode "pageshot" then
    match shotUrl "pageshot" (pageshot snapshot) (snapPageshotUrl snapshot) with
    | None => None
    | Some u =>
        Some (mkPage None None None None None (snapHtml snapshot) None None u
                (generalLinks snapshot) (generalImages snapshot)
                (Some (template u ++ Str.nl)%string), [])
    end
  else if String.eqb mode "html" then
    Some (mkPage None None None None None (snapHtml snapshot) None None None
            (generalLinks snapshot) (generalImages snapshot) (snapHtml snapshot), [])
  else if String.eqb mode "text" then
    Some (mkPage None None None None None None (snapText snapshot) None None
            (generalLinks snapshot) (generalImages snapshot) (snapText snapshot), [])
  else
    match contentOf mode snapshot nominalUrl with
    | None => None
    | Some (contentText, runs) =>
        let cleanText := Str.trim (match JS.or_else contentText (Some "") with
                                   | Some s => s | None => "" end) in
        let parsedTitle := match parsed snapshot with Some p => parsedTitle p | None => None end in
        let published := match parsed snapshot with Some p => parsedPublishedTime p | None => None end in
        let formatted :=
          mkPage
            (Some (Str.trim (match JS.or_else (JS.or_else parsedTitle (snapTitle snapshot)) (Some "") with
                             | Some s => s | None => "" end)))
            None
            (JS.or_else nominalUrl (Some (Str.trim (href snapshot))))
            (Some cleanText)
            (JS.or_else published None)
            None None None None
            (if withLinksSummary then Some (inferredLinks snapshot) else None)
            (if withImagesSummary then Some (imageSummary snapshot) else None)
            None in
        Some (mkPage (title formatted) (description formatted) (url formatted)
                (content formatted) (publishedTime formatted) (html formatted)
                (text formatted) (screenshotUrl formatted) (pageshotUrl formatted)
                (links formatted) (images formatted)
                (pageToString mode formatted), runs)
    end.

End Formatter.

Arguments OfElement {Element} e.
Arguments OfHtml {Element} html.

End Crawler.

(** ** [SearXNGSearchHost.fetchSearchResults] *)

Module Fetch.
Import Searcher Crawler.

(** The state the generator keeps between two batches: the
    [snapshotMap], keyed by the identity of the snapshot object, and
    the next free reference for the page objects it creates. *)
Record FetchState := mkFetch {
  snapshotMap : gmap nat PageObj;
  nextOid : nat;
}.

Definition emptyFetch : FetchState := mkFetch ∅ 0.

(** [{ url, title, description, content }] built from an upstream
    result. *)
Definition stub (upstreamSearchResult : SearXNGSearchResult) (content : option string) : FormattedPage :=
  mkPage (Some (sr_title upstreamSearchResult)) (Some (sr_content upstreamSearchResult))
         (Some (sr_url upstreamSearchResult)) content
         None None None None None None None None.

(** [['html', 'text', 'screenshot'].includes(mode) ? undefined : '']. *)
Definition stubContent (mode : string) : option string :=
  if JS.includes ["html"; "text"; "screenshot"] mode then None else Some "".

(** [r.title ??= upstreamSearchResult.title; r.description =
    upstreamSearchResult.content]. *)
Definition decorate (upstreamSearchResult : SearXNGSearchResult) (r : FormattedPage) : FormattedPage :=
  mkPage (JS.nullish (title r) (Some (sr_title upstreamSearchResult)))
         (Some (sr_content upstreamSearchResult))
         (url r) (content r) (publishedTime r) (html r) (text r)
         (screenshotUrl r) (pageshotUrl r) (links r) (images r) (textRepresentation r).

Section FetchSearchResults.
Variable Element : Type.
Variable snippetToElement : option string -> string -> option Element.
Variable runTurndown : TurndownService -> @TurndownInput Element -> nat -> option string * nat.
Variable host : string.
Variable keepImgDataUrl withImagesSummary withLinksSummary : bool.
Variable inferredImages inferredLinks imageSummary : PageSnapshot -> list (string * string).
Variable saveFileLocally : string -> string -> bool.
(** [randomUUID()] in the formatting of the page of reference [o]. *)
Variable randomUUID : nat -> string.
(** [new URL(s)] as its [href]; [None] when the constructor
    throws. *)
Variable parseURL : string -> option string.

Variable mode : string.
Variable searchResults : list SearXNGSearchResult.
Variable count : nat.

Definition format (o : nat) (x : PageSnapshot) (nominalUrl : option string) : option FormattedPage :=
  fst <$> formatSnapshot Element snippetToElement runTurndown host keepImgDataUrl
            withImagesSummary withLinksSummary inferredImages inferredLinks imageSummary
            (randomUUID o) saveFileLocally mode x nominalUrl.

(** The callback of [scrapped.map((x, i) => ...)], settled: the page
    object of the slot and the entry it adds to [snapshotMap].  All
    callbacks read the map before any of them writes it.  [None]
    when [searchResults[i]] is undefined and the callback throws. *)
Definition mapSlot (cache : gmap nat PageObj) (urls : list string) (base : nat)
    (i : nat) (x : option PageSnapshot) : option (PageObj * option (nat * PageObj)) :=
  match searchResults !! i with
  | None => None
  | Some upstreamSearchResult =>
      match x with
      | None => Some (mkObj (base + i) (stub upstreamSearchResult (stubContent mode)), None)
      | Some snapshot =>
          match cache !! sid snapshot with
          | Some r => Some (r, None)
          | None =>
              match format (base + i) snapshot (urls !! i) with
              | Some r =>
                  let r' := mkObj (base + i) (decorate upstreamSearchResult r) in
                  Some (r', Some (sid snapshot, r'))
              | None =>
                  Some (mkObj (base + i) (stub upstreamSearchResult (snapText snapshot)), None)
              end
          end
      end
  end.

Definition remember (m : gmap nat PageObj) (e : PageObj * option (nat * PageObj)) : gmap nat PageObj :=
  match snd e with
  | Some (k, r) => <[k:=r]> m
  | None => m
  end.

(** The body of [for await (const scrapped of this.crawler.scrapMany(...))]:
    the batch yielded and the state afterwards. *)
Definition onScrapped (urls : list string) (st : FetchState) (scrapped : list (option PageSnapshot))
    : option (list FormattedPage * FetchState) :=
  match mapM (fun x => x) (imap (mapSlot (snapshotMap st) urls (nextOid st)) scrapped) with
  | None => None
  | Some mapped =>
      let resultArray := fst <$> mapped in
      Some (reOrganizeSearchResults resultArray (Some count),
            mkFetch (foldl remember (snapshotMap st) mapped) (nextOid st + length scrapped))
  end.

(** The batches yielded over the emissions of the aggregator, and
    whether the generator ended by throwing. *)
Fixpoint batchesFrom (urls : list string) (st : FetchState)
    (emissions : list (list (option PageSnapshot))) : list (list FormattedPage) * bool :=
  match emissions with
  | [] => ([], false)
  | scrapped :: rest =>
      match onScrapped urls st scrapped with
      | None => ([], true)
      | Some (batch, st') =>
          let '(more, threw) := batchesFrom urls st' rest in
          (batch :: more, threw)
      end
  end.

(** [fetchSearchResults(mode, searchResults, options, crawlerOptions,
    count)] for a defined [searchResults]. *)
Definition fetchSearchResults (emissions : list (list (option PageSnapshot)))
    : list (list FormattedPage) * bool :=
  if (count =? 0)%nat then
    ([(fun upstreamSearchResult => stub upstreamSearchResult (stubContent mode)) <$> searchResults], false)
  else
    match mapM parseURL (sr_url <$> searchResults) with
    | None => ([], true)
    | Some urls => batchesFrom urls emptyFetch emissions
    end.

End FetchSearchResults.

(** *** Slots *)

(** A snapshot object is yielded by the stream of one slot: the same
    object never shows in two slots ([scrapMany] writes what the
    [idx]-th stream yields to [results[idx]]). *)
Definition slotLocal (emissions : list (list (option PageSnapshot))) : Prop :=
  forall e1 e2 i j x y,
    e1 ∈ emissions -> e2 ∈ emissions ->
    e1 !! i = Some (Some x) -> e2 !! j = Some (Some y) ->
    sid x = sid y -> i = j.

(** The page is made from the upstream result: it has the snippet of
    the result as description, and as URL the URL of the result (a
    stub), the [href] of the parsed URL of the result (a page of the
    markdown path), or none (a page of the modes that return early). *)
Definition madeFrom (parseURL : string -> option string) (mode : string)
    (upstreamSearchResult : SearXNGSearchResult) (p : FormattedPage) : Prop :=
  description p = Some (sr_content upstreamSearchResult)
  /\ (url p = Some (sr_url upstreamSearchResult)
      \/ (JS.includes earlyModes mode = false
          /\ url p = parseURL (sr_url upstreamSearchResult))
      \/ (JS.includes earlyModes mode = true /\ url p = None)).

(** Every page of the [snapshotMap] was made from the upstream result
    of the slot its snapshot showed in. *)
Definition cacheInv (parseURL : string -> option string) (mode : string)
    (searchResults : list SearXNGSearchResult)
    (emissions : list (list (option PageSnapshot))) (cache : gmap nat PageObj) : Prop :=
  forall k r, cache !! k = Some r ->
    exists e j x up,
      e ∈ emissions /\ e !! j = Some (Some x) /\ sid x = k
      /\ searchResults !! j = Some up /\ madeFrom parseURL mode up (fields r).

End Fetch.

(** ** The words of the specification, as definitions *)

Module Spec.
Import Searcher.

(** "non-empty": present and not the empty string. *)
Definition nonEmpty (v : option string) : Prop :=
  exists s, v = Some s /\ s <> "".

(** "qualified iff (title AND content) OR screenshotUrl OR pageshotUrl
    OR text OR html is non-empty". *)
Definition qualified (p : FormattedPage) : Prop :=
  (nonEmpty (title p) /\ nonEmpty (content p))
  \/ nonEmpty (screenshotUrl p)
  \/ nonEmpty (pageshotUrl p)
  \/ nonEmpty (text p)
  \/ nonEmpty (html p).

(** "every slot in the batch is qualified AND batch.length >= count". *)
Definition gate (batch : list FormattedPage) (count : nat) : Prop :=
  (forall p, p ∈ batch -> qualified p) /\ count <= length batch.

(** "Start with the qualified set.  If fewer than count qualified,
    fill in from unqualified in original slot order until count or
    exhausted.  Preserve original slot order": one pass over the
    slots that keeps every qualified page and the first [room]
    unqualified ones. *)
Fixpoint accepted (room : nat) (l : list PageObj) : list PageObj :=
  match l with
  | [] => []
  | x :: rest =>
      if pageQualified (fields x) then x :: accepted room rest
      else
        match room with
        | O => accepted O rest
        | S room' => x :: accepted room' rest
        end
  end.

Definition qualifiedCount (l : list PageObj) : nat :=
  length (filter (fun x => pageQualified (fields x) = true) l).

(** "Truncate to count". *)
Definition reorganized (l : list PageObj) (k : nat) : list FormattedPage :=
  fields <$> take k (accepted (k - qualifiedCount l) l).

(** "Run C3 twice: once over the full document (par1) and once over
    parsed.content (par2).  If |par2| >= 0.3 * |par1| [...] re-run with
    noRules=true on the parsed subtree and use that as content.
    Otherwise, use par1 as content." *)
Section Readability.
Import Crawler.
Variable Element : Type.
Variable runTurndown : TurndownService -> @TurndownInput Element -> nat -> option string * nat.

End Readability.

End Spec.

(** ** Sample inputs *)

Module Samples.

(** A page with a title and a content, and a stub without content. *)
Definition goodPage : FormattedPage :=
  mkPage (Some "T") None (Some "http://a.example/") (Some "body")
         None None None None None None None None.

Definition stubPage : FormattedPage :=
  mkPage (Some "T") (Some "snippet") (Some "http://b.example/") (Some "")
         None None None None None None None None.

(** Six distinct qualified page objects. *)
Definition sixGood : list PageObj :=
  (fun i => mkObj i goodPage) <$> seq 0 6.

(** Slots: stub, good, stub, good, all distinct objects. *)
Definition mixedSlots : list PageObj :=
  [mkObj 0 stubPage; mkObj 1 goodPage; mkObj 2 stubPage; mkObj 3 goodPage].

(** The same stub object in two slots, then a good page. *)
Definition aliasedSlots : list PageObj :=
  [mkObj 0 stubPage; mkObj 0 stubPage; mkObj 1 goodPage].

Definition sampleResult (u : string) : SearXNGSearchResult :=
  mkResult u "Title" "snippet" "engine" "general".

Definition sampleResponse : SearXNGSearchResponse :=
  mkResponse "rocq" 2 [sampleResult "http://a.example/"; sampleResult "http://b.example/"]
             [] [] [] [] [].

(** Two answers 429, then a 200 with an object body. *)
Definition sampleHttp (k : nat) : Client.Exchange unit :=
  if (k <? 2)%nat then Client.HttpResponse 429 Client.JNull
  else Client.HttpResponse 200 (Client.JObject tt).

Definition sampleQuery : Cache.Query := Cache.mkQuery "rocq" 2 [] [] None.

(** A digest for the samples: the query text. *)
Definition sampleDigest (query : Cache.Query) : string := Cache.q query.

Definition entryAt (createdAt : Z) : Cache.CacheEntry :=
  Cache.mkEntry "rocq" sampleQuery sampleResponse createdAt
                (createdAt + Searcher.cacheRetentionMs).

Definition failingUpstream (p : Cache.SearchParams) : Failure + SearXNGSearchResponse :=
  inl (DownstreamServiceFailureError "Search failed").

Definition day : Z := 1000 * 3600 * 24.

(** A stand-in for the DOM and the rewriter: an element is its
    source text, and a run prints whether the service has the rule
    [title-as-h1], then the source. *)
Definition toySnippet (html : option string) (href : string) : option string :=
  Some (default "" html).

Definition toyRun (service : Crawler.TurndownService) (input : @Crawler.TurndownInput string)
    (imgIdx : nat) : option string * nat :=
  (Some ((if existsb (String.eqb "title-as-h1") (Crawler.rules service)
          then "with rules: " else "no rules: ")
         ++ match input with
            | Crawler.OfElement e => e
            | Crawler.OfHtml h => default "" h
            end ++ " .")%string,
   imgIdx).

Definition toyFormat (mode : string) (snapshot : Crawler.PageSnapshot) (nominalUrl : option string)
    : option (FormattedPage * list (Crawler.TurndownService * @Crawler.TurndownInput string)) :=
  Crawler.formatSnapshot string toySnippet toyRun "localhost" false false false
    (fun _ => []) (fun _ => []) (fun _ => []) "0000" (fun _ _ => true)
    mode snapshot nominalUrl.

Definition sampleSnapshot : Crawler.PageSnapshot :=
  Crawler.mkSnapshot 7 "http://a.example/" (Some "A page")
    (Some "<html><p>hello</p></html>") (Some "hello")
    (Some (Crawler.mkParsed (Some "A page") (Some "<p>hello</p>") None))
    None None None None None None None.

Definition sampleUrl : option string := Some "http://a.example/".

(** A stand-in for [new URL]: every non-empty string parses, to
    itself, but for one URL without a path, whose [href] ends in the
    slash of the root path. *)
Definition toyParseURL (s : string) : option string :=
  if String.eqb s "" then None
  else if String.eqb s "http://c.example" then Some "http://c.example/"
  else Some s.

Definition toyFetch (mode : string) (searchResults : list SearXNGSearchResult) (count : nat)
    (emissions : list (list (option Crawler.PageSnapshot))) : list (list FormattedPage) * bool :=
  Fetch.fetchSearchResults string toySnippet toyRun "localhost" false false false
    (fun _ => []) (fun _ => []) (fun _ => []) (fun _ _ => true) (fun _ => "0000")
    toyParseURL mode searchResults count emissions.

Definition twoResults : list SearXNGSearchResult :=
  [sampleResult "http://a.example/"; sampleResult "http://b.example/"].

(** First nothing is scraped, then the first slot has its snapshot. *)
Definition twoEmissions : list (list (option Crawler.PageSnapshot)) :=
  [[None; None]; [Some sampleSnapshot; None]].

End Samples.

(** ** The response loop: what is sent *)

Module LoopInv.
Import Searcher Pipeline.

(** An entry on the wire: a batch that the generator yielded, sent with
    status 200, or the error text, sent with status 500. *)
Definition sentOk (history : list Event) (entry : Z * Body) : Prop :=
  match snd entry with
  | BatchBody b => fst entry = 200%Z /\ Emit b ∈ history
  | ErrorBody => fst entry = 500%Z
  end.

(** What holds of a state reached by the events [history]. *)
Definition answerOk (history : list Event) (s : State) : Prop :=
  (headersSent (res s) = false ->
   wire (res s) = [] /\ status (res s) = 200%Z /\ phase s = Running)
  /\ (headersSent (res s) = true ->
      exists entry, wire (res s) = [entry] /\ sentOk history entry)
  /\ (forall b, lastScrapped s = Some b -> Emit b ∈ history)
  /\ (forall b, phase s = Returned (BatchBody b) ->
      timerPending s = false /\ Emit b ∈ history).

End LoopInv.

(** ** The search cache: what a trace holds *)

Module CacheTrace.
Import Cache.

(** The records saved and the upstream calls made, in order. *)
Definition saves (t : list Effect) : list CacheEntry :=
  omap (fun e => match e with Save record => Some record | _ => None end) t.

Definition calls (t : list Effect) : list SearchParams :=
  omap (fun e => match e with Upstream p => Some p | _ => None end) t.

End CacheTrace.

(** ** More of the JavaScript runtime: [split], number to string *)

Module Text.

(** [s.split(c)] for a one-character separator: the pieces between the
    separators, at least one. *)
Fixpoint split (sep : ascii) (s : string) : list string :=
  match s with
  | EmptyString => [EmptyString]
  | String c rest =>
      if Ascii.eqb c sep then EmptyString :: split sep rest
      else
        match split sep rest with
        | piece :: pieces => String c piece :: pieces
        | [] => [String c EmptyString]
        end
  end.

(** [s.includes(c)] for a one-character [c]. *)
Fixpoint includesChar (c : ascii) (s : string) : bool :=
  match s with
  | EmptyString => false
  | String d rest => Ascii.eqb d c || includesChar c rest
  end.

Definition dot : ascii := ascii_of_nat 46.      (* '.' *)
Definition comma : ascii := ascii_of_nat 44.    (* ',' *)
Definition backtick : ascii := ascii_of_nat 96. (* '`' *)
Definition space : ascii := ascii_of_nat 32.    (* ' ' *)
Definition cr : ascii := ascii_of_nat 13.       (* '\r' *)

(** [String(n)] and [n.toString()] for a natural number. *)
Definition ofNat (n : nat) : string := pretty n.

End Text.

(** ** The upstream search client: the request parameters *)

Module Params.

(** [interface SearXNGSearchParams], the members that [search] reads. *)
Record SearXNGSearchParams := mkSearchParams {
  sp_q : string;
  sp_categories : option (list string);
  sp_engines : option (list string);
  sp_language : option string;
  sp_pageno : option nat;
  sp_time_range : option string;
  sp_enabled_engines : option (list string);
  sp_disabled_engines : option (list string);
}.

(** [...(v && { key: v })] for a string member. *)
Definition optional (key : string) (v : option string) : list (string * string) :=
  match v with
  | Some s => if JS.truthy v then [(key, s)] else []
  | None => []
  end.

(** [if (value && Array.isArray(value)) params.append(key,
    value.join(','))]; an array is truthy also when empty. *)
Definition arrayParam (key : string) (value : option (list string)) : list (string * string) :=
  match value with
  | Some l => [(key, Str.join (String Text.comma EmptyString) l)]
  | None => []
  end.

(** The [URLSearchParams] that [search] sends, as the list of its
    entries. *)
Definition urlSearchParams (query : SearXNGSearchParams) : list (string * string) :=
  [("q", sp_q query); ("format", "json")]
  ++ optional "language" (sp_language query)
  ++ match sp_pageno query with
     | Some (S n) => [("pageno", Text.ofNat (S n))]
     | _ => []
     end
  ++ optional "time_range" (sp_time_range query)
  ++ arrayParam "categories" (sp_categories query)
  ++ arrayParam "engines" (sp_engines query)
  ++ arrayParam "enabled_engines" (sp_enabled_engines query)
  ++ arrayParam "disabled_engines" (sp_disabled_engines query).

(** The object literal that [cachedWebSearch] passes to [search]. *)
Definition ofCache (p : Cache.SearchParams) : SearXNGSearchParams :=
  mkSearchParams (Cache.p_q p) (Some (Cache.p_categories p)) (Some (Cache.p_engines p))
                 (Cache.p_language p) (Some (Cache.p_pageno p)) None None None.

End Params.

(** ** [CrawlerHost.isValidTLD] *)

Module Tld.

(** [parts.length > 1 && parts[parts.length - 1].length >= 2] for
    [parts = hostname.split('.')]. *)
Definition isValidTLD (hostname : string) : bool :=
  let parts := Text.split Text.dot hostname in
  (1 <? length parts)%nat
  && match last parts with
     | Some tld => (2 <=? String.length tld)%nat
     | None => false
     end.

End Tld.

(** ** [CrawlerHost.getTurndown]: the replacement of the rule
    [improved-code] *)

Module Rules.

(** A run of [n] backticks. *)
Fixpoint backticks (n : nat) : string :=
  match n with
  | O => EmptyString
  | S m => String Text.backtick (backticks m)
  end.

(** [content.match(/`+/gm) || []]: the maximal runs of backticks, from
    left to right; [run] is the length of the run being read. *)
Fixpoint backtickRuns (run : nat) (content : string) : list string :=
  match content with
  | EmptyString => if (run =? 0)%nat then [] else [backticks run]
  | String c rest =>
      if Ascii.eqb c Text.backtick then backtickRuns (S run) rest
      else (if (run =? 0)%nat then [] else [backticks run]) ++ backtickRuns 0 rest
  end.

(** [while (matches.indexOf(delimiter) !== -1) delimiter = delimiter +
    '`'], for at most [fuel] rounds. *)
Fixpoint growDelimiter (fuel : nat) (matches : list string) (delimiter : string) : string :=
  match fuel with
  | O => delimiter
  | S fuel' =>
      if bool_decide (delimiter ∈ matches)
      then growDelimiter fuel' matches (delimiter ++ "`")%string
      else delimiter
  end.

(** A character that [.] matches: any but a line terminator. *)
Definition isDot (c : ascii) : bool :=
  negb (Ascii.eqb c Str.newline) && negb (Ascii.eqb c Text.cr).

(** [/.* $/] anchored at both ends. *)
Fixpoint dotsThenSpaceEnd (s : string) : bool :=
  match s with
  | EmptyString => false
  | String c rest =>
      (Ascii.eqb c Text.space && String.eqb rest "")
      || (isDot c && dotsThenSpaceEnd rest)
  end.

(** [/.*?[^ ].* $/] anchored at both ends. *)
Fixpoint pivotThenSpaceEnd (s : string) : bool :=
  match s with
  | EmptyString => false
  | String c rest =>
      (negb (Ascii.eqb c Text.space) && dotsThenSpaceEnd rest)
      || (isDot c && pivotThenSpaceEnd rest)
  end.

(** [/^`|^ .*?[^ ].* $|`$/.test(content)]. *)
Definition needsExtraSpace (content : string) : bool :=
  Str.startsWith Text.backtick content
  || match content with
     | String c rest => Ascii.eqb c Text.space && pivotThenSpaceEnd rest
     | EmptyString => false
     end
  || Str.endsWith Text.backtick content.

(** [s.endsWith(suffix)]. *)
Fixpoint endsWithString (suffix s : string) : bool :=
  String.eqb s suffix
  || match s with
     | String _ rest => endsWithString suffix rest
     | EmptyString => false
     end.

(** The replacement function of the rule [improved-code].  The [while]
    loop runs on the fuel of one round per match and one more. *)
Definition improvedCode (inputContent : string) : string :=
  if String.eqb inputContent "" then ""
  else
    let content := inputContent in
    let matches := backtickRuns 0 content in
    let delimiter0 := growDelimiter (S (length matches)) matches "`" in
    let delimiter := if Text.includesChar Str.newline content then "```" else delimiter0 in
    let extraSpace :=
      if String.eqb delimiter "```" then Str.nl
      else if needsExtraSpace content then " " else "" in
    (delimiter ++ extraSpace ++ content
     ++ (if String.eqb delimiter "```" && negb (endsWithString extraSpace content)
         then extraSpace else "")
     ++ delimiter)%string.

End Rules.

(** ** More sample inputs *)

Module MoreSamples.

(** A snapshot over the depth limit. *)
Definition deepSnapshot : Crawler.PageSnapshot :=
  Crawler.mkSnapshot 8 "http://d.example/" (Some "Deep")
    (Some "<html><p>hello</p></html>") (Some " hello ")
    None None None None None None (Some 300%Z) (Some 10%Z).

End MoreSamples.

(** ** [CrawlerHost.crawl], [scrap], [getTargetUrl],
    [sendFormattedResponse], [simpleCrawl] *)

Module Crawl.
Import Crawler.

(** The members of a [URL] that the handler reads; [urlHref] is its
    [toString()]. *)
Record URL := mkURL { protocol : string; hostname : string; urlHref : string }.

(** A selector option: [string | string[]]. *)
Inductive Selector :=
| One (s : string)
| Many (l : list string).

Definition selectorTruthy (v : option Selector) : bool :=
  match v with
  | Some (One s) => negb (String.eqb s "")
  | Some (Many _) => true
  | None => false
  end.

(** [CrawlerOptions], the members that [crawl], [scrap], [configure]
    and [getTargetUrl] branch on. *)
Record CrawlerOptions := mkCrawlerOptions {
  optUrl : option string;
  optHtml : option string;
  respondWith : string;
  waitForSelector : option Selector;
  targetSelector : option Selector;
  removeSelector : option Selector;
  withIframe : bool;
  timeout : option Z;
}.

(** [ExtraScrappingOptions], what [configure] derives for them. *)
Record ExtraScrappingOptions := mkScrappingOptions {
  favorScreenshot : bool;
  scrapRemoveSelector : option Selector;
  scrapTargetSelector : option Selector;
  scrapWaitForSelector : option Selector;
  timeoutMs : option Z;
  scrapWithIframe : bool;
}.

(** [configure(opts, req)], the options it returns. *)
Definition configure (opts : CrawlerOptions) : ExtraScrappingOptions :=
  mkScrappingOptions
    (JS.includes ["screenshot"; "pageshot"] (respondWith opts))
    (removeSelector opts) (targetSelector opts) (waitForSelector opts)
    (match timeout opts with
     | Some t => if (t =? 0)%Z then None else Some (t * 1000)%Z
     | None => None
     end)
    (withIframe opts).

Record Request := mkRequest { method : string; reqUrl : string }.

(** A snapshot as the scraper yields it: what [formatSnapshot] reads,
    and the [pdfs]. *)
Record Scrapped := mkScrapped { snapshot : PageSnapshot; pdfs : option (list string) }.

(** An error thrown while scraping or formatting. *)
Record ScrapError := mkScrapError { isAssertionFailure : bool; message : string }.

(** An asynchronous stream of snapshots, run to its end: what it
    yields, in order, and how it ends. *)
Inductive Ending :=
| Finished
| Failed (err : ScrapError).

Record Stream := mkStream { items : list (option Scrapped); ending : Ending }.

(** [s.slice(n)] for [n >= 0]. *)
Fixpoint slice (n : nat) (s : string) : string :=
  match n, s with
  | S m, String _ rest => slice m rest
  | _, _ => s
  end.

(** [s.includes(sub)]. *)
Fixpoint includesString (sub s : string) : bool :=
  String.prefix sub s
  || match s with
     | String _ rest => includesString sub rest
     | EmptyString => false
     end.

(** *** The response *)

Record Answer := mkAnswer {
  aStatus : Z;
  aContentType : option string;
  aHeaders : list (string * string);
  aBody : string;
}.

(** The Express response object: the status, the content type and the
    headers set so far, and what [res.send] has put on the wire. *)
Record Res := mkRes {
  status : Z;
  contentType : option string;
  headers : list (string * string);
  sent : list Answer;
}.

Definition fresh : Res := mkRes 200 None [] [].

Record Meta := mkMeta {
  code : option Z;
  metaContentType : option string;
  metaHeaders : list (string * option string);
}.

Definition setHeader (r : Res) (key value : string) : Res :=
  mkRes (status r) (contentType r)
        (filter (fun kv => fst kv <> key) (headers r) ++ [(key, value)]) (sent r).

(** [sendResponse(res, data, meta)] of [crawler.ts]: it does not look
    at [res.headersSent]. *)
Definition sendResponse (r : Res) (data : string) (meta : Meta) : Res :=
  let r1 := match code meta with
            | Some c => if (c =? 0)%Z then r else mkRes c (contentType r) (headers r) (sent r)
            | None => r
            end in
  let r2 := if JS.truthy (metaContentType meta)
            then mkRes (status r1) (metaContentType meta) (headers r1) (sent r1)
            else r1 in
  let r3 := foldl (fun acc kv => match snd kv with
                                 | Some value => setHeader acc (fst kv) value
                                 | None => acc
                                 end) r2 (metaHeaders meta) in
  mkRes (status r3) (contentType r3) (headers r3)
        (sent r3 ++ [mkAnswer (status r3) (contentType r3) (headers r3) data]).

Definition plain (c : option Z) : Meta := mkMeta c (Some "text/plain") [].

(** The [toString] that [formatSnapshot] gives the page it builds in
    the mode [mode]. *)
Definition pageString (mode : string) (p : FormattedPage) : option string :=
  if String.eqb mode "screenshot" then screenshotUrl p
  else if String.eqb mode "pageshot" then pageshotUrl p
  else if String.eqb mode "html" then html p
  else if String.eqb mode "text" then text p
  else pageToString mode p.

(** [sendFormattedResponse(res, formatted, respondWith)], for a page
    formatted in the mode [respondWith]. *)
Definition sendFormattedResponse (r : Res) (formatted : FormattedPage) (respondWith : string) : Res :=
  let data := template (pageString respondWith formatted) in
  if String.eqb respondWith "screenshot" && JS.truthy (screenshotUrl formatted) then
    sendResponse r data (mkMeta (Some 302%Z) None [("Location", screenshotUrl formatted)])
  else if String.eqb respondWith "pageshot" && JS.truthy (pageshotUrl formatted) then
    sendResponse r data (mkMeta (Some 302%Z) None [("Location", pageshotUrl formatted)])
  else sendResponse r data (plain None).

Definition internalError (r : Res) : Res :=
  sendResponse r "Internal server error" (plain (Some 500%Z)).

(** *** The loop over the snapshots *)

(** [(!scrapped?.parsed?.content || !scrapped.title?.trim()) &&
    !scrapped?.pdfs?.length] for a defined [scrapped]. *)
Definition incomplete (s : Scrapped) : bool :=
  (negb (JS.truthy (match parsed (snapshot s) with Some p => parsedContent p | None => None end))
   || negb (JS.truthy (Str.trim <$> snapTitle (snapshot s))))
  && match pdfs s with Some l => (length l =? 0)%nat | None => true end.

(** [if (scrapError instanceof AssertionFailureError && (...))]. *)
Definition domainError (e : ScrapError) : bool :=
  isAssertionFailure e
  && (includesString "Invalid TLD" (message e)
      || includesString "ERR_NAME_NOT_RESOLVED" (message e)).

Definition errorSnapshot (parsedUrl : URL) : PageSnapshot :=
  mkSnapshot 0 (urlHref parsedUrl) (Some "Error: Invalid domain or TLD") (Some "")
    (Some ("Failed to access the page due to an invalid domain or TLD: " ++ urlHref parsedUrl)%string)
    None None None None None None None None.

(** [{ href, html, title: '', text: '' }] of [scrap]. *)
Definition fakeSnapshot (urlToCrawl : URL) (html : string) : Scrapped :=
  mkScrapped (mkSnapshot 0 (urlHref urlToCrawl) (Some "") (Some html) (Some "")
                None None None None None None None None) None.

(** [lastSnapshot?.parsed?.content], as a condition. *)
Definition hasParsedContent (x : option Scrapped) : bool :=
  JS.truthy (match x with
             | Some s => match parsed (snapshot s) with
                         | Some p => parsedContent p
                         | None => None
                         end
             | None => None
             end).

Inductive Target :=
| TargetThrows
| TargetNull
| TargetUrl (result : URL).

Inductive LoopOutcome :=
| Answered (formatted : FormattedPage)
| Exhausted (lastScrapped : option Scrapped)
| Thrown (err : ScrapError).

Section Handler.
(** [CrawlerOptionsHeaderOnly.from(req)] and [CrawlerOptions.from(...)];
    [None] when the call throws. *)
Variable optionsHeaderOnly : Request -> option CrawlerOptions.
Variable optionsParamsAllowed : Request -> option CrawlerOptions.
Variable tryDecodeURIComponent : string -> string.
(** [new URL(normalizeUrl(url, {...}))]; [None] when it throws. *)
Variable normalizedURL : string -> option URL.
(** [puppeteerControl.scrap(url, crawlOpts)], run to its end. *)
Variable puppeteerScrap : URL -> ExtraScrappingOptions -> Stream.
(** [jsdomControl.narrowSnapshot(x, crawlOpts)]. *)
Variable narrowSnapshot : option Scrapped -> ExtraScrappingOptions -> ScrapError + option Scrapped.
(** [formatSnapshot(mode, snapshot, nominalUrl)], rejected or
    fulfilled. *)
Variable format : string -> PageSnapshot -> option string -> ScrapError + FormattedPage.

(** [getTargetUrl(originPath, crawlerOptions)]. *)
Definition getTargetUrl (originPath : string) (crawlerOptions : CrawlerOptions) : Target :=
  let targetUrlFromGet := slice 3 originPath in
  let url :=
    if negb (String.eqb targetUrlFromGet "") then Some (Str.trim targetUrlFromGet)
    else match optUrl crawlerOptions with
         | Some u => if JS.truthy (optUrl crawlerOptions) then Some (Str.trim u) else None
         | None => None
         end in
  match url with
  | None => TargetNull
  | Some url =>
      match normalizedURL url with
      | None => TargetThrows
      | Some result =>
          if JS.includes ["http:"; "https:"; "file:"] (protocol result)
          then TargetUrl result else TargetThrows
      end
  end.

(** [for await (const x of ...) yield narrowSnapshot(x, crawlOpts)]. *)
Fixpoint narrowAll (crawlOpts : ExtraScrappingOptions) (l : list (option Scrapped))
    (e : Ending) : Stream :=
  match l with
  | [] => mkStream [] e
  | x :: rest =>
      match narrowSnapshot x crawlOpts with
      | inl err => mkStream [] (Failed err)
      | inr y =>
          let s := narrowAll crawlOpts rest e in
          mkStream (y :: items s) (ending s)
      end
  end.

(** [scrap(urlToCrawl, crawlOpts, crawlerOpts)], run to its end. *)
Definition scrap (urlToCrawl : URL) (crawlOpts : ExtraScrappingOptions)
    (crawlerOpts : option CrawlerOptions) : Stream :=
  match match crawlerOpts with
        | Some o => if JS.truthy (optHtml o) then optHtml o else None
        | None => None
        end with
  | Some html => narrowAll crawlOpts [Some (fakeSnapshot urlToCrawl html)] Finished
  | None =>
      if selectorTruthy (scrapTargetSelector crawlOpts)
         || selectorTruthy (scrapRemoveSelector crawlOpts)
         || scrapWithIframe crawlOpts
      then narrowAll crawlOpts (items (puppeteerScrap urlToCrawl crawlOpts))
             (ending (puppeteerScrap urlToCrawl crawlOpts))
      else puppeteerScrap urlToCrawl crawlOpts
  end.

(** The [for await] loop of [crawl] over what is left of the stream:
    how it ends, and the snapshots it has formatted.  An undefined
    [scrapped] satisfies the condition of the [continue]. *)
Fixpoint scrapLoop (crawlerOptions : CrawlerOptions) (parsedUrl : URL)
    (rest : list (option Scrapped)) (e : Ending) (lastScrapped : option Scrapped)
    : LoopOutcome * list PageSnapshot :=
  match rest with
  | [] =>
      (match e with Finished => Exhausted lastScrapped | Failed err => Thrown err end, [])
  | None :: rest' => scrapLoop crawlerOptions parsedUrl rest' e None
  | Some scrapped :: rest' =>
      if selectorTruthy (waitForSelector crawlerOptions) || incomplete scrapped
      then scrapLoop crawlerOptions parsedUrl rest' e (Some scrapped)
      else
        match format (respondWith crawlerOptions) (snapshot scrapped) (Some (urlHref parsedUrl)) with
        | inl err => (Thrown err, [snapshot scrapped])
        | inr formatted =>
            match timeout crawlerOptions with
            | None => (Answered formatted, [snapshot scrapped])
            | Some _ =>
                let '(outcome, done) :=
                  scrapLoop crawlerOptions parsedUrl rest' e (Some scrapped) in
                (outcome, snapshot scrapped :: done)
            end
        end
  end.

(** [formatSnapshot] followed by [sendFormattedResponse], inside the
    outer [try]. *)
Definition formatAndSend (r : Res) (crawlerOptions : CrawlerOptions) (parsedUrl : URL)
    (x : PageSnapshot) : Res :=
  match format (respondWith crawlerOptions) x (Some (urlHref parsedUrl)) with
  | inr formatted => sendFormattedResponse r formatted (respondWith crawlerOptions)
  | inl _ => internalError r
  end.

(** [crawl] from [configure] on, for a validated URL: the response
    object afterwards and the snapshots formatted. *)
Definition scrapAndRespond (crawlerOptions : CrawlerOptions) (parsedUrl : URL) (r : Res)
    : Res * list PageSnapshot :=
  let crawlOpts := configure crawlerOptions in
  let stream := scrap parsedUrl crawlOpts (Some crawlerOptions) in
  match scrapLoop crawlerOptions parsedUrl (items stream) (ending stream) None with
  | (Answered formatted, done) =>
      (sendFormattedResponse r formatted (respondWith crawlerOptions), done)
  | (Thrown err, done) =>
      if domainError err
      then (formatAndSend r crawlerOptions parsedUrl (errorSnapshot parsedUrl),
            done ++ [errorSnapshot parsedUrl])
      else (internalError r, done)
  | (Exhausted None, done) =>
      (sendResponse r "No content available" (plain (Some 404%Z)), done)
  | (Exhausted (Some lastScrapped), done) =>
      (formatAndSend r crawlerOptions parsedUrl (snapshot lastScrapped),
       done ++ [snapshot lastScrapped])
  end.

(** [crawl(req, res)].  The call [circuitBreakerHosts.add] is on the
    scraper and is left out. *)
Definition crawl (req : Request) (r : Res) : Res * list PageSnapshot :=
  match optionsHeaderOnly req, optionsParamsAllowed req with
  | Some crawlerOptionsHeaderOnly, Some crawlerOptionsParamsAllowed =>
      let crawlerOptions :=
        if String.eqb (method req) "GET" then crawlerOptionsHeaderOnly
        else crawlerOptionsParamsAllowed in
      match getTargetUrl (tryDecodeURIComponent (reqUrl req)) crawlerOptions with
      | TargetThrows => (internalError r, [])
      | TargetNull => (sendResponse r "Invalid URL" (plain (Some 400%Z)), [])
      | TargetUrl parsedUrl =>
          if negb (JS.includes ["http:"; "https:"] (protocol parsedUrl))
             || negb (Tld.isValidTLD (hostname parsedUrl))
          then (sendResponse r "Invalid URL or TLD" (plain (Some 400%Z)), [])
          else scrapAndRespond crawlerOptions parsedUrl r
      end
  | _, _ => (internalError r, [])
  end.

(** The loop of [simpleCrawl]: [lastSnapshot] when the loop is left,
    and whether it was left by the stream throwing. *)
Fixpoint simpleLoop (rest : list (option Scrapped)) (e : Ending)
    (lastSnapshot : option Scrapped) (goodEnough : bool) : option Scrapped * option ScrapError :=
  match rest with
  | [] => (lastSnapshot, match e with Finished => None | Failed err => Some err end)
  | x :: rest' =>
      if goodEnough then (x, None)
      else simpleLoop rest' e x (hasParsedContent x)
  end.

(** [simpleCrawl(mode, url, opts)]. *)
Definition simpleCrawl (mode : string) (url : URL) (opts : ExtraScrappingOptions)
    : ScrapError + FormattedPage :=
  let it := scrap url opts None in
  match simpleLoop (items it) (ending it) None false with
  | (Some lastSnapshot, _) => format mode (snapshot lastSnapshot) (Some (urlHref url))
  | (None, Some err) => inl err
  | (None, None) => inl (mkScrapError true "No content available")
  end.

End Handler.

End Crawl.

(** ** [crawl]: the shapes of an answer, the snapshots it formats *)

Module CrawlView.
Import Crawl.

(** An answer of type [text/plain] without further headers. *)
Definition plainAnswer (a : Answer) (st : Z) (body : string) : Prop :=
  a = mkAnswer st (Some "text/plain") [] body.

(** A redirection to a stored shot: the body repeats the location. *)
Definition redirect (a : Answer) : Prop :=
  exists location, location <> "" /\ a = mkAnswer 302 None [("Location", location)] location.

(** The snapshots of a stream that do not meet the condition of the
    [continue] in the loop of [crawl]. *)
Definition completeOnes (crawlerOptions : CrawlerOptions) (l : list (option Scrapped))
    : list Scrapped :=
  if selectorTruthy (waitForSelector crawlerOptions) then []
  else filter (fun s => incomplete s = false) (omap (fun x => x) l).

(** [lastScrapped] after the whole of a stream. *)
Definition lastOf (l : list (option Scrapped)) : option Scrapped :=
  match last l with Some x => x | None => None end.

End CrawlView.

(** ** Sample inputs for [crawl] *)

Module CrawlSamples.
Import Crawl.

Definition getOptions : CrawlerOptions :=
  mkCrawlerOptions None None "markdown" None None None false None.

Definition timedOptions : CrawlerOptions :=
  mkCrawlerOptions None None "markdown" None None None false (Some 10%Z).

(** A stand-in for [new URL(normalizeUrl(...))]: every input is an
    [http:] URL of the host [a.example]. *)
Definition toyURL (s : string) : option URL := Some (mkURL "http:" "a.example" s).

Definition sampleTarget : URL := mkURL "http:" "a.example" "http://a.example/".

Definition emptySnapshot : Crawler.PageSnapshot :=
  Crawler.mkSnapshot 1 "http://a.example/" None (Some "<html></html>") (Some "")
    None None None None None None None None.

(** Two snapshots: a first one without title and content, then the
    complete one. *)
Definition toyScrap (u : URL) (o : ExtraScrappingOptions) : Stream :=
  mkStream [Some (mkScrapped emptySnapshot None); Some (mkScrapped Samples.sampleSnapshot None)]
           Finished.

Definition toyNarrow (x : option Scrapped) (o : ExtraScrappingOptions)
    : ScrapError + option Scrapped := inr x.

Definition toyCrawlFormat (mode : string) (x : Crawler.PageSnapshot) (nominalUrl : option string)
    : ScrapError + FormattedPage :=
  match Samples.toyFormat mode x nominalUrl with
  | Some (page, _) => inr page
  | None => inl (mkScrapError false "format")
  end.

Definition sampleRequest : Request := mkRequest "GET" "/r/http://a.example/".

End CrawlSamples.

(** ** A search request, end to end: the generator drives the loop *)

Module Request.
Import Pipeline.

Definition isTimerFire (e : Event) : bool :=
  match e with TimerFire => true | _ => false end.

(** The events that the generator [fetchSearchResults] gives the loop
    of [search]: its batches, then its return or its throw. *)
Definition generatorEvents (out : list (list FormattedPage) * bool) : list Event :=
  (Emit <$> fst out) ++ [if snd out then Throw else Done].

(** The loop reads the generator from its start, as far as it gets;
    between two of its events the callback of the timer may run. *)
Definition drivenBy (evs generator : list Event) : Prop :=
  filter (fun e => isTimerFire e = false) evs `prefix_of` generator.

End Request.

(** ** The string form of a batch: the [toString] of the entries and
    of the array that [reOrganizeSearchResults] returns *)

Module Render.
Import Crawler.

(** [`[${i + 1}] `]. *)
Definition tag (i : nat) : string := ("[" ++ Text.ofNat (i + 1) ++ "] ")%string.

(** The [toString] of the entry at position [i], a copy of the page
    [x]. *)
Definition entryToString (i : nat) (x : FormattedPage) : string :=
  if negb (JS.truthy (content x)) && JS.truthy (description x) then
    if JS.truthy (title x) || JS.truthy (textRepresentation x) then
      let textRep :=
        if JS.truthy (textRepresentation x)
        then (Str.nl ++ tag i ++ "Content: " ++ Str.nl ++ template (textRepresentation x))%string
        else "" in
      (tag i ++ "Title: " ++ template (title x) ++ Str.nl
       ++ tag i ++ "URL Source: " ++ template (url x) ++ Str.nl
       ++ tag i ++ "Description: " ++ template (description x) ++ textRep ++ Str.nl)%string
    else (tag i ++ "No content available for " ++ template (url x))%string
  else
    let mixins :=
      (if JS.truthy (description x)
       then [(tag i ++ "Description: " ++ template (description x))%string] else [])
      ++ (if JS.truthy (publishedTime x)
          then [(tag i ++ "Published Time: " ++ template (publishedTime x))%string] else []) in
    let suffixMixins :=
      match images x with
      | Some im => [summaryChunks (tag i ++ "Images:") "!"
                      "This page does not seem to contain any images." im]
      | None => []
      end ++
      match links x with
      | Some li => [summaryChunks (tag i ++ "Links/Buttons:") ""
                      "This page does not seem to contain any buttons/links." li]
      | None => []
      end in
    (tag i ++ "Title: " ++ template (title x) ++ Str.nl
     ++ tag i ++ "URL Source: " ++ template (url x)
     ++ (if (length mixins =? 0)%nat then "" else Str.nl ++ Str.join Str.nl mixins)
     ++ Str.nl ++ tag i ++ "Markdown Content:" ++ Str.nl
     ++ template (content x) ++ Str.nl
     ++ (if (length suffixMixins =? 0)%nat then ""
         else Str.nl ++ Str.join Str.nl suffixMixins ++ Str.nl))%string.

(** [resultArray.toString]: every entry is an object. *)
Definition batchToString (resultArray : list FormattedPage) : string :=
  (Str.trimEnd (Str.join (Str.nl ++ Str.nl) (imap entryToString resultArray)) ++ Str.nl)%string.

End Render.

(** ** Runs of line feeds *)

Module Runs.


End Runs.

(** ** [search]: the count of a request *)

Module Count.

(** A JavaScript number: a finite value, an infinity or [NaN]. *)
Inductive Number :=
| NaN
| NegInfinity
| Finite (q : Q)
| Infinity.

(** [Math.min(a, b)] and [Math.max(a, b)]. *)
Definition mathMin (a b : Number) : Number :=
  match a, b with
  | NaN, _ | _, NaN => NaN
  | NegInfinity, _ | _, NegInfinity => NegInfinity
  | Infinity, x | x, Infinity => x
  | Finite p, Finite q => if Qle_bool p q then a else b
  end.

Definition mathMax (a b : Number) : Number :=
  match a, b with
  | NaN, _ | _, NaN => NaN
  | Infinity, _ | _, Infinity => Infinity
  | NegInfinity, x | x, NegInfinity => x
  | Finite p, Finite q => if Qle_bool p q then b else a
  end.

(** [ctx.req.query['count'] ? Math.max(1, Math.min(Number(
    ctx.req.query['count']), 20)) : 5], for a query value that is
    truthy or not and that [Number] converts to [asNumber]. *)
Definition requestCount (truthy : bool) (asNumber : Number) : Number :=
  if truthy then mathMax (Finite (inject_Z 1)) (mathMin asNumber (Finite (inject_Z 20)))
  else Finite (inject_Z 5).

End Count.

(** * Properties *)

(** ** Truthiness and qualification *)

Lemma truthy_nonEmpty v : JS.truthy v = true <-> Spec.nonEmpty v.
Proof.
  unfold Spec.nonEmpty. destruct v as [s|]; simpl.
  - rewrite negb_true_iff. split.
    + intros H. exists s. split; [done|]. intros ->. by rewrite String.eqb_refl in H.
    + intros (s' & [= <-] & Hne). by apply String.eqb_neq.
  - split; [done|]. by intros (s & [=] & _).
Qed.

Lemma pageQualified_spec p : Searcher.pageQualified p = true <-> Spec.qualified p.
Proof.
  unfold Searcher.pageQualified, Spec.qualified.
  rewrite !orb_true_iff, andb_true_iff, !truthy_nonEmpty. tauto.
Qed.

Lemma searchResultsQualified_spec batch count :
  Searcher.searchResultsQualified batch count = true <-> Spec.gate batch count.
Proof.
  unfold Searcher.searchResultsQualified, Spec.gate.
  rewrite andb_true_iff, forallb_forall, Nat.leb_le.
  split; intros [H1 H2]; split; try done.
  - intros p Hp. apply pageQualified_spec, H1. by apply list_elem_of_In.
  - intros p Hp. apply pageQualified_spec, H1. by apply list_elem_of_In.
Qed.

(** ** The response loop *)

Section PipelineFacts.
Import Searcher Pipeline.
Variable timeout : option Z.
Variable count : nat.

Lemma run_app s evs1 evs2 :
  run timeout count s (evs1 ++ evs2)
  = match run timeout count s evs1 with
    | Some s' => run timeout count s' evs2
    | None => None
    end.
Proof.
  revert s. induction evs1 as [|e evs1 IH]; intros s; simpl; [done|].
  destruct (step timeout count s e); [apply IH | done].
Qed.

Lemma sendResponse_wire r data meta :
  wire (sendResponse r data meta)
  = if headersSent r then wire r else wire r ++ [(status (sendResponse r data meta), data)].
Proof.
  unfold sendResponse. destruct (headersSent r) eqn:Hs; [done|].
  destruct meta as [[c|] ct]; simpl;
    repeat (match goal with |- context [if ?b then _ else _] => destruct b end; simpl);
    done.
Qed.

Lemma sendResponse_headersSent r data meta :
  headersSent (sendResponse r data meta) = true.
Proof.
  unfold sendResponse. destruct (headersSent r) eqn:Hs; [done|]. done.
Qed.

Lemma sendResponse_resOk r data meta : resOk r -> resOk (sendResponse r data meta).
Proof.
  intros [Hlen Hnil]. split.
  - rewrite sendResponse_wire. destruct (headersSent r); [done|].
    rewrite Hnil by done. simpl. lia.
  - rewrite sendResponse_headersSent. done.
Qed.

Lemma setEarlyReturnTimer_ok s : timerOk timeout s -> timerOk timeout (setEarlyReturnTimer timeout s).
Proof.
  intros H. pose proof H as (H1 & H2 & H3). unfold setEarlyReturnTimer.
  destruct (earlyReturnTimer s) eqn:E; [exact H|].
  split_and!; simpl; [eauto | done |].
  intros _. by rewrite H2.
Qed.

Lemma clearEarlyReturnTimer_ok s : timerOk timeout s -> timerOk timeout (clearEarlyReturnTimer s).
Proof.
  intros H. pose proof H as (H1 & H2 & H3). unfold clearEarlyReturnTimer.
  destruct (earlyReturnTimer s) eqn:E; [|exact H].
  split_and!; simpl; [done | done | ].
  intros _. rewrite filter_app, H3 by done.
  rewrite filter_cons_False, filter_nil by (simpl; done). done.
Qed.

Lemma clearEarlyReturnTimer_pending s :
  timerOk timeout s -> timerPending (clearEarlyReturnTimer s) = false.
Proof.
  intros (H1 & _). unfold clearEarlyReturnTimer.
  destruct (earlyReturnTimer s) eqn:E; simpl; [done|].
  destruct (timerPending s); [|done]. destruct H1 as [? H1]; done.
Qed.

Lemma clearEarlyReturnTimer_res s : res (clearEarlyReturnTimer s) = res s.
Proof. unfold clearEarlyReturnTimer. by destruct (earlyReturnTimer s). Qed.

Lemma step_ok s e s' : step timeout count s e = Some s' -> stateOk timeout s -> stateOk timeout s'.
Proof.
  intros Hstep [Ht Hr].
  destruct e; simpl in Hstep;
    repeat match type of Hstep with
           | (if ?b then _ else _) = _ => destruct b eqn:?; [|discriminate]
           end;
    injection Hstep as <-.
  - (* Emit *)
    unfold onEmit.
    set (s1 := mkState (Some scrapped) _ _ _ _ _).
    assert (Hs1 : timerOk timeout s1) by exact Ht.
    assert (Hs2 : timerOk timeout (if existsb pageQualified scrapped
                           then setEarlyReturnTimer timeout s1 else s1))
      by (destruct (existsb pageQualified scrapped); [by apply setEarlyReturnTimer_ok | done]).
    assert (Hr2 : res (if existsb pageQualified scrapped
                       then setEarlyReturnTimer timeout s1 else s1) = res s).
    { destruct (existsb pageQualified scrapped); [|done].
      unfold setEarlyReturnTimer. by destruct (earlyReturnTimer s1). }
    destruct (negb (searchResultsQualified scrapped count)).
    + split; [done | by rewrite Hr2].
    + split.
      * by apply clearEarlyReturnTimer_ok in Hs2.
      * simpl. apply sendResponse_resOk. by rewrite clearEarlyReturnTimer_res, Hr2.
  - (* Done *)
    unfold onDone.
    assert (Hc : timerOk timeout (clearEarlyReturnTimer s)) by by apply clearEarlyReturnTimer_ok.
    pose proof (clearEarlyReturnTimer_res s) as Hrc.
    destruct (lastScrapped (clearEarlyReturnTimer s)); split; try done;
      simpl; apply sendResponse_resOk; by rewrite Hrc.
  - (* Throw *)
    split; [done|]. simpl. by apply sendResponse_resOk.
  - (* TimerFire *)
    unfold onTimer. simpl. destruct Ht as (H1 & H2 & H3).
    destruct (lastScrapped s); (split; [split_and!; simpl; done |]); simpl; [|done].
    by apply sendResponse_resOk.
Qed.

Lemma init_ok : stateOk timeout init.
Proof.
  split; [split_and!; simpl; try done; by intros [? ?] | split; simpl; [lia | done]].
Qed.

Lemma run_ok evs s s' : run timeout count s evs = Some s' -> stateOk timeout s -> stateOk timeout s'.
Proof.
  revert s. induction evs as [|e evs IH]; intros s; simpl.
  - by intros [= <-].
  - destruct (step timeout count s e) as [s1|] eqn:Hs; [|done].
    intros Hrun Hok. eapply IH; [done|]. by eapply step_ok.
Qed.

Lemma step_armed s e s' :
  step timeout count s e = Some s' ->
  is_Some (earlyReturnTimer s') <->
  is_Some (earlyReturnTimer s) \/ seenQualified [e] = true.
Proof.
  intros Hstep.
  destruct e; simpl in Hstep;
    repeat match type of Hstep with
           | (if ?b then _ else _) = _ => destruct b eqn:?; [|discriminate]
           end;
    injection Hstep as <-; simpl.
  - unfold onEmit, setEarlyReturnTimer, clearEarlyReturnTimer. rewrite orb_false_r.
    destruct (existsb pageQualified scrapped), (earlyReturnTimer s) eqn:E,
      (negb (searchResultsQualified scrapped count)); simpl; rewrite ?E; simpl;
      split; intros H; try (by left); try (by right); try (by eauto);
      try (destruct H as [[? ?]|?]; done).
  - unfold onDone, clearEarlyReturnTimer.
    destruct (earlyReturnTimer s) eqn:E, (lastScrapped s); simpl; rewrite ?E;
      split; intros H; try (by left); try (by eauto); try (destruct H as [[? ?]|?]; done).
  - split; intros H; [by left | by destruct H].
  - unfold onTimer. destruct (lastScrapped s); simpl;
      (split; intros H; [by left | by destruct H]).
Qed.

Lemma run_armed evs s s' :
  run timeout count s evs = Some s' ->
  is_Some (earlyReturnTimer s') <->
  is_Some (earlyReturnTimer s) \/ seenQualified evs = true.
Proof.
  revert s. induction evs as [|e evs IH]; intros s; simpl.
  - intros [= <-]. split; [by left | by intros [?|?]].
  - destruct (step timeout count s e) as [s1|] eqn:Hs; [|done].
    intros Hrun. rewrite (IH _ Hrun), (step_armed _ _ _ Hs). simpl.
    rewrite orb_false_r, orb_true_iff. tauto.
Qed.

End PipelineFacts.

Import Searcher Pipeline Samples.
(** C2: in the loop of [search], a batch that the generator yields is
    returned at once, with the early-return timer no longer pending,
    exactly when every page of the batch is qualified (title and
    content, or screenshotUrl, or pageshotUrl, or text, or html
    non-empty) and the batch has at least [count] entries; otherwise the
    handler keeps running and iterates on. *)
Theorem search_returns_batch_iff_gate
    (timeout : option Z) (count : nat) (evs : list Event) (s : State)
    (batch : list FormattedPage) :
  run timeout count init evs = Some s ->
  phase s = Running ->
  exists s',
    step timeout count s (Emit batch) = Some s'
    /\ (Spec.gate batch count ->
        phase s' = Returned (BatchBody batch)
        /\ timerPending s' = false
        /\ res s' = sendResponse (res s) (BatchBody batch) plainOk)
    /\ (~ Spec.gate batch count ->
        phase s' = Running
        /\ lastScrapped s' = Some batch
        /\ res s' = res s).
Proof.
  intros Hrun Hphase.
  assert (Hok : stateOk timeout s) by (eapply run_ok; [exact Hrun | apply init_ok]).
  destruct Hok as [Ht _].
  unfold step, isRunning. rewrite Hphase. eexists. split; [reflexivity|].
  unfold onEmit.
  set (s1 := mkState (Some batch) _ _ _ _ _).
  assert (Hs2 : timerOk timeout (if existsb pageQualified batch
                                 then setEarlyReturnTimer timeout s1 else s1))
    by (destruct (existsb pageQualified batch); [by apply setEarlyReturnTimer_ok | exact Ht]).
  assert (Hr2 : forall b : bool, res (if b then setEarlyReturnTimer timeout s1 else s1) = res s).
  { intros [|]; [|done]. unfold setEarlyReturnTimer. by destruct (earlyReturnTimer s1). }
  assert (Hp2 : forall b : bool, phase (if b then setEarlyReturnTimer timeout s1 else s1) = Running).
  { intros [|]; [|done]. unfold setEarlyReturnTimer. by destruct (earlyReturnTimer s1). }
  assert (Hl2 : forall b : bool,
             lastScrapped (if b then setEarlyReturnTimer timeout s1 else s1) = Some batch).
  { intros [|]; [|done]. unfold setEarlyReturnTimer. by destruct (earlyReturnTimer s1). }
  destruct (searchResultsQualified batch count) eqn:Hq; simpl.
  - apply searchResultsQualified_spec in Hq. split; [|done].
    intros _. split_and!; [done | | ].
    + by apply clearEarlyReturnTimer_pending with (timeout := timeout).
    + by rewrite clearEarlyReturnTimer_res, Hr2.
  - split.
    + intros Hg. apply searchResultsQualified_spec in Hg. congruence.
    + intros _. by rewrite Hp2, Hl2, Hr2.
Qed.

Lemma search_returns_batch_iff_gate_witness :
  run None 1 init [] = Some init
  /\ phase init = Running
  /\ exists s',
      step None 1 init (Emit [goodPage]) = Some s'
      /\ (Spec.gate [goodPage] 1 ->
          phase s' = Returned (BatchBody [goodPage])
          /\ timerPending s' = false
          /\ res s' = sendResponse (res init) (BatchBody [goodPage]) plainOk)
      /\ (~ Spec.gate [goodPage] 1 ->
          phase s' = Running
          /\ lastScrapped s' = Some [goodPage]
          /\ res s' = res init).
Proof.
  split; [reflexivity|]. split; [reflexivity|].
  apply (search_returns_batch_iff_gate None 1 [] init [goodPage]); reflexivity.
Defined.

(** C8: [setTimeout] is called at most once in a run of the loop, with
    [timeout * 1000] ms when the request gave a (non-zero) timeout in
    seconds and 15000 ms otherwise; the timer is armed exactly from the
    first batch on in which some slot is qualified, and its callback
    never runs before such a batch. *)
Theorem early_return_timer_armed_once
    (timeout : option Z) (count : nat) (evs : list Event) (s : State) :
  run timeout count init evs = Some s ->
  filter (fun c => isSetTimeout c = true) (timerCalls s)
  = (if seenQualified evs then [SetTimeout (earlyReturnDelay timeout)] else [])
  /\ (forall t, timeout = Some t -> t <> 0%Z -> earlyReturnDelay timeout = (t * 1000)%Z)
  /\ (timeout = None \/ timeout = Some 0%Z -> earlyReturnDelay timeout = 15000%Z)
  /\ (is_Some (earlyReturnTimer s) <-> seenQualified evs = true)
  /\ (forall pre post, evs = pre ++ TimerFire :: post -> seenQualified pre = true).
Proof.
  intros Hrun.
  assert (Hok : stateOk timeout s) by (eapply run_ok; [exact Hrun | apply init_ok]).
  destruct Hok as [(H1 & H2 & H3) _].
  assert (Harm : is_Some (earlyReturnTimer s) <-> seenQualified evs = true).
  { rewrite (run_armed _ _ _ _ _ Hrun). simpl. split; [intros [[? ?]|?]; done | by right]. }
  split_and!.
  - destruct (seenQualified evs) eqn:Hq.
    + apply H3, Harm. done.
    + destruct (earlyReturnTimer s) eqn:E.
      * assert (false = true) by (apply Harm; eauto). done.
      * by rewrite H2.
  - intros t -> Ht. unfold earlyReturnDelay.
    destruct (t * 1000 =? 0)%Z eqn:E; [lia | done].
  - intros [-> | ->]; reflexivity.
  - exact Harm.
  - intros pre post ->. rewrite run_app in Hrun.
    destruct (run timeout count init pre) as [s1|] eqn:Hpre; [|done].
    simpl in Hrun. destruct (timerPending s1) eqn:Hp; [|done].
    assert (Hok1 : stateOk timeout s1) by (eapply run_ok; [exact Hpre | apply init_ok]).
    destruct Hok1 as [(Hp1 & _) _].
    apply (run_armed _ _ _ _ _ Hpre) in Hp1; [|done].
    destruct Hp1 as [[? ?]|?]; done.
Qed.

Lemma early_return_timer_armed_once_witness :
  exists s,
    run (Some 3%Z) 2 init [Emit [stubPage]; Emit [goodPage]; TimerFire; Emit [goodPage; goodPage]] = Some s
    /\ filter (fun c => isSetTimeout c = true) (timerCalls s) = [SetTimeout 3000]
    /\ is_Some (earlyReturnTimer s).
Proof.
  eexists. split; [reflexivity|].
  pose proof (early_return_timer_armed_once (Some 3%Z) 2
                [Emit [stubPage]; Emit [goodPage]; TimerFire; Emit [goodPage; goodPage]]
                _ eq_refl) as (Hcalls & _ & _ & Harm & _).
  split; [exact Hcalls | apply Harm; reflexivity].
Defined.

(** C10: [sendResponse] does nothing to a response whose headers have
    been sent, and whatever the order of batches, timer callback, end of
    the generator and errors, at most one body is ever sent for a
    request. *)
Theorem at_most_one_body_sent
    (timeout : option Z) (count : nat) (evs : list Event) (s : State) :
  run timeout count init evs = Some s ->
  (forall r data meta, headersSent r = true -> sendResponse r data meta = r)
  /\ length (wire (res s)) <= 1.
Proof.
  intros Hrun. split.
  - intros r data meta Hs. unfold sendResponse. by rewrite Hs.
  - assert (Hok : stateOk timeout s) by (eapply run_ok; [exact Hrun | apply init_ok]).
    by destruct Hok as [_ [Hlen _]].
Qed.

Lemma at_most_one_body_sent_witness :
  exists s,
    run None 2 init [Emit [goodPage]; TimerFire; Emit [goodPage; goodPage]] = Some s
    /\ wire (res s) = [(200%Z, BatchBody [goodPage])]
    /\ length (wire (res s)) <= 1.
Proof.
  eexists. split; [reflexivity|]. split; [reflexivity|].
  apply (at_most_one_body_sent None 2 [Emit [goodPage]; TimerFire; Emit [goodPage; goodPage]] _ eq_refl).
Defined.

(** ** The search client *)

Section ClientFacts.
Import Client.
Variable Raw : Type.
Variable construct : Raw -> option SearXNGSearchResponse.
Variable http : nat -> Exchange Raw.
Variable jitter : nat -> Z.

Lemma rejected429_inv x :
  rejected429 Raw x = true ->
  exists data, x = HttpResponse 429 data /\ validateStatus 429 = false.
Proof.
  destruct x as [status data|]; simpl; [|done].
  rewrite andb_true_iff, Z.eqb_eq. intros [_ ->]. by exists data.
Qed.

Lemma attempts_not429 n k :
  rejected429 Raw (http k) = false ->
  attempts Raw construct http jitter (S n) k = (settle Raw construct (http k), [Get k]).
Proof.
  simpl. destruct (http k) as [status data|]; simpl; [|done].
  destruct (validateStatus status) eqn:Hv; simpl.
  - intros _. destruct data; simpl; try done. by destruct (construct o).
  - intros ->. by destruct data.
Qed.

Lemma attempts_429 n k :
  rejected429 Raw (http k) = true ->
  attempts Raw construct http jitter (S n) k
  = (fst (attempts Raw construct http jitter n (S k)),
     Get k :: Sleep (500 + jitter k) :: snd (attempts Raw construct http jitter n (S k))).
Proof.
  intros H. destruct (rejected429_inv _ H) as (data & Hx & Hv).
  simpl. rewrite Hx. simpl.
  by destruct (attempts Raw construct http jitter n (S k)).
Qed.

(** The loop entered with [m] tries left at request [k]. *)
Lemma attempts_shape m k :
  attempts Raw construct http jitter m k
  = (if (leading429 Raw http m k <? m)%nat
     then settle Raw construct (http (k + leading429 Raw http m k))
     else inl (DownstreamServiceFailureError "Search failed"),
     flat_map (fun i => [Get i; Sleep (500 + jitter i)]) (seq k (leading429 Raw http m k))
     ++ (if (leading429 Raw http m k <? m)%nat
         then [Get (k + leading429 Raw http m k)] else [])).
Proof.
  revert k. induction m as [|m IH]; intros k; [done|].
  cbn [leading429].
  destruct (rejected429 Raw (http k)) eqn:H.
  - rewrite (attempts_429 m k H), IH.
    replace (S (leading429 Raw http m (S k)) <? S m)%nat
      with (leading429 Raw http m (S k) <? m)%nat by done.
    replace (k + S (leading429 Raw http m (S k)))
      with (S k + leading429 Raw http m (S k)) by lia.
    done.
  - rewrite (attempts_not429 m k H). cbn [seq flat_map app Nat.ltb Nat.leb].
    by rewrite Nat.add_0_r.
Qed.

Lemma leading429_le m k : leading429 Raw http m k <= m.
Proof.
  revert k. induction m as [|m IH]; intros k; simpl; [done|].
  destruct (rejected429 Raw (http k)); [|lia]. specialize (IH (S k)). lia.
Qed.

Lemma requests_shape k n (tail : list Effect) :
  requests (flat_map (fun i => [Get i; Sleep (500 + jitter i)]) (seq k n) ++ tail)
  = seq k n ++ requests tail.
Proof.
  revert k. induction n as [|n IH]; intros k; simpl; [done|].
  unfold requests in *. simpl. by rewrite IH.
Qed.

Lemma sleeps_shape k n (tail : list Effect) :
  sleeps (flat_map (fun i => [Get i; Sleep (500 + jitter i)]) (seq k n) ++ tail)
  = map (fun i => (500 + jitter i)%Z) (seq k n) ++ sleeps tail.
Proof.
  revert k. induction n as [|n IH]; intros k; simpl; [done|].
  unfold sleeps in *. simpl. by rewrite IH.
Qed.

End ClientFacts.

(** C5: a call of the search client makes at most 5 requests; request
    [k+1] is made exactly when the requests up to [k] were all answered
    429 (and [k+1 < 5]), after a sleep of [500 + jitter] ms with
    [0 <= jitter < 1000]; the first request not answered 429 settles the
    call, with the response when it is a 2xx with an object body that
    the constructor accepts and with a [DownstreamServiceFailureError]
    in every other case; five 429 answers end the call with a
    [DownstreamServiceFailureError]. *)
Theorem search_client_retry_policy
    (Raw : Type) (construct : Raw -> option SearXNGSearchResponse)
    (http : nat -> Client.Exchange Raw) (jitter : nat -> Z) :
  (forall k, (0 <= jitter k < 1000)%Z) ->
  let n := Client.leading429 Raw http 5 0 in
  let r := fst (Client.search Raw construct http jitter) in
  let t := snd (Client.search Raw construct http jitter) in
  n <= 5
  /\ Client.requests t = seq 0 (if (n <? 5)%nat then S n else 5)
  /\ length (Client.requests t) <= 5
  /\ t = flat_map (fun i => [Client.Get i; Client.Sleep (500 + jitter i)]) (seq 0 n)
         ++ (if (n <? 5)%nat then [Client.Get n] else [])
  /\ Forall (fun ms => (500 <= ms < 1500)%Z) (Client.sleeps t)
  /\ (n < 5 -> r = Client.settle Raw construct (http n))
  /\ (n < 5 ->
      (exists resp, r = inr resp) <->
      exists status o resp,
        http n = Client.HttpResponse status (Client.JObject o)
        /\ (200 <= status < 300)%Z /\ construct o = Some resp /\ r = inr resp)
  /\ (n < 5 -> (forall resp, r <> inr resp) -> r = inl (DownstreamServiceFailureError "Search failed"))
  /\ (n = 5 -> r = inl (DownstreamServiceFailureError "Search failed")).
Proof.
  intros Hj n r t.
  pose proof (attempts_shape Raw construct http jitter 5 0) as Hshape.
  pose proof (leading429_le Raw http 5 0) as Hle.
  fold n in Hshape, Hle. unfold Client.search in r, t.
  replace (0 + n) with n in Hshape by done.
  assert (Hr : r = if (n <? 5)%nat then Client.settle Raw construct (http n)
                   else inl (DownstreamServiceFailureError "Search failed"))
    by (unfold r; rewrite Hshape; done).
  assert (Ht : t = flat_map (fun i => [Client.Get i; Client.Sleep (500 + jitter i)]) (seq 0 n)
                   ++ (if (n <? 5)%nat then [Client.Get n] else []))
    by (unfold t; rewrite Hshape; done).
  clearbody r t n. clear Hshape.
  assert (Hreq : Client.requests t = seq 0 (if (n <? 5)%nat then S n else 5)).
  { rewrite Ht, requests_shape. destruct (n <? 5)%nat eqn:E.
    - by rewrite seq_S.
    - apply Nat.ltb_ge in E. assert (n = 5) as -> by lia. done. }
  split_and!.
  - done.
  - done.
  - rewrite Hreq, length_seq. destruct (n <? 5)%nat eqn:E; [apply Nat.ltb_lt in E|]; lia.
  - done.
  - rewrite Ht, sleeps_shape.
    apply Forall_app. split.
    + apply Forall_map, Forall_forall. intros i _. simpl. specialize (Hj i). lia.
    + destruct (n <? 5)%nat; by constructor.
  - intros Hn. apply Nat.ltb_lt in Hn. by rewrite Hr, Hn.
  - intros Hn. apply Nat.ltb_lt in Hn. rewrite Hn in Hr. rewrite Hr.
    unfold Client.settle, Client.validateStatus.
    destruct (http n) as [status data|]; [destruct data as [o| | |]|].
    + destruct (200 <=? status)%Z eqn:E1, (status <? 300)%Z eqn:E2; simpl;
        try destruct (construct o) as [resp|] eqn:Ec;
        (split; [intros [resp' [= <-]] || intros [resp' [=]]
                | intros (st & o' & resp' & [= -> ->] & Hst & Hc & Hres)]);
        try (apply Z.leb_gt in E1; lia); try (apply Z.ltb_ge in E2; lia);
        try congruence.
      * exists status, o, resp. apply Z.leb_le in E1. apply Z.ltb_lt in E2. done.
      * eauto.
    + split; [by intros [? [=]] | by intros (? & ? & ? & [=] & _)].
    + split; [by intros [? [=]] | by intros (? & ? & ? & [=] & _)].
    + split; [by intros [? [=]] | by intros (? & ? & ? & [=] & _)].
    + split; [by intros [? [=]] | by intros (? & ? & ? & [=] & _)].
  - intros Hn Hno. apply Nat.ltb_lt in Hn. rewrite Hn in Hr. rewrite Hr in *.
    unfold Client.settle in *.
    destruct (http n) as [status data|]; [destruct data as [o| | |]|]; try done.
    destruct (Client.validateStatus status); [|done].
    destruct (construct o) as [resp|]; [|done]. by destruct (Hno resp).
  - intros ->. by rewrite Hr.
Qed.

Lemma search_client_retry_policy_witness :
  (forall k : nat, (0 <= 7 < 1000)%Z)
  /\ Client.requests (snd (Client.search unit (fun _ => Some sampleResponse) sampleHttp (fun _ => 7%Z)))
     = [0; 1; 2]
  /\ fst (Client.search unit (fun _ => Some sampleResponse) sampleHttp (fun _ => 7%Z))
     = inr sampleResponse.
Proof.
  assert (Hj : forall k : nat, (0 <= 7 < 1000)%Z) by (intros _; lia).
  split; [exact Hj|].
  pose proof (search_client_retry_policy unit (fun _ => Some sampleResponse) sampleHttp
                (fun _ => 7%Z) Hj) as (_ & Hreq & _ & _ & _ & Hres & _).
  split; [exact Hreq | apply Hres; vm_compute; lia].
Defined.

(** ** The search cache *)

Section CacheFacts.
Import Cache.
Variable objHashMd5B64Of : Query -> string.
Variable upstream : SearchParams -> Failure + SearXNGSearchResponse.
Variable store : list CacheEntry.
Variable now nowDate jitter : Z.

Lemma newest_elem l e : newest l = Some e -> e ∈ l.
Proof.
  revert e. induction l as [|x l IH]; intros e; simpl; [done|].
  destruct (newest l) as [e'|].
  - destruct (createdAt x <? createdAt e')%Z; intros [= <-].
    + apply list_elem_of_further. by apply IH.
    + apply list_elem_of_here.
  - intros [= <-]. apply list_elem_of_here.
Qed.

(** No entry of the list is newer than the one picked. *)
Lemma newest_max l e e' : newest l = Some e -> e' ∈ l -> (createdAt e' <= createdAt e)%Z.
Proof.
  revert e. induction l as [|x l IH]; intros e; simpl; [done|].
  intros Hn Hin. destruct (newest l) as [m|] eqn:Hm.
  - destruct (createdAt x <? createdAt m)%Z eqn:Hlt; injection Hn as <-.
    + apply Z.ltb_lt in Hlt. apply elem_of_cons in Hin as [->|Hin]; [lia|].
      by apply IH.
    + apply Z.ltb_ge in Hlt. apply elem_of_cons in Hin as [->|Hin]; [lia|].
      specialize (IH m eq_refl Hin). lia.
  - injection Hn as <-. apply elem_of_cons in Hin as [->|Hin]; [lia|].
    destruct l; [by apply elem_of_nil in Hin|]. simpl in Hm.
    destruct (newest l); [destruct (_ <? _)%Z|]; done.
Qed.

Lemma fromFirestoreQuery_elem d e :
  fromFirestoreQuery store d = Some e -> e ∈ store /\ queryDigest e = d.
Proof.
  intros H. apply newest_elem in H. by apply list_elem_of_filter in H as [? ?].
Qed.

Lemma tryUpstream_calls query :
  trace (tryUpstream objHashMd5B64Of upstream nowDate jitter query) <> [].
Proof.
  unfold tryUpstream.
  destruct (upstream (pageParams query 1)) as [err|[rq rn rr ra rc ri rs ru]]; simpl; [done|].
  destruct (_ <? _)%nat; [destruct (upstream (pageParams query 2))|]; simpl; done.
Qed.

(** When the [try] block fails. *)
Lemma tryUpstream_fails query err :
  value (tryUpstream objHashMd5B64Of upstream nowDate jitter query) = inl err <->
  upstream (pageParams query 1) = inl err
  \/ exists first, upstream (pageParams query 1) = inr first
                   /\ length (results first) < count query
                   /\ upstream (pageParams query 2) = inl err.
Proof.
  unfold tryUpstream.
  destruct (upstream (pageParams query 1)) as [e1|first] eqn:H1; simpl.
  - split; [intros [= ->]; by left | intros [[= ->]|(? & [=] & _)]; done].
  - destruct (length (results first) <? count query)%nat eqn:Hlt.
    + apply Nat.ltb_lt in Hlt.
      destruct (upstream (pageParams query 2)) as [e2|second] eqn:H2; simpl.
      * split; [intros [= ->]; right; by exists first
               | intros [[=]|(? & [= <-] & _ & [= ->])]; done].
      * destruct first; simpl.
        split; [done | intros [[=]|(? & _ & _ & [=])]].
    + destruct first; simpl. apply Nat.ltb_ge in Hlt.
      split; [done | intros [[=]|(? & [= <-] & Hl & _)]]. simpl in Hl, Hlt. lia.
Qed.

End CacheFacts.

(** C3: with [noCache = false], when the newest matching entry is
    younger than one hour its response is returned and no upstream call
    is made; when an entry was found and the upstream search fails, the
    response of that entry is returned; when none was found, the failure
    of the upstream search is the failure of the call. *)
Theorem cached_search_hit_and_fallback
    (objHashMd5B64Of : Cache.Query -> string)
    (upstream : Cache.SearchParams -> Failure + SearXNGSearchResponse)
    (store : list Cache.CacheEntry) (now nowDate jitter : Z) (query : Cache.Query) :
  let out := Cache.cachedWebSearch objHashMd5B64Of upstream store now nowDate jitter query false in
  let found := Cache.fromFirestoreQuery store (objHashMd5B64Of query) in
  let fetched := Cache.tryUpstream objHashMd5B64Of upstream nowDate jitter query in
  (forall e, found = Some e -> (now - Cache.createdAt e < cacheValidMs)%Z ->
     Cache.value out = inr (Cache.response e) /\ Cache.trace out = [])
  /\ (forall e err, found = Some e -> Cache.value fetched = inl err ->
        Cache.value out = inr (Cache.response e))
  /\ (forall err, found = None -> Cache.value fetched = inl err ->
        Cache.value out = inl err).
Proof.
  intros out found fetched. unfold out, Cache.cachedWebSearch. fold found. fold fetched.
  split_and!.
  - intros e -> Hage. unfold Cache.stale.
    destruct (Cache.createdAt e <? now - cacheValidMs)%Z eqn:E; [apply Z.ltb_lt in E; lia|].
    done.
  - intros e err -> Herr.
    destruct (Cache.stale now e); [|done].
    unfold Cache.withFallback. by rewrite Herr.
  - intros err -> Herr. unfold Cache.withFallback. by rewrite Herr.
Qed.

Lemma cached_search_hit_and_fallback_witness :
  (* a fresh entry: no upstream call *)
  (Cache.value (Cache.cachedWebSearch sampleDigest failingUpstream [entryAt 0] 1000 1000 0 sampleQuery false)
   = inr sampleResponse
   /\ Cache.trace (Cache.cachedWebSearch sampleDigest failingUpstream [entryAt 0] 1000 1000 0 sampleQuery false)
      = [])
  (* a stale entry and a failing upstream *)
  /\ Cache.value (Cache.cachedWebSearch sampleDigest failingUpstream [entryAt 0] day day 0 sampleQuery false)
     = inr sampleResponse
  (* no entry and a failing upstream *)
  /\ Cache.value (Cache.cachedWebSearch sampleDigest failingUpstream [] day day 0 sampleQuery false)
     = inl (DownstreamServiceFailureError "Search failed").
Proof.
  split; [|split].
  - pose proof (cached_search_hit_and_fallback sampleDigest failingUpstream [entryAt 0] 1000 1000 0
                  sampleQuery) as (H & _ & _).
    apply (H (entryAt 0)); [reflexivity | vm_compute; reflexivity].
  - pose proof (cached_search_hit_and_fallback sampleDigest failingUpstream [entryAt 0] day day 0
                  sampleQuery) as (_ & H & _).
    apply (H (entryAt 0) (DownstreamServiceFailureError "Search failed")); reflexivity.
  - pose proof (cached_search_hit_and_fallback sampleDigest failingUpstream [] day day 0
                  sampleQuery) as (_ & _ & H).
    apply H; reflexivity.
Defined.

(** C4, as the specification states it, fails: an entry eight days old
    that the store still holds is found by the lookup, and when the
    upstream search fails its response is returned. *)
Lemma cached_search_returns_expired_entry :
  let out := Cache.cachedWebSearch sampleDigest failingUpstream [entryAt 0]
               (8 * day) (8 * day) 0 sampleQuery false in
  entryAt 0 ∈ [entryAt 0]
  /\ (cacheRetentionMs <= 8 * day - Cache.createdAt (entryAt 0))%Z
  /\ Cache.value out = inr (Cache.response (entryAt 0)).
Proof.
  split_and!; [apply list_elem_of_here | vm_compute; discriminate | reflexivity].
Qed.

(** C4, amended: a response returned without an upstream call comes
    from an entry of the store that is at most one hour old, hence not
    expired; a response returned when the upstream search fails comes
    from the newest matching entry of the store, whatever its age, and
    is not expired whenever the store holds no expired matching
    entry. *)
Theorem cached_search_expiry
    (objHashMd5B64Of : Cache.Query -> string)
    (upstream : Cache.SearchParams -> Failure + SearXNGSearchResponse)
    (store : list Cache.CacheEntry) (now nowDate jitter : Z) (query : Cache.Query)
    (noCache : bool) :
  let out := Cache.cachedWebSearch objHashMd5B64Of upstream store now nowDate jitter query noCache in
  let fetched := Cache.tryUpstream objHashMd5B64Of upstream nowDate jitter query in
  (Cache.trace out = [] ->
   exists e, e ∈ store /\ Cache.queryDigest e = objHashMd5B64Of query
             /\ Cache.value out = inr (Cache.response e)
             /\ (now - Cache.createdAt e <= cacheValidMs)%Z
             /\ (now - Cache.createdAt e < cacheRetentionMs)%Z)
  /\ (forall err r, Cache.value fetched = inl err -> Cache.value out = inr r ->
      exists e, e ∈ store /\ Cache.queryDigest e = objHashMd5B64Of query
                /\ r = Cache.response e
                /\ (forall e', e' ∈ store -> Cache.queryDigest e' = objHashMd5B64Of query ->
                      (Cache.createdAt e' <= Cache.createdAt e)%Z)
                /\ ((forall e', e' ∈ store -> Cache.queryDigest e' = objHashMd5B64Of query ->
                       (now - Cache.createdAt e' < cacheRetentionMs)%Z) ->
                    (now - Cache.createdAt e < cacheRetentionMs)%Z)).
Proof.
  intros out fetched. unfold out, Cache.cachedWebSearch. fold fetched.
  pose proof (tryUpstream_calls objHashMd5B64Of upstream nowDate jitter query) as Hcalls.
  fold fetched in Hcalls.
  assert (Hfb : forall c, Cache.trace (Cache.withFallback c fetched) <> []).
  { intros c. unfold Cache.withFallback. destruct (Cache.value fetched), c; done. }
  assert (Hnewest : forall e, Cache.fromFirestoreQuery store (objHashMd5B64Of query) = Some e ->
            forall e', e' ∈ store -> Cache.queryDigest e' = objHashMd5B64Of query ->
                       (Cache.createdAt e' <= Cache.createdAt e)%Z).
  { intros e He e' Hin Hd. eapply newest_max; [exact He|]. by apply list_elem_of_filter. }
  split.
  - destruct noCache; [intros H; by destruct (Hfb None)|].
    destruct (Cache.fromFirestoreQuery store (objHashMd5B64Of query)) as [c|] eqn:Hf;
      [|intros H; by destruct (Hfb None)].
    destruct (Cache.stale now c) eqn:Hst; [intros H; by destruct (Hfb (Some c))|].
    intros _. apply fromFirestoreQuery_elem in Hf as [Hin Hd].
    unfold Cache.stale in Hst. apply Z.ltb_ge in Hst.
    exists c. split_and!; try done; unfold cacheValidMs, cacheRetentionMs in *; lia.
  - intros err r Herr.
    assert (Hnone : Cache.value (Cache.withFallback None fetched) = inl err)
      by (unfold Cache.withFallback; by rewrite Herr).
    destruct noCache; [by rewrite Hnone|].
    destruct (Cache.fromFirestoreQuery store (objHashMd5B64Of query)) as [c|] eqn:Hf;
      [|by rewrite Hnone].
    pose proof (Hnewest c eq_refl) as Hmax.
    apply fromFirestoreQuery_elem in Hf as [Hin Hd].
    assert (Hval : forall v : Failure + SearXNGSearchResponse,
              v = inr (Cache.response c) -> v = inr r ->
              exists e, e ∈ store /\ Cache.queryDigest e = objHashMd5B64Of query
                /\ r = Cache.response e
                /\ (forall e', e' ∈ store -> Cache.queryDigest e' = objHashMd5B64Of query ->
                      (Cache.createdAt e' <= Cache.createdAt e)%Z)
                /\ ((forall e', e' ∈ store -> Cache.queryDigest e' = objHashMd5B64Of query ->
                       (now - Cache.createdAt e' < cacheRetentionMs)%Z) ->
                    (now - Cache.createdAt e < cacheRetentionMs)%Z)).
    { intros v -> [= <-]. exists c. split_and!; try done. intros Hall. by apply Hall. }
    destruct (Cache.stale now c); [|by apply Hval].
    unfold Cache.withFallback. rewrite Herr. by apply Hval.
Qed.

Lemma cached_search_expiry_witness :
  let out := Cache.cachedWebSearch sampleDigest failingUpstream [entryAt 0] day day 0 sampleQuery false in
  exists e, e ∈ [entryAt 0]
            /\ Cache.value out = inr (Cache.response e)
            /\ (day - Cache.createdAt e < cacheRetentionMs)%Z.
Proof.
  pose proof (cached_search_expiry sampleDigest failingUpstream [entryAt 0] day day 0 sampleQuery false)
    as (_ & H).
  destruct (H (DownstreamServiceFailureError "Search failed") sampleResponse eq_refl eq_refl)
    as (e & Hin & _ & Hr & _ & Hfresh).
  exists e. split; [exact Hin|]. split.
  - rewrite <- Hr. reflexivity.
  - apply Hfresh. intros e' He' _. apply list_elem_of_singleton in He' as ->.
    vm_compute. reflexivity.
Defined.

(** ** Reorganisation *)

Section ReorganizeFacts.
Import Searcher.

Abbreviation q := (fun x : PageObj => pageQualified (fields x) = true).
Abbreviation nq := (fun x : PageObj => pageQualified (fields x) <> true).

Lemma NoDup_take_middle {A} (a b : list A) (x : A) (n : nat) :
  NoDup (a ++ x :: b) -> x ∈ take n (a ++ x :: b) <-> length a < n.
Proof.
  intros Hnd. apply NoDup_app in Hnd as (_ & Hdisj & _).
  destruct (decide (length a < n)) as [Hlt|Hge].
  - split; [done|]. intros _. rewrite take_app.
    apply elem_of_app. right.
    destruct (n - length a) as [|m] eqn:E; [lia|]. simpl. apply list_elem_of_here.
  - split; [|done]. rewrite take_app_le by lia. intros Hin.
    apply subseteq_take in Hin. destruct (Hdisj x Hin). apply list_elem_of_here.
Qed.

Lemma NoDup_fmap_eq {A B} (f : A -> B) (l : list A) (x y : A) :
  NoDup (f <$> l) -> x ∈ l -> y ∈ l -> f x = f y -> x = y.
Proof.
  induction l as [|z l IH]; simpl; intros Hnd Hx Hy Hf; [by apply elem_of_nil in Hx|].
  apply NoDup_cons in Hnd as [Hz Hnd].
  apply elem_of_cons in Hx as [->|Hx]; apply elem_of_cons in Hy as [->|Hy]; try done.
  - destruct Hz. rewrite Hf. by apply list_elem_of_fmap_2.
  - destruct Hz. rewrite <- Hf. by apply list_elem_of_fmap_2.
  - by apply IH.
Qed.

Lemma effectiveCount_to_nat (target a : nat) :
  Z.to_nat (if (0 <=? Z.of_nat target - Z.of_nat a)%Z
            then (Z.of_nat target - Z.of_nat a)%Z else 0%Z) = target - a.
Proof. destruct (0 <=? _)%Z eqn:E; [apply Z.leb_le in E | apply Z.leb_gt in E]; lia. Qed.

(** The set of accepted references, with the room left for
    unqualified pages as a natural number. *)
Lemma acceptSet_unfold l target :
  acceptSet l target
  = list_to_set (oid <$> filter q l)
    ∪ list_to_set (oid <$> take (target - length (filter q l)) (filter nq l)).
Proof. unfold acceptSet, partitionPages. by rewrite effectiveCount_to_nat. Qed.

(** On distinct objects, the filter by the accept set is the single
    pass of the specification. *)
Lemma filter_accepted pre suf room :
  NoDup (oid <$> (pre ++ suf)) ->
  filter (fun x => oid x ∈ (list_to_set (oid <$> filter q (pre ++ suf))
                             ∪ list_to_set (oid <$> take room (filter nq (pre ++ suf)))
                            : gset nat)) suf
  = Spec.accepted (room - length (filter nq pre)) suf.
Proof.
  revert pre. induction suf as [|x suf IH]; intros pre Hnd; [done|].
  assert (Hl : pre ++ x :: suf = (pre ++ [x]) ++ suf) by (by rewrite <- app_assoc).
  specialize (IH (pre ++ [x])). rewrite <- Hl in IH. specialize (IH Hnd).
  simpl.
  destruct (pageQualified (fields x)) eqn:Hq.
  - assert (Hpre : length (filter nq (pre ++ [x])) = length (filter nq pre)).
    { rewrite filter_app, (filter_cons_False nq x []) by congruence.
      by rewrite filter_nil, app_nil_r. }
    rewrite Hpre in IH.
    rewrite filter_cons_True.
    + by rewrite IH.
    + apply elem_of_union. left. apply elem_of_list_to_set, list_elem_of_fmap_2.
      apply list_elem_of_filter. split; [done|].
      apply elem_of_app. right. apply list_elem_of_here.
  - assert (Hpre : length (filter nq (pre ++ [x])) = length (filter nq pre) + 1).
    { rewrite filter_app, (filter_cons_True nq x []) by congruence.
      by rewrite filter_nil, length_app. }
    rewrite Hpre in IH.
    assert (Hin : oid x ∈ (list_to_set (oid <$> filter q (pre ++ x :: suf))
                            ∪ list_to_set (oid <$> take room (filter nq (pre ++ x :: suf)))
                           : gset nat)
                  <-> length (filter nq pre) < room).
    { rewrite elem_of_union, !elem_of_list_to_set. split.
      - intros [Hx|Hx].
        + apply list_elem_of_fmap in Hx as (y & Hxy & Hy).
          apply list_elem_of_filter in Hy as [Hqy Hy].
          assert (x = y) as <-; [|congruence].
          apply (NoDup_fmap_eq oid (pre ++ x :: suf)); try done.
          apply elem_of_app. right. apply list_elem_of_here.
        + rewrite fmap_take, filter_app, filter_cons_True, fmap_app, fmap_cons in Hx
            by congruence.
          apply NoDup_take_middle in Hx; [by rewrite length_fmap in Hx|].
          rewrite <- fmap_cons, <- fmap_app.
          eapply sublist_NoDup; [exact Hnd|].
          apply fmap_sublist.
          rewrite <- (filter_cons_True nq x suf) by congruence.
          rewrite <- filter_app. apply sublist_filter.
      - intros Hlt. right.
        rewrite fmap_take, filter_app, filter_cons_True, fmap_app, fmap_cons by congruence.
        apply NoDup_take_middle; [|by rewrite length_fmap].
        rewrite <- fmap_cons, <- fmap_app.
        eapply sublist_NoDup; [exact Hnd|].
        apply fmap_sublist.
        rewrite <- (filter_cons_True nq x suf) by congruence.
        rewrite <- filter_app. apply sublist_filter. }
    destruct (room - length (filter nq pre)) as [|room'] eqn:E.
    + rewrite filter_cons_False by (rewrite Hin; lia).
      rewrite IH. by replace (room - (length (filter nq pre) + 1)) with 0 by lia.
    + rewrite filter_cons_True by (rewrite Hin; lia).
      rewrite IH. by replace (room - (length (filter nq pre) + 1)) with room' by lia.
Qed.

Lemma filtered_spec l count :
  NoDup (oid <$> l) ->
  filtered l count
  = take (effectiveCount count)
         (Spec.accepted (effectiveCount count - Spec.qualifiedCount l) l).
Proof.
  intros Hnd. unfold filtered. rewrite acceptSet_unfold.
  pose proof (filter_accepted [] l (effectiveCount count - length (filter q l)) Hnd) as H.
  simpl in H. rewrite Nat.sub_0_r in H. by rewrite H.
Qed.

Lemma length_partition (l : list PageObj) :
  length (filter q l) + length (filter nq l) = length l.
Proof.
  induction l as [|x l IH]; [done|].
  destruct (pageQualified (fields x)) eqn:Hq.
  - rewrite filter_cons_True, (filter_cons_False nq) by congruence. simpl. lia.
  - rewrite filter_cons_False, (filter_cons_True nq) by congruence. simpl. lia.
Qed.

Lemma accepted_length room l :
  length (Spec.accepted room l)
  = length (filter q l) + min room (length (filter nq l)).
Proof.
  revert room. induction l as [|x l IH]; intros room; simpl; [lia|].
  destruct (pageQualified (fields x)) eqn:Hq.
  - rewrite filter_cons_True, (filter_cons_False nq) by congruence. simpl. by rewrite IH.
  - rewrite filter_cons_False, (filter_cons_True nq) by congruence.
    destruct room as [|room']; simpl; rewrite IH; lia.
Qed.

Lemma accepted_sublist room l : Spec.accepted room l `sublist_of` l.
Proof.
  revert room. induction l as [|x l IH]; intros room; simpl; [constructor|].
  destruct (pageQualified (fields x)); [by apply sublist_skip|].
  destruct room; [by apply sublist_cons | by apply sublist_skip].
Qed.

Lemma accepted_qualified room l x :
  x ∈ l -> pageQualified (fields x) = true -> x ∈ Spec.accepted room l.
Proof.
  revert room. induction l as [|y l IH]; intros room Hin Hq; [by apply elem_of_nil in Hin|].
  simpl. apply elem_of_cons in Hin as [<-|Hin].
  - rewrite Hq. apply list_elem_of_here.
  - destruct (pageQualified (fields y)); [apply list_elem_of_further; by apply IH|].
    destruct room; [|apply list_elem_of_further]; by apply IH.
Qed.

(** With room for every unqualified page nothing is dropped. *)
Lemma accepted_all room l : length (filter nq l) <= room -> Spec.accepted room l = l.
Proof.
  revert room. induction l as [|x l IH]; intros room; simpl; [done|].
  destruct (pageQualified (fields x)) eqn:Hq.
  - rewrite (filter_cons_False nq) by congruence. intros H. by rewrite IH.
  - rewrite (filter_cons_True nq) by congruence. simpl.
    destruct room as [|room']; [lia|]. intros H. rewrite IH; [done | lia].
Qed.

Lemma filter_all {A} (P : A -> Prop) `{!forall x, Decision (P x)} (l : list A) :
  (forall x, x ∈ l -> P x) -> filter P l = l.
Proof.
  induction l as [|x l IH]; intros Hall; [done|].
  rewrite filter_cons_True by (apply Hall, list_elem_of_here).
  rewrite IH; [done|]. intros y Hy. apply Hall. by apply list_elem_of_further.
Qed.

(** A list that fits the target is kept whole, whatever the
    references of its objects. *)
Lemma filtered_fits l count :
  length l <= effectiveCount count -> filtered l count = l.
Proof.
  intros Hlen. unfold filtered. rewrite acceptSet_unfold.
  pose proof (length_partition l) as Hp.
  rewrite (take_ge (filter nq l)) by lia.
  rewrite filter_all; [by apply take_ge|].
  intros x Hx. apply elem_of_union.
  destruct (pageQualified (fields x)) eqn:Hq.
  - left. apply elem_of_list_to_set, list_elem_of_fmap_2, list_elem_of_filter. done.
  - right. apply elem_of_list_to_set, list_elem_of_fmap_2, list_elem_of_filter.
    split; [congruence | done].
Qed.

End ReorganizeFacts.

(** Reorganisation on sample slots: with room for three, the two good
    pages and the first stub stay, in slot order. *)
Example reorganize_mixed :
  reOrganizeSearchResults mixedSlots (Some 3) = [stubPage; goodPage; goodPage]
  /\ filtered mixedSlots (Some 3) = [mkObj 0 stubPage; mkObj 1 goodPage; mkObj 3 goodPage].
Proof. split; vm_compute; reflexivity. Qed.

(** When one object fills two slots, the set of references accepts both
    slots and the truncation drops the qualified page behind them. *)
Example reorganize_aliased :
  reOrganizeSearchResults aliasedSlots (Some 2) = [stubPage; stubPage]
  /\ Spec.reorganized aliasedSlots 2 = [stubPage; goodPage].
Proof. split; vm_compute; reflexivity. Qed.

(** C6, as the specification states it, fails for the count 0: the
    result is cut to the default of 5 entries, not to 0. *)
Lemma reorganize_count_zero_keeps_five :
  NoDup (oid <$> sixGood)
  /\ length (reOrganizeSearchResults sixGood (Some 0)) = 5
  /\ ~ length (reOrganizeSearchResults sixGood (Some 0)) <= 0.
Proof.
  split; [|split].
  - apply (bool_decide_unpack _). vm_compute. reflexivity.
  - vm_compute. reflexivity.
  - vm_compute. lia.
Qed.

(** C6, amended: on a list of distinct page objects, with [k] the count
    (the default 5 when the count is 0 or absent), the result is the
    pages of the list that are qualified together with the first
    [k - #qualified] unqualified ones, in slot order, cut to [k]
    entries; it has [min k (length l)] entries, and every qualified page
    is in it when at most [k] pages are qualified. *)
Theorem reorganize_by_qualification (l : list PageObj) (count : option nat) :
  NoDup (oid <$> l) ->
  let k := effectiveCount count in
  reOrganizeSearchResults l count = Spec.reorganized l k
  /\ (forall n, count = Some n -> 1 <= n -> k = n)
  /\ (count = None \/ count = Some 0 -> k = 5)
  /\ length (reOrganizeSearchResults l count) = min k (length l)
  /\ length (reOrganizeSearchResults l count) <= k
  /\ filtered l count `sublist_of` l
  /\ (Spec.qualifiedCount l <= k ->
      forall x, x ∈ l -> pageQualified (fields x) = true -> x ∈ filtered l count).
Proof.
  intros Hnd k.
  pose proof (filtered_spec l count Hnd) as Hf. fold k in Hf.
  pose proof (accepted_length (k - Spec.qualifiedCount l) l) as Hlen.
  pose proof (length_partition l) as Hp.
  unfold Spec.qualifiedCount in *.
  assert (Hl : length (reOrganizeSearchResults l count) = min k (length l)).
  { unfold reOrganizeSearchResults. rewrite length_fmap, Hf, length_take, Hlen. lia. }
  split_and!.
  - unfold reOrganizeSearchResults, Spec.reorganized, Spec.qualifiedCount. by rewrite Hf.
  - intros n -> Hn. unfold k. destruct n; [lia | done].
  - intros [->| ->]; reflexivity.
  - exact Hl.
  - rewrite Hl. lia.
  - rewrite Hf. etrans; [apply sublist_take | apply accepted_sublist].
  - intros Hq x Hx Hqx. rewrite Hf, take_ge by (rewrite Hlen; lia).
    by apply accepted_qualified.
Qed.

Lemma reorganize_by_qualification_witness :
  NoDup (oid <$> mixedSlots)
  /\ reOrganizeSearchResults mixedSlots (Some 3) = Spec.reorganized mixedSlots 3
  /\ length (reOrganizeSearchResults mixedSlots (Some 3)) = 3.
Proof.
  assert (Hnd : NoDup (oid <$> mixedSlots)).
  { apply (bool_decide_unpack _). vm_compute. reflexivity. }
  split; [exact Hnd|].
  pose proof (reorganize_by_qualification mixedSlots (Some 3) Hnd) as (H1 & _ & _ & H2 & _).
  split; [exact H1 | exact H2].
Defined.

(** ** Strings *)

Lemma trimEnd_idem s : Str.trimEnd (Str.trimEnd s) = Str.trimEnd s.
Proof.
  induction s as [|c s IH]; [done|]. simpl.
  destruct (Str.trimEnd s) as [|d s'] eqn:E.
  - destruct (Str.isSpace c) eqn:Hc; [done|]. simpl. by rewrite Hc.
  - simpl. simpl in IH. by rewrite IH.
Qed.

Lemma trimEnd_head c s :
  Str.isSpace c = false -> exists s', Str.trimEnd (String c s) = String c s'.
Proof.
  intros Hc. simpl. destruct (Str.trimEnd s); rewrite ?Hc; eauto.
Qed.

Lemma trimStart_head s :
  Str.trimStart s = EmptyString
  \/ exists c s', Str.trimStart s = String c s' /\ Str.isSpace c = false.
Proof.
  induction s as [|c s IH]; [by left|]. simpl.
  destruct (Str.isSpace c) eqn:Hc; [done|]. right. by exists c, s.
Qed.

Lemma trim_head s :
  Str.trim s = EmptyString
  \/ exists c s', Str.trim s = String c s' /\ Str.isSpace c = false.
Proof.
  unfold Str.trim. destruct (trimStart_head s) as [->|(c & s' & -> & Hc)]; [by left|].
  right. destruct (trimEnd_head c s' Hc) as [s'' ->]. by exists c, s''.
Qed.


(** ** The formatter *)

Section FormatterFacts.
Import Crawler.
Variable Element : Type.
Variable snippetToElement : option string -> string -> option Element.
Variable runTurndown : TurndownService -> @TurndownInput Element -> nat -> option string * nat.
Variable host : string.
Variable keepImgDataUrl withImagesSummary withLinksSummary : bool.
Variable inferredImages inferredLinks imageSummary : PageSnapshot -> list (string * string).
Variable randomUUID : string.
Variable saveFileLocally : string -> string -> bool.

Abbreviation fmt :=
  (formatSnapshot Element snippetToElement runTurndown host keepImgDataUrl
     withImagesSummary withLinksSummary inferredImages inferredLinks imageSummary
     randomUUID saveFileLocally).
Abbreviation contentOf' :=
  (contentOf Element snippetToElement runTurndown keepImgDataUrl).

Lemma includes_cons_false l a s :
  JS.includes (a :: l) s = false <-> String.eqb s a = false /\ JS.includes l s = false.
Proof. unfold JS.includes. simpl. apply orb_false_iff. Qed.

(** The page of the markdown path carries the trimmed content. *)
Lemma fmt_content mode snapshot nominalUrl contentText runs :
  JS.includes earlyModes mode = false ->
  contentOf' mode snapshot nominalUrl = Some (contentText, runs) ->
  exists page,
    fmt mode snapshot nominalUrl = Some (page, runs)
    /\ content page = Some (Str.trim (match JS.or_else contentText (Some "") with
                                      | Some s => s | None => "" end))
    /\ url page = JS.or_else nominalUrl (Some (Str.trim (href snapshot))).
Proof.
  unfold earlyModes. rewrite !includes_cons_false. intros (E1 & E2 & E3 & E4 & _) Hc.
  unfold formatSnapshot. rewrite E1, E2, E3, E4, Hc. eexists. split; [reflexivity|]. done.
Qed.

(** The pages of the other modes carry no URL. *)
Lemma fmt_early_url mode snapshot nominalUrl page runs :
  JS.includes earlyModes mode = true ->
  fmt mode snapshot nominalUrl = Some (page, runs) ->
  url page = None.
Proof.
  unfold earlyModes, JS.includes. simpl. rewrite orb_false_r. unfold formatSnapshot.
  destruct (String.eqb mode "screenshot");
    [destruct (shotUrl _ _ _ _ _ _); [by intros _ [= <- _] | done]|].
  destruct (String.eqb mode "pageshot");
    [destruct (shotUrl _ _ _ _ _ _); [by intros _ [= <- _] | done]|].
  destruct (String.eqb mode "html"); [by intros _ [= <- _]|].
  destruct (String.eqb mode "text"); [by intros _ [= <- _]|]. done.
Qed.


End FormatterFacts.




(** ** Slots from the upstream results to the batches *)

Section FetchFacts.
Import Crawler Fetch.
Variable Element : Type.
Variable snippetToElement : option string -> string -> option Element.
Variable runTurndown : TurndownService -> @TurndownInput Element -> nat -> option string * nat.
Variable host : string.
Variable keepImgDataUrl withImagesSummary withLinksSummary : bool.
Variable inferredImages inferredLinks imageSummary : PageSnapshot -> list (string * string).
Variable saveFileLocally : string -> string -> bool.
Variable randomUUID : nat -> string.
Variable parseURL : string -> option string.
Variable mode : string.
Variable searchResults : list SearXNGSearchResult.
Variable count : nat.
Variable emissions : list (list (option PageSnapshot)).

Hypothesis parseURL_nonempty : forall s u, parseURL s = Some u -> u <> "".
Hypothesis count_pos : 1 <= count.
Hypothesis results_fit : length searchResults <= count.
Hypothesis slots_local : slotLocal emissions.

Abbreviation format' :=
  (format Element snippetToElement runTurndown host keepImgDataUrl withImagesSummary
     withLinksSummary inferredImages inferredLinks imageSummary saveFileLocally randomUUID mode).
Abbreviation mapSlot' :=
  (mapSlot Element snippetToElement runTurndown host keepImgDataUrl withImagesSummary
     withLinksSummary inferredImages inferredLinks imageSummary saveFileLocally randomUUID
     mode searchResults).
Abbreviation onScrapped' :=
  (onScrapped Element snippetToElement runTurndown host keepImgDataUrl withImagesSummary
     withLinksSummary inferredImages inferredLinks imageSummary saveFileLocally randomUUID
     mode searchResults count).
Abbreviation batchesFrom' :=
  (batchesFrom Element snippetToElement runTurndown host keepImgDataUrl withImagesSummary
     withLinksSummary inferredImages inferredLinks imageSummary saveFileLocally randomUUID
     mode searchResults count).
Abbreviation inv := (cacheInv parseURL mode searchResults emissions).
Abbreviation made := (madeFrom parseURL mode).

(** The URL of a formatted page, by mode. *)
Lemma format_url o x u r :
  format' o x (Some u) = Some r -> u <> "" ->
  (JS.includes earlyModes mode = false /\ url r = Some u)
  \/ (JS.includes earlyModes mode = true /\ url r = None).
Proof.
  unfold format. intros Hf Hu.
  destruct (formatSnapshot _ _ _ _ _ _ _ _ _ _ _ _ _ _ _) as [[page runs]|] eqn:Hfmt; [|done].
  injection Hf as <-.
  destruct (JS.includes earlyModes mode) eqn:Hm.
  - right. split; [done|]. by eapply fmt_early_url.
  - left. split; [done|].
    revert Hfmt. unfold earlyModes in Hm.
    rewrite !includes_cons_false in Hm. destruct Hm as (E1 & E2 & E3 & E4 & _).
    unfold formatSnapshot. rewrite E1, E2, E3, E4.
    destruct (contentOf _ _ _ _ _ _ _) as [[c rs]|]; [|done].
    intros [= <- _]. simpl. unfold JS.or_else. simpl.
    apply String.eqb_neq in Hu. by rewrite Hu.
Qed.

Lemma stub_made up c : made up (stub up c) /\ url (stub up c) = Some (sr_url up).
Proof. split; [split; [done | by left] | done]. Qed.

(** What [mapSlot] gives for a slot whose cached page, if any, was
    made from the upstream result of the slot. *)
Lemma mapSlot_made cache urls base i x up u obj ins :
  searchResults !! i = Some up ->
  urls !! i = Some u -> parseURL (sr_url up) = Some u ->
  (forall snap r, x = Some snap -> cache !! sid snap = Some r -> made up (fields r)) ->
  mapSlot' cache urls base i x = Some (obj, ins) ->
  made up (fields obj)
  /\ (x = None -> url (fields obj) = Some (sr_url up))
  /\ (forall k r, ins = Some (k, r) ->
        exists snap, x = Some snap /\ sid snap = k /\ made up (fields r)).
Proof.
  intros Hup Hu Hparse Hcache. unfold mapSlot. rewrite Hup, Hu.
  destruct x as [snap|].
  - destruct (cache !! sid snap) as [r|] eqn:Hc.
    + intros [= <- <-]. split_and!; [by eapply Hcache | done | done].
    + destruct (format' (base + i) snap (Some u)) as [r|] eqn:Hf.
      * intros [= <- <-].
        assert (Hm : made up (decorate up r)).
        { split; [done|]. simpl.
          destruct (format_url _ _ _ _ Hf (parseURL_nonempty _ _ Hparse)) as [[Hm ->]|[Hm ->]].
          - right. left. by rewrite Hparse.
          - right. right. done. }
        split_and!; [done | done |].
        intros k r' [= <- <-]. by exists snap.
      * intros [= <- <-]. split_and!; [apply stub_made | done | done].
  - intros [= <- <-]. split_and!; [apply stub_made | intros _; apply stub_made | done].
Qed.

Lemma remember_inv (P : nat -> PageObj -> Prop) mapped cache :
  (forall k r, cache !! k = Some r -> P k r) ->
  (forall m k r, m ∈ mapped -> snd m = Some (k, r) -> P k r) ->
  forall k r, foldl remember cache mapped !! k = Some r -> P k r.
Proof.
  revert cache. induction mapped as [|m mapped IH]; intros cache Hc Hm; simpl; [done|].
  apply IH.
  - unfold remember. destruct (snd m) as [[k' r']|] eqn:E; [|done].
    intros k r. destruct (decide (k' = k)) as [->|Hne].
    + rewrite lookup_insert_eq. intros [= <-]. eapply Hm; [apply list_elem_of_here | done].
    + rewrite lookup_insert_ne by done. apply Hc.
  - intros m' k r Hin. apply Hm. by apply list_elem_of_further.
Qed.

(** One batch: every slot holds the page made from its upstream
    result, and the [snapshotMap] stays as [cacheInv] says. *)
Lemma onScrapped_made urls st scrapped batch st' :
  Forall2 (fun s u => parseURL s = Some u) (sr_url <$> searchResults) urls ->
  scrapped ∈ emissions ->
  length scrapped = length searchResults ->
  inv (snapshotMap st) ->
  onScrapped' urls st scrapped = Some (batch, st') ->
  length batch = length searchResults
  /\ (forall i up, searchResults !! i = Some up ->
        exists p, batch !! i = Some p /\ made up p
                  /\ (scrapped !! i = Some None -> url p = Some (sr_url up)))
  /\ inv (snapshotMap st').
Proof.
  intros Hurls Hin Hlen Hinv. unfold onScrapped.
  destruct (mapM _ _) as [mapped|] eqn:Hmap; [|done].
  intros [= <- <-]. apply mapM_Some in Hmap.
  pose proof (Forall2_length _ _ _ Hmap) as Hlm. rewrite length_imap in Hlm.
  assert (Hbatch : Searcher.reOrganizeSearchResults (fst <$> mapped) (Some count)
                   = fields <$> (fst <$> mapped)).
  { unfold Searcher.reOrganizeSearchResults. rewrite filtered_fits; [done|].
    rewrite length_fmap. simpl. destruct count; [lia|]. lia. }
  rewrite Hbatch.
  (* what every slot was mapped to *)
  assert (Hslot : forall i up m,
            searchResults !! i = Some up -> mapped !! i = Some m ->
            exists x, scrapped !! i = Some x
              /\ made up (fields (fst m))
              /\ (x = None -> url (fields (fst m)) = Some (sr_url up))
              /\ (forall k r, snd m = Some (k, r) ->
                    exists snap, x = Some snap /\ sid snap = k /\ made up (fields r))).
  { intros i up m Hup Hm.
    destruct (Forall2_lookup_r _ _ _ _ _ Hmap Hm) as (a & Ha & Hfa).
    rewrite list_lookup_imap in Ha.
    destruct (scrapped !! i) as [x|] eqn:Hx; [|done]. injection Ha as <-.
    assert (Hsu : (sr_url <$> searchResults) !! i = Some (sr_url up))
      by (by rewrite list_lookup_fmap, Hup).
    destruct (Forall2_lookup_l _ _ _ _ _ Hurls Hsu) as (u & Hu & Hparse).
    destruct m as [obj ins]. exists x. split; [done|].
    eapply (mapSlot_made (snapshotMap st) urls (nextOid st) i x up u obj ins); try done.
    intros snap r -> Hc.
    destruct (Hinv _ _ Hc) as (e & j & y & up' & He & Hej & Hsid & Hup' & Hmade).
    assert (j = i) as -> by (eapply (slots_local e scrapped); done).
    by replace up with up' by congruence. }
  split_and!.
  - by rewrite !length_fmap, <- Hlm.
  - intros i up Hup.
    assert (Hi : i < length mapped).
    { rewrite <- Hlm, Hlen. by eapply lookup_lt_Some. }
    destruct (lookup_lt_is_Some_2 mapped i Hi) as [m Hm].
    destruct (Hslot i up m Hup Hm) as (x & Hx & Hmade & Hnil & _).
    exists (fields (fst m)). rewrite !list_lookup_fmap, Hm. split; [done|].
    split; [done|]. rewrite Hx. intros [= ->]. by apply Hnil.
  - unfold cacheInv. simpl.
    apply (remember_inv (fun k r =>
             exists (e : list (option PageSnapshot)) (j : nat) x up,
               e ∈ emissions /\ e !! j = Some (Some x) /\ sid x = k
               /\ searchResults !! j = Some up /\ made up (fields r))
             mapped (snapshotMap st));
      [exact Hinv|].
    intros m k r Hm Hsnd.
    apply list_elem_of_lookup in Hm as [i Hm].
    assert (Hi : i < length searchResults).
    { rewrite <- Hlen, Hlm. by eapply lookup_lt_Some. }
    destruct (lookup_lt_is_Some_2 searchResults i Hi) as [up Hup].
    destruct (Hslot i up m Hup Hm) as (x & Hx & _ & _ & Hins).
    destruct (Hins k r Hsnd) as (snap & -> & Hsid & Hmade).
    by exists scrapped, i, snap, up.
Qed.

Lemma batchesFrom_made urls rest st :
  Forall2 (fun s u => parseURL s = Some u) (sr_url <$> searchResults) urls ->
  (forall e, e ∈ rest -> e ∈ emissions) ->
  Forall (fun scrapped => length scrapped = length searchResults) rest ->
  inv (snapshotMap st) ->
  forall n batch,
    fst (batchesFrom' urls st rest) !! n = Some batch ->
    exists scrapped,
      rest !! n = Some scrapped
      /\ length batch = length searchResults
      /\ forall i up, searchResults !! i = Some up ->
           exists p, batch !! i = Some p /\ made up p
                     /\ (scrapped !! i = Some None -> url p = Some (sr_url up)).
Proof.
  intros Hurls. revert st. induction rest as [|scrapped rest IH]; intros st Hsub Hlen Hinv n batch;
    simpl; [done|].
  destruct (onScrapped' urls st scrapped) as [[b st']|] eqn:Hstep; [|done].
  apply Forall_cons in Hlen as [Hl Hlen].
  destruct (onScrapped_made urls st scrapped b st' Hurls
              (Hsub _ (list_elem_of_here _ _)) Hl Hinv Hstep) as (Hb1 & Hb2 & Hinv').
  destruct (batchesFrom' urls st' rest) as [more threw] eqn:Hrest. simpl.
  destruct n as [|n]; simpl.
  - intros [= <-]. exists scrapped. done.
  - intros Hn. apply (IH st'); try done.
    + intros e He. apply Hsub. by apply list_elem_of_further.
    + by rewrite Hrest.
Qed.

End FetchFacts.




(** ** The paragraph rule of the rewriter

    The replacement of the rule [improved-paragraph], applied to its own
    output, gives that output back.  What the Turndown engine makes of
    the text inside a [<p>] before it calls the replacement is not part
    of the embedded code. *)

Lemma trimEnd_spaces w :
  Str.allSpace w = true -> Str.trimEnd w = EmptyString.
Proof.
  induction w as [|c w IH]; [done|]. simpl. rewrite andb_true_iff. intros [Hc Hw].
  by rewrite IH, Hc.
Qed.

Lemma trimEnd_app_spaces s w :
  Str.allSpace w = true ->
  Str.trimEnd (s ++ w)%string = Str.trimEnd s.
Proof.
  intros Hw. induction s as [|c s IH]; simpl; [by apply trimEnd_spaces|]. by rewrite IH.
Qed.

Lemma collapseNewlines_idem n s :
  Str.collapseNewlines n (Str.collapseNewlines n s) = Str.collapseNewlines n s.
Proof.
  revert n. induction s as [|c s IH]; intros n; [done|]. cbn [Str.collapseNewlines].
  destruct (Ascii.eqb c Str.newline) eqn:Hc.
  - destruct (2 <=? n)%nat eqn:Hn; [apply IH|].
    cbn [Str.collapseNewlines]. by rewrite Hc, Hn, IH.
  - cbn [Str.collapseNewlines]. by rewrite Hc, IH.
Qed.

Lemma newline_isSpace c : Ascii.eqb c Str.newline = true -> Str.isSpace c = true.
Proof. intros H. apply Ascii.eqb_eq in H as ->. reflexivity. Qed.

(** A string that [trimEnd] leaves alone and that is not empty stays so
    under the collapse of line feeds. *)
Lemma collapseNewlines_trimEnd n s :
  s <> EmptyString -> Str.trimEnd s = s ->
  Str.collapseNewlines n s <> EmptyString
  /\ Str.trimEnd (Str.collapseNewlines n s) = Str.collapseNewlines n s.
Proof.
  revert n. induction s as [|c s IH]; intros n Hne Ht; [done|].
  cbn [Str.trimEnd] in Ht.
  destruct (Str.trimEnd s) as [|d s'] eqn:Hs.
  - (* [c] is the last character *)
    destruct (Str.isSpace c) eqn:Hc; [done|]. injection Ht as <-.
    cbn [Str.collapseNewlines].
    destruct (Ascii.eqb c Str.newline) eqn:Hn;
      [apply newline_isSpace in Hn; congruence|].
    cbn [Str.trimEnd]. by rewrite Hc.
  - injection Ht as Ht.
    assert (Hs0 : s <> EmptyString) by (rewrite <- Ht; done).
    cbn [Str.collapseNewlines].
    destruct (Ascii.eqb c Str.newline) eqn:Hn; [destruct (2 <=? n)%nat|].
    + by apply IH.
    + destruct (IH (S n) Hs0 Ht) as [Hne' Ht']. split; [done|].
      cbn [Str.trimEnd]. rewrite Ht'. by destruct (Str.collapseNewlines (S n) s).
    + destruct (IH 0 Hs0 Ht) as [Hne' Ht']. split; [done|].
      cbn [Str.trimEnd]. rewrite Ht'. by destruct (Str.collapseNewlines 0 s).
Qed.

Lemma trimEnd_trim s : Str.trimEnd (Str.trim s) = Str.trim s.
Proof. unfold Str.trim. apply trimEnd_idem. Qed.

Lemma improvedParagraph_idem innerText :
  Crawler.improvedParagraph (Crawler.improvedParagraph innerText)
  = Crawler.improvedParagraph innerText.
Proof.
  destruct (String.eqb (Str.trim innerText) "") eqn:E.
  - assert (Hp : Crawler.improvedParagraph innerText = "")
      by (unfold Crawler.improvedParagraph; by rewrite E).
    rewrite Hp. reflexivity.
  - assert (Hp : Crawler.improvedParagraph innerText
                 = (Str.collapseNewlines 0 (Str.trim innerText) ++ Str.nl ++ Str.nl)%string)
      by (unfold Crawler.improvedParagraph; by rewrite E).
    rewrite Hp. apply String.eqb_neq in E.
    destruct (trim_head innerText) as [H0|(c & t & Ht & Hc)]; [done|].
    destruct (collapseNewlines_trimEnd 0 (Str.trim innerText) E (trimEnd_trim _)) as [Hne Hfix].
    set (body := Str.collapseNewlines 0 (Str.trim innerText)) in *.
    assert (Hhead : exists t', body = String c t').
    { unfold body. rewrite Ht. cbn [Str.collapseNewlines].
      destruct (Ascii.eqb c Str.newline) eqn:Hn; [apply newline_isSpace in Hn; congruence|].
      eauto. }
    destruct Hhead as [t' Hbody].
    assert (Htrim : Str.trim (body ++ Str.nl ++ Str.nl)%string = body).
    { unfold Str.trim. rewrite Hbody.
      change (String c t' ++ Str.nl ++ Str.nl)%string
        with (String c (t' ++ (Str.nl ++ Str.nl))%string).
      cbn [Str.trimStart]. rewrite Hc.
      change (String c (t' ++ (Str.nl ++ Str.nl))%string)
        with (String c t' ++ (Str.nl ++ Str.nl))%string.
      rewrite trimEnd_app_spaces by reflexivity. by rewrite <- Hbody. }
    unfold Crawler.improvedParagraph. rewrite Htrim.
    destruct (String.eqb body "") eqn:E'; [apply String.eqb_eq in E'; done|].
    unfold body. by rewrite collapseNewlines_idem.
Qed.

(** The rule on a sample: outer white space goes, four line feeds
    become two, and the paragraph ends in two line feeds. *)
Example improvedParagraph_sample :
  Crawler.improvedParagraph ("  a" ++ Str.nl ++ Str.nl ++ Str.nl ++ Str.nl ++ "b ")%string
  = ("a" ++ Str.nl ++ Str.nl ++ "b" ++ Str.nl ++ Str.nl)%string.
Proof. vm_compute. reflexivity. Qed.

(** * Further properties *)

(** ** The response loop: the answer of a request *)

Section LoopFacts.
Import Searcher Pipeline LoopInv.
Variable timeout : option Z.
Variable count : nat.

Lemma sentOk_mono history e entry : sentOk history entry -> sentOk (history ++ [e]) entry.
Proof.
  unfold sentOk. destruct (snd entry); [|done].
  intros [? ?]. split; [done|]. apply elem_of_app. by left.
Qed.

Lemma sendResponse_fresh r data meta :
  headersSent r = false -> wire r = [] -> status r = 200%Z ->
  wire (sendResponse r data meta)
  = [(match code meta with
      | Some c => if (c =? 0)%Z then 200%Z else c
      | None => 200%Z
      end, data)].
Proof.
  intros Hs Hw Hst. unfold sendResponse. rewrite Hs.
  destruct meta as [[c|] ct]; simpl;
    repeat (match goal with |- context [if ?b then _ else _] => destruct b end; simpl);
    by rewrite ?Hw, ?Hst.
Qed.

Lemma sendResponse_sent r data meta : headersSent r = true -> sendResponse r data meta = r.
Proof. intros H. unfold sendResponse. by rewrite H. Qed.

(** Sending keeps [answerOk] on the response, provided the data is a
    batch of the history under [plainOk] or the error under
    [plain500]. *)
Lemma send_answer history r data meta :
  (data = ErrorBody /\ meta = plain500)
  \/ (exists b, data = BatchBody b /\ meta = plainOk /\ Emit b ∈ history) ->
  (headersSent r = false -> wire r = [] /\ status r = 200%Z) ->
  (headersSent r = true -> exists entry, wire r = [entry] /\ sentOk history entry) ->
  exists entry, wire (sendResponse r data meta) = [entry] /\ sentOk history entry.
Proof.
  intros Hdata Hf Ht. destruct (headersSent r) eqn:Hs.
  - rewrite sendResponse_sent by done. by apply Ht.
  - destruct (Hf eq_refl) as [Hw Hst]. rewrite sendResponse_fresh by done.
    eexists. split; [reflexivity|].
    destruct Hdata as [[-> ->]|(b & -> & -> & Hb)]; simpl; done.
Qed.

Lemma step_answerOk history s e s' :
  step timeout count s e = Some s' ->
  timerOk timeout s -> answerOk history s -> answerOk (history ++ [e]) s'.
Proof.
  intros Hstep Htimer (Hf & Ht & Hl & Hp).
  assert (Hf' : headersSent (res s) = false -> wire (res s) = [] /\ status (res s) = 200%Z)
    by (intros H; by destruct (Hf H) as (? & ? & ?)).
  assert (Ht' : headersSent (res s) = true ->
                exists entry, wire (res s) = [entry] /\ sentOk (history ++ [e]) entry).
  { intros H. destruct (Ht H) as (entry & ? & ?). exists entry. split; [done|].
    by apply sentOk_mono. }
  assert (Hl' : forall b, lastScrapped s = Some b -> Emit b ∈ history ++ [e])
    by (intros b H; apply elem_of_app; left; by apply Hl).
  assert (Hhere : e ∈ history ++ [e]) by (apply elem_of_app; right; apply list_elem_of_here).
  destruct e; simpl in Hstep;
    repeat match type of Hstep with
           | (if ?b then _ else _) = _ => destruct b eqn:?; [|discriminate]
           end;
    injection Hstep as <-; unfold answerOk.
  - (* Emit *)
    unfold onEmit.
    set (s1 := mkState (Some scrapped) _ _ _ _ _).
    set (s2 := if existsb pageQualified scrapped then setEarlyReturnTimer timeout s1 else s1).
    assert (Hs2 : timerOk timeout s2).
    { unfold s2. destruct (existsb pageQualified scrapped);
        [by apply setEarlyReturnTimer_ok | exact Htimer]. }
    assert (Hr2 : res s2 = res s /\ phase s2 = phase s /\ lastScrapped s2 = Some scrapped).
    { unfold s2. destruct (existsb pageQualified scrapped); [|done].
      unfold setEarlyReturnTimer. by destruct (earlyReturnTimer s1). }
    destruct Hr2 as (Hres & Hph & Hls).
    assert (Hrun : phase s = Running) by (unfold isRunning in *; by destruct (phase s)).
    destruct (negb (searchResultsQualified scrapped count)).
    + rewrite Hph, Hls, Hres. split_and!.
      * intros H. destruct (Hf' H). done.
      * done.
      * by intros b [= <-].
      * intros b. by rewrite Hrun.
    + simpl. rewrite clearEarlyReturnTimer_res, Hres.
      destruct (send_answer (history ++ [Emit scrapped]) (res s) (BatchBody scrapped) plainOk)
        as (entry & Hw & Hok); [right; by exists scrapped | done | done |].
      split_and!.
      * by rewrite sendResponse_headersSent.
      * intros _. by exists entry.
      * intros b. unfold clearEarlyReturnTimer. destruct (earlyReturnTimer s2); simpl;
          rewrite Hls; by intros [= <-].
      * intros b [= <-]. split; [|done]. by apply clearEarlyReturnTimer_pending with (timeout := timeout).
  - (* Done *)
    unfold onDone.
    assert (Hc : lastScrapped (clearEarlyReturnTimer s) = lastScrapped s)
      by (unfold clearEarlyReturnTimer; by destruct (earlyReturnTimer s)).
    rewrite Hc. destruct (lastScrapped s) as [batch|] eqn:Hlast; simpl;
      rewrite clearEarlyReturnTimer_res.
    + destruct (send_answer (history ++ [Done]) (res s) (BatchBody batch) plainOk)
        as (entry & Hw & Hok); [right; exists batch; split_and!; try done; by apply Hl' | done | done |].
      split_and!.
      * by rewrite sendResponse_headersSent.
      * intros _. by exists entry.
      * rewrite Hc. intros b [= <-]. by apply Hl'.
      * intros b [= <-]. split; [by apply clearEarlyReturnTimer_pending with (timeout := timeout)|].
        by apply Hl'.
    + destruct (send_answer (history ++ [Done]) (res s) ErrorBody plain500)
        as (entry & Hw & Hok); [by left | done | done |].
      split_and!.
      * by rewrite sendResponse_headersSent.
      * intros _. by exists entry.
      * by rewrite Hc.
      * done.
  - (* Throw *)
    simpl.
    destruct (send_answer (history ++ [Throw]) (res s) ErrorBody plain500)
      as (entry & Hw & Hok); [by left | done | done |].
    split_and!.
    + by rewrite sendResponse_headersSent.
    + intros _. by exists entry.
    + done.
    + done.
  - (* TimerFire *)
    unfold onTimer. simpl. destruct (lastScrapped s) as [batch|] eqn:Hlast; simpl.
    + destruct (send_answer (history ++ [TimerFire]) (res s) (BatchBody batch) plainOk)
        as (entry & Hw & Hok); [right; exists batch; split_and!; try done; by apply Hl' | done | done |].
      assert (Hrun : headersSent (res s) = false -> phase s = Running)
        by (intros H; by destruct (Hf H) as (? & ? & ?)).
      split_and!.
      * by rewrite sendResponse_headersSent.
      * intros _. by exists entry.
      * intros b [= <-]. by apply Hl'.
      * intros b Hb. destruct (Hp b Hb) as [_ ?]. split; [done|]. apply elem_of_app. by left.
    + split_and!.
      * intros H. destruct (Hf H) as (? & ? & ?). done.
      * done.
      * done.
      * intros b Hb. destruct (Hp b Hb) as [_ ?]. split; [done|]. apply elem_of_app. by left.
Qed.

Lemma run_answerOk evs history s s' :
  run timeout count s evs = Some s' ->
  stateOk timeout s -> answerOk history s -> answerOk (history ++ evs) s'.
Proof.
  revert history s. induction evs as [|e evs IH]; intros history s; simpl.
  - intros [= <-] _. by rewrite app_nil_r.
  - destruct (step timeout count s e) as [s1|] eqn:Hs; [|done].
    intros Hrun Hok Ha.
    replace (history ++ e :: evs) with ((history ++ [e]) ++ evs) by (by rewrite <- app_assoc).
    eapply IH; [done | by eapply step_ok |].
    eapply step_answerOk; [done | by destruct Hok | done].
Qed.

Lemma init_answerOk : answerOk [] init.
Proof. split_and!; simpl; done. Qed.

End LoopFacts.

(** X1: when the handler of a search request has returned, exactly one
    response is on the wire: a batch that the generator yielded, with
    status 200, or the error text, with status 500. *)
Theorem search_answers_exactly_once
    (timeout : option Z) (count : nat) (evs : list Event) (s : State) (v : Body) :
  run timeout count init evs = Some s ->
  phase s = Returned v ->
  exists st body,
    wire (res s) = [(st, body)]
    /\ (forall b, body = BatchBody b -> st = 200%Z /\ Emit b ∈ evs)
    /\ (body = ErrorBody -> st = 500%Z).
Proof.
  intros Hrun Hphase.
  pose proof (run_answerOk timeout count evs [] init s Hrun (init_ok timeout) init_answerOk)
    as (Hf & Ht & _ & _). simpl in Ht.
  destruct (headersSent (res s)) eqn:Hs.
  - destruct (Ht eq_refl) as ([st body] & Hw & Hok). exists st, body.
    split; [done|]. unfold LoopInv.sentOk in Hok. simpl in Hok.
    split; [intros b -> | intros ->]; done.
  - destruct (Hf eq_refl) as (_ & _ & Hrunning). congruence.
Qed.

Lemma search_answers_exactly_once_witness :
  exists s,
    run None 2 init [Emit [goodPage]; Emit [goodPage; stubPage]; Done] = Some s
    /\ phase s = Returned (BatchBody [goodPage; stubPage])
    /\ wire (res s) = [(200%Z, BatchBody [goodPage; stubPage])].
Proof.
  eexists. split; [reflexivity|]. split; [reflexivity|].
  destruct (search_answers_exactly_once None 2
              [Emit [goodPage]; Emit [goodPage; stubPage]; Done] _
              (BatchBody [goodPage; stubPage]) eq_refl eq_refl)
    as (st & body & Hw & _).
  reflexivity.
Defined.

(** X2: when the generator ends or throws before it has yielded any
    batch, the handler answers 500 with the error text (the failed
    assertion "No content available" is caught by the handler's own
    [catch]). *)
Theorem search_without_batch_answers_500
    (timeout : option Z) (count : nat) (evs : list Event) (s : State) (v : Body) :
  run timeout count init evs = Some s ->
  (forall b, Emit b ∉ evs) ->
  phase s = Returned v ->
  v = ErrorBody /\ wire (res s) = [(500%Z, ErrorBody)].
Proof.
  intros Hrun Hnone Hphase.
  pose proof (run_answerOk timeout count evs [] init s Hrun (init_ok timeout) init_answerOk)
    as (_ & _ & _ & Hp). simpl in Hp.
  destruct (search_answers_exactly_once timeout count evs s v Hrun Hphase)
    as (st & body & Hw & Hb & He).
  split.
  - destruct v as [b|]; [|done]. destruct (Hp b Hphase) as [_ Hin]. by destruct (Hnone b).
  - destruct body as [b|]; [destruct (Hb b eq_refl) as [_ Hin]; by destruct (Hnone b)|].
    by rewrite Hw, (He eq_refl).
Qed.

Lemma search_without_batch_answers_500_witness :
  exists s,
    run None 5 init [Done] = Some s
    /\ (forall b, Emit b ∉ [Done])
    /\ phase s = Returned ErrorBody
    /\ wire (res s) = [(500%Z, ErrorBody)].
Proof.
  assert (Hnone : forall b, Emit b ∉ [Done]).
  { intros b Hin. apply list_elem_of_singleton in Hin. discriminate. }
  eexists. split; [reflexivity|]. split; [exact Hnone|]. split; [reflexivity|].
  apply (search_without_batch_answers_500 None 5 [Done] _ ErrorBody eq_refl Hnone eq_refl).
Defined.

(** X3: once the handler has returned a batch, nothing more happens for
    the request: the early-return timer is cleared, so its callback
    cannot run, and the generator is no longer driven. *)
Theorem search_quiet_after_batch
    (timeout : option Z) (count : nat) (evs : list Event) (s : State)
    (b : list FormattedPage) :
  run timeout count init evs = Some s ->
  phase s = Returned (BatchBody b) ->
  timerPending s = false /\ forall e, step timeout count s e = None.
Proof.
  intros Hrun Hphase.
  pose proof (run_answerOk timeout count evs [] init s Hrun (init_ok timeout) init_answerOk)
    as (_ & _ & _ & Hp).
  destruct (Hp b Hphase) as [Hpend _]. split; [done|].
  intros e. destruct e; simpl; unfold isRunning; rewrite ?Hphase, ?Hpend; done.
Qed.

Lemma search_quiet_after_batch_witness :
  exists s,
    run (Some 2%Z) 1 init [Emit [stubPage]; Emit [goodPage]] = Some s
    /\ phase s = Returned (BatchBody [goodPage])
    /\ timerPending s = false
    /\ step (Some 2%Z) 1 s TimerFire = None.
Proof.
  eexists. split; [reflexivity|]. split; [reflexivity|].
  destruct (search_quiet_after_batch (Some 2%Z) 1 [Emit [stubPage]; Emit [goodPage]] _
              [goodPage] eq_refl eq_refl) as [Hp Hq].
  split; [exact Hp | apply Hq].
Defined.

(** ** The search cache: saving and paging *)

(** X4: [cachedWebSearch] saves at most one record, and a record it
    saves holds the response it returns, under the digest of the query,
    created at the time of the save and expiring one retention period
    (7 days) later; a response that it returns without saving comes
    from an entry of the store. *)
Theorem cached_search_saves_what_upstream_gave
    (objHashMd5B64Of : Cache.Query -> string)
    (upstream : Cache.SearchParams -> Failure + SearXNGSearchResponse)
    (store : list Cache.CacheEntry) (now nowDate jitter : Z) (query : Cache.Query)
    (noCache : bool) :
  let out := Cache.cachedWebSearch objHashMd5B64Of upstream store now nowDate jitter query noCache in
  (forall record, record ∈ CacheTrace.saves (Cache.trace out) ->
     CacheTrace.saves (Cache.trace out) = [record]
     /\ Cache.value out = inr (Cache.response record)
     /\ Cache.queryDigest record = objHashMd5B64Of query
     /\ Cache.entryQuery record = query
     /\ Cache.createdAt record = nowDate
     /\ Cache.expireAt record = (Cache.createdAt record + cacheRetentionMs)%Z)
  /\ (CacheTrace.saves (Cache.trace out) = [] ->
      forall r, Cache.value out = inr r ->
        noCache = false /\ exists e, e ∈ store /\ r = Cache.response e).
Proof.
  intros out. unfold out, Cache.cachedWebSearch.
  assert (Hfetch :
    forall cache : option Cache.CacheEntry,
      (forall e, cache = Some e -> noCache = false /\ e ∈ store) ->
      let o := Cache.withFallback cache
                 (Cache.tryUpstream objHashMd5B64Of upstream nowDate jitter query) in
      (forall record, record ∈ CacheTrace.saves (Cache.trace o) ->
         CacheTrace.saves (Cache.trace o) = [record]
         /\ Cache.value o = inr (Cache.response record)
         /\ Cache.queryDigest record = objHashMd5B64Of query
         /\ Cache.entryQuery record = query
         /\ Cache.createdAt record = nowDate
         /\ Cache.expireAt record = (Cache.createdAt record + cacheRetentionMs)%Z)
      /\ (CacheTrace.saves (Cache.trace o) = [] ->
          forall r, Cache.value o = inr r ->
            noCache = false /\ exists e, e ∈ store /\ r = Cache.response e)).
  { intros cache Hcache. unfold Cache.tryUpstream, Cache.withFallback.
    destruct (upstream (Cache.pageParams query 1))
      as [err1|[rq rn rr ra rc ri rs ru]]; simpl.
    - destruct cache as [c|]; simpl.
      + split; [intros record Hin; by apply elem_of_nil in Hin|].
        intros _ r [= <-]. destruct (Hcache c eq_refl). split; [done|]. by exists c.
      + split; [intros record Hin; by apply elem_of_nil in Hin | done].
    - destruct (length rr <? Cache.count query)%nat; simpl;
        [destruct (upstream (Cache.pageParams query 2)) as [err2|second]; simpl|].
      + destruct cache as [c|]; simpl.
        * split; [intros record Hin; by apply elem_of_nil in Hin|].
          intros _ r [= <-]. destruct (Hcache c eq_refl). split; [done|]. by exists c.
        * split; [intros record Hin; by apply elem_of_nil in Hin | done].
      + split; [|done]. intros record Hin. apply list_elem_of_singleton in Hin as ->. done.
      + split; [|done]. intros record Hin. apply list_elem_of_singleton in Hin as ->. done. }
  destruct noCache.
  - apply Hfetch. done.
  - destruct (Cache.fromFirestoreQuery store (objHashMd5B64Of query)) as [c|] eqn:Hf.
    + apply fromFirestoreQuery_elem in Hf as [Hin _].
      destruct (Cache.stale now c).
      * apply Hfetch. by intros e [= <-].
      * simpl. split; [intros record Hr; by apply elem_of_nil in Hr|].
        intros _ r [= <-]. split; [done|]. by exists c.
    + apply Hfetch. done.
Qed.

Lemma cached_search_saves_what_upstream_gave_witness :
  let out := Cache.cachedWebSearch sampleDigest (fun _ => inr sampleResponse) [] day day 0
               sampleQuery false in
  exists record,
    CacheTrace.saves (Cache.trace out) = [record]
    /\ Cache.value out = inr (Cache.response record)
    /\ Cache.expireAt record = (day + cacheRetentionMs)%Z.
Proof.
  intros out. eexists. split; [vm_compute; reflexivity|].
  destruct (cached_search_saves_what_upstream_gave sampleDigest (fun _ => inr sampleResponse)
              [] day day 0 sampleQuery false) as [H _].
  edestruct H as (_ & Hv & _ & _ & _ & He); [apply list_elem_of_here|].
  split; [exact Hv | exact He].
Defined.

(** X5: [cachedWebSearch] calls the upstream search at most twice, for
    page 1 and then page 2, and for page 2 only when page 1 came back
    with fewer results than the count; a response obtained from
    upstream holds the first [count] results of page 1 followed by
    page 2, so at most [count] of them. *)
Theorem cached_search_pages
    (objHashMd5B64Of : Cache.Query -> string)
    (upstream : Cache.SearchParams -> Failure + SearXNGSearchResponse)
    (store : list Cache.CacheEntry) (now nowDate jitter : Z) (query : Cache.Query)
    (noCache : bool) :
  let out := Cache.cachedWebSearch objHashMd5B64Of upstream store now nowDate jitter query noCache in
  let p1 := Cache.pageParams query 1 in
  let p2 := Cache.pageParams query 2 in
  (CacheTrace.calls (Cache.trace out) = []
   \/ CacheTrace.calls (Cache.trace out) = [p1]
   \/ CacheTrace.calls (Cache.trace out) = [p1; p2])
  /\ (CacheTrace.calls (Cache.trace out) = [p1; p2] <->
      CacheTrace.calls (Cache.trace out) <> []
      /\ exists first, upstream p1 = inr first /\ length (results first) < Cache.count query)
  /\ (forall r, Cache.value out = inr r -> CacheTrace.saves (Cache.trace out) <> [] ->
        length (results r) <= Cache.count query
        /\ exists first,
             upstream p1 = inr first
             /\ results r
                = take (Cache.count query)
                    (results first
                     ++ (if (length (results first) <? Cache.count query)%nat
                         then match upstream p2 with
                              | inr second => results second
                              | inl _ => []
                              end
                         else []))).
Proof.
  intros out p1 p2. unfold out, Cache.cachedWebSearch.
  assert (Hfetch :
    forall cache : option Cache.CacheEntry,
      let o := Cache.withFallback cache
                 (Cache.tryUpstream objHashMd5B64Of upstream nowDate jitter query) in
      (CacheTrace.calls (Cache.trace o) = []
       \/ CacheTrace.calls (Cache.trace o) = [p1]
       \/ CacheTrace.calls (Cache.trace o) = [p1; p2])
      /\ (CacheTrace.calls (Cache.trace o) = [p1; p2] <->
          CacheTrace.calls (Cache.trace o) <> []
          /\ exists first, upstream p1 = inr first /\ length (results first) < Cache.count query)
      /\ (forall r, Cache.value o = inr r -> CacheTrace.saves (Cache.trace o) <> [] ->
            length (results r) <= Cache.count query
            /\ exists first,
                 upstream p1 = inr first
                 /\ results r
                    = take (Cache.count query)
                        (results first
                         ++ (if (length (results first) <? Cache.count query)%nat
                             then match upstream p2 with
                                  | inr second => results second
                                  | inl _ => []
                                  end
                             else [])))).
  { intros cache. unfold Cache.tryUpstream, Cache.withFallback. fold p1. fold p2.
    destruct (upstream p1) as [err1|first] eqn:H1.
    - assert (Hno : ~ exists f : SearXNGSearchResponse,
                        inl err1 = inr f /\ length (results f) < Cache.count query)
        by (by intros (? & [=] & _)).
      destruct cache as [c|]; simpl; (split_and!; [by right; left | | done]);
        (split; [done | by intros [_ ?]]).
    - destruct first as [rq rn rr ra rc ri rs ru]. simpl.
      destruct (length rr <? Cache.count query)%nat eqn:Hlt.
      + apply Nat.ltb_lt in Hlt.
        assert (Hyes : exists f : SearXNGSearchResponse,
                  @inr Failure _ (mkResponse rq rn rr ra rc ri rs ru) = inr f
                  /\ length (results f) < Cache.count query)
          by (eexists; split; [reflexivity | done]).
        destruct (upstream p2) as [err2|second] eqn:H2; simpl.
        * destruct cache as [c|]; simpl;
            (split_and!; [by right; right | by split | done]).
        * split_and!; [by right; right | by split |].
          intros r [= <-] _. simpl. split.
          -- rewrite length_take. lia.
          -- eexists. split; [reflexivity|]. simpl.
             apply Nat.ltb_lt in Hlt. by rewrite Hlt.
      + pose proof Hlt as Hlt'. apply Nat.ltb_ge in Hlt. simpl. split_and!; [by right; left | |].
        * split; [done|]. intros [_ (f & [= <-] & Hf)]. simpl in Hf. lia.
        * intros r [= <-] _. simpl. split.
          -- rewrite length_take. lia.
          -- eexists. split; [reflexivity|]. simpl. by rewrite Hlt', app_nil_r. }
  assert (Hhit : forall c : Cache.CacheEntry,
    let o := Cache.mkOutcome (inr (Cache.response c)) [] in
    (CacheTrace.calls (Cache.trace o) = []
     \/ CacheTrace.calls (Cache.trace o) = [p1]
     \/ CacheTrace.calls (Cache.trace o) = [p1; p2])
    /\ (CacheTrace.calls (Cache.trace o) = [p1; p2] <->
        CacheTrace.calls (Cache.trace o) <> []
        /\ exists first, upstream p1 = inr first /\ length (results first) < Cache.count query)
    /\ (forall r, Cache.value o = inr r -> CacheTrace.saves (Cache.trace o) <> [] ->
          length (results r) <= Cache.count query
          /\ exists first,
               upstream p1 = inr first
               /\ results r
                  = take (Cache.count query)
                      (results first
                       ++ (if (length (results first) <? Cache.count query)%nat
                           then match upstream p2 with
                                | inr second => results second
                                | inl _ => []
                                end
                           else [])))).
  { intros c. simpl. split_and!; [by left | split; [done | by intros [? _]] | done]. }
  destruct noCache; [apply Hfetch|].
  destruct (Cache.fromFirestoreQuery store (objHashMd5B64Of query)) as [c|]; [|apply Hfetch].
  destruct (Cache.stale now c); [apply Hfetch | apply Hhit].
Qed.

Lemma cached_search_pages_witness :
  let query := Cache.mkQuery "rocq" 3 [] [] None in
  let out := Cache.cachedWebSearch sampleDigest (fun _ => inr sampleResponse) [] day day 0
               query false in
  CacheTrace.calls (Cache.trace out) = [Cache.pageParams query 1; Cache.pageParams query 2]
  /\ exists r, Cache.value out = inr r /\ length (results r) <= 3.
Proof.
  intros query out. split; [reflexivity|].
  eexists. split; [reflexivity|].
  destruct (cached_search_pages sampleDigest (fun _ => inr sampleResponse) [] day day 0
              query false) as (_ & _ & H).
  edestruct H as [Hlen _]; [reflexivity | vm_compute; discriminate | exact Hlen].
Defined.

(** ** The request parameters of the search client *)

(** X6: the request that the search cache sends upstream for page [n]
    ([n >= 1]) carries exactly the parameters q, format (json),
    language (only when the locale is a non-empty string), pageno,
    categories and engines (the lists joined with commas, also when
    empty), in this order; it never carries time_range, enabled_engines
    or disabled_engines. *)
Theorem upstream_request_parameters (query : Cache.Query) (n : nat) :
  1 <= n ->
  let params := Params.urlSearchParams (Params.ofCache (Cache.pageParams query n)) in
  params
  = [("q", Cache.q query); ("format", "json")]
    ++ (if JS.truthy (Cache.language query)
        then [("language", default "" (Cache.language query))] else [])
    ++ [("pageno", Text.ofNat n);
        ("categories", Str.join "," (Cache.categories query));
        ("engines", Str.join "," (Cache.engines query))]
  /\ NoDup (fst <$> params)
  /\ ("time_range" ∉ (fst <$> params))
  /\ ("enabled_engines" ∉ (fst <$> params))
  /\ ("disabled_engines" ∉ (fst <$> params)).
Proof.
  intros Hn params.
  assert (Hp : params
    = [("q", Cache.q query); ("format", "json")]
      ++ (if JS.truthy (Cache.language query)
          then [("language", default "" (Cache.language query))] else [])
      ++ [("pageno", Text.ofNat n);
          ("categories", Str.join "," (Cache.categories query));
          ("engines", Str.join "," (Cache.engines query))]).
  { unfold params, Params.urlSearchParams, Params.ofCache, Cache.pageParams, Params.optional.
    simpl. destruct n as [|n]; [lia|].
    destruct (Cache.language query) as [l|]; simpl; [destruct (negb (String.eqb l ""))|]; done. }
  split; [exact Hp|]. rewrite Hp.
  destruct (JS.truthy (Cache.language query)); simpl;
    (split; [apply (bool_decide_unpack _); vm_compute; reflexivity|]);
    split_and!; intros Hin; apply (bool_decide_pack _) in Hin; vm_compute in Hin; done.
Qed.

Lemma upstream_request_parameters_witness :
  1 <= 2
  /\ Params.urlSearchParams
       (Params.ofCache (Cache.pageParams (Cache.mkQuery "rocq" 5 ["it"; "science"] [] (Some "en")) 2))
     = [("q", "rocq"); ("format", "json"); ("language", "en"); ("pageno", "2");
        ("categories", "it,science"); ("engines", "")].
Proof.
  split; [lia|].
  apply (upstream_request_parameters (Cache.mkQuery "rocq" 5 ["it"; "science"] [] (Some "en")) 2).
  lia.
Defined.

(** ** Host names *)

Lemma split_nonempty sep s : Text.split sep s <> [].
Proof.
  destruct s as [|c s]; simpl; [done|].
  destruct (Ascii.eqb c sep); [done|]. by destruct (Text.split sep s).
Qed.

Lemma split_cons_other sep c s :
  Ascii.eqb c sep = false ->
  exists piece pieces,
    Text.split sep s = piece :: pieces
    /\ Text.split sep (String c s) = String c piece :: pieces.
Proof.
  intros Hc. simpl. rewrite Hc.
  destruct (Text.split sep s) as [|piece pieces] eqn:E; [by destruct (split_nonempty sep s)|].
  by exists piece, pieces.
Qed.

(** A string without the separator is its own single piece. *)
Lemma split_without sep s :
  Text.includesChar sep s = false -> Text.split sep s = [s].
Proof.
  induction s as [|c s IH]; simpl; [done|].
  rewrite orb_false_iff. intros [Hc Hs]. rewrite Hc, IH; done.
Qed.

(** The pieces, joined with the separator, give the string back. *)
Lemma split_join sep s : Str.join (String sep EmptyString) (Text.split sep s) = s.
Proof.
  induction s as [|c s IH]; simpl; [done|].
  destruct (Ascii.eqb c sep) eqn:Hc.
  - apply Ascii.eqb_eq in Hc as ->.
    destruct (Text.split sep s) as [|piece pieces] eqn:E; [by destruct (split_nonempty sep s)|].
    simpl. simpl in IH. by rewrite IH.
  - destruct (Text.split sep s) as [|piece pieces] eqn:E; [by destruct (split_nonempty sep s)|].
    destruct pieces as [|p2 pieces]; simpl in *; by rewrite <- IH.
Qed.

(** The last piece is what follows the last separator. *)
Lemma split_last sep s :
  (Text.includesChar sep s = false /\ Text.split sep s = [s])
  \/ (exists pre tld,
        s = (pre ++ String sep tld)%string
        /\ Text.includesChar sep tld = false
        /\ 1 < length (Text.split sep s)
        /\ last (Text.split sep s) = Some tld).
Proof.
  induction s as [|c s IH]; [by left|].
  destruct (Ascii.eqb c sep) eqn:Hc.
  - right. simpl. rewrite Hc. apply Ascii.eqb_eq in Hc as ->.
    destruct IH as [[Hno Hs]|(pre & tld & -> & Hno & Hlen & Hlast)].
    + exists EmptyString, s. rewrite Hs. simpl. split_and!; try done. lia.
    + exists (String sep pre), tld. split_and!; try done.
      * simpl. lia.
      * destruct (Text.split sep (pre ++ String sep tld)); [simpl in Hlen; lia | done].
  - destruct (split_cons_other sep c s Hc) as (piece & pieces & Hs & Hcs).
    destruct IH as [[Hno Hs']|(pre & tld & -> & Hno & Hlen & Hlast)].
    + left. split; [simpl; by rewrite Hc, Hno|]. rewrite Hcs.
      rewrite Hs' in Hs. by injection Hs as <- <-.
    + right. exists (String c pre), tld. rewrite Hcs. rewrite Hs in Hlen, Hlast.
      split_and!; try done.
      destruct pieces; [simpl in Hlen; lia | done].
Qed.

Lemma includesChar_app c a b :
  Text.includesChar c (a ++ b)%string = Text.includesChar c a || Text.includesChar c b.
Proof. induction a as [|d a IH]; simpl; [done|]. by rewrite IH, orb_assoc. Qed.

(** What follows the last separator is determined by the string. *)
Lemma last_label_unique sep pre1 tld1 pre2 tld2 :
  (pre1 ++ String sep tld1)%string = (pre2 ++ String sep tld2)%string ->
  Text.includesChar sep tld1 = false -> Text.includesChar sep tld2 = false ->
  tld1 = tld2.
Proof.
  revert pre2. induction pre1 as [|c pre1 IH]; intros pre2 Heq H1 H2.
  - destruct pre2 as [|d pre2]; simpl in Heq.
    + by injection Heq.
    + injection Heq as <- ->. rewrite includesChar_app in H1. simpl in H1.
      rewrite Ascii.eqb_refl in H1. by rewrite orb_true_r in H1.
  - destruct pre2 as [|d pre2]; simpl in Heq.
    + injection Heq as -> <-. rewrite includesChar_app in H2. simpl in H2.
      rewrite Ascii.eqb_refl in H2. by rewrite orb_true_r in H2.
    + injection Heq as _ Heq. by eapply IH.
Qed.

(** X7: [isValidTLD] accepts a host name exactly when it has a dot and
    at least two characters after its last dot; a name of one label,
    a name that ends in a dot and a one-letter last label are
    refused. *)
Theorem valid_tld_iff_last_label (hostname : string) :
  Tld.isValidTLD hostname = true <->
  exists pre tld,
    hostname = (pre ++ String Text.dot tld)%string
    /\ Text.includesChar Text.dot tld = false
    /\ 2 <= String.length tld.
Proof.
  unfold Tld.isValidTLD. rewrite andb_true_iff, Nat.ltb_lt.
  destruct (split_last Text.dot hostname) as [[Hno Hs]|(pre & tld & Hh & Hno & Hlen & Hlast)].
  - rewrite Hs. simpl. split; [lia|].
    intros (pre & tld & -> & _ & _). rewrite includesChar_app in Hno. simpl in Hno.
    by rewrite orb_true_r in Hno.
  - rewrite Hlast, Nat.leb_le. split.
    + intros [_ H2]. by exists pre, tld.
    + intros (pre' & tld' & Hh' & Hno' & H2). split; [done|].
      rewrite Hh in Hh'. by rewrite (last_label_unique _ _ _ _ _ Hh' Hno Hno').
Qed.

(** [isValidTLD] on sample host names. *)
Example valid_tld_samples :
  Tld.isValidTLD "example.com" = true
  /\ Tld.isValidTLD "localhost" = false
  /\ Tld.isValidTLD "foo.x" = false
  /\ Tld.isValidTLD "example.com." = false
  /\ Tld.isValidTLD "192.168.178.100" = true.
Proof. repeat split; vm_compute; reflexivity. Qed.

(** ** The code rule of the rewriter *)

Lemma backticks_length n : String.length (Rules.backticks n) = n.
Proof. induction n as [|n IH]; simpl; [done | by rewrite IH]. Qed.

Lemma backticks_inj n m : Rules.backticks n = Rules.backticks m -> n = m.
Proof. intros H. by rewrite <- (backticks_length n), H, backticks_length. Qed.

Lemma backticks_snoc n : (Rules.backticks n ++ "`")%string = Rules.backticks (S n).
Proof.
  induction n as [|n IH]; [done|].
  change (String Text.backtick (Rules.backticks n ++ "`")%string
          = String Text.backtick (Rules.backticks (S n))).
  by rewrite IH.
Qed.

(** The loop from a run of [n] backticks: it stops, after [k] rounds,
    at the first length from [n] on that is not among the matches, or
    it uses all its fuel on lengths that are. *)
Lemma growDelimiter_spec fuel matches n :
  exists k,
    Rules.growDelimiter fuel matches (Rules.backticks n) = Rules.backticks (n + k)
    /\ k <= fuel
    /\ (forall m, n <= m < n + k -> Rules.backticks m ∈ matches)
    /\ (k < fuel -> Rules.backticks (n + k) ∉ matches).
Proof.
  revert n. induction fuel as [|fuel IH]; intros n; simpl.
  - exists 0. rewrite Nat.add_0_r. split_and!; [done | done | intros m; lia | lia].
  - case_bool_decide as Hin.
    + rewrite backticks_snoc. destruct (IH (S n)) as (k & Hk & Hle & Hall & Hstop).
      exists (S k). replace (n + S k) with (S n + k) by lia.
      split_and!; [done | lia | | intros ?; apply Hstop; lia].
      intros m Hm. destruct (decide (m = n)) as [->|]; [done|]. apply Hall. lia.
    + exists 0. rewrite Nat.add_0_r. split_and!; [done | lia | intros m; lia | done].
Qed.

(** With one round per match and one more, the loop stops by itself. *)
Lemma growDelimiter_stops matches :
  exists n,
    Rules.growDelimiter (S (length matches)) matches "`" = Rules.backticks n
    /\ 1 <= n
    /\ (Rules.backticks n ∉ matches)
    /\ (forall m, 1 <= m < n -> Rules.backticks m ∈ matches).
Proof.
  destruct (growDelimiter_spec (S (length matches)) matches 1) as (k & Hk & Hle & Hall & Hstop).
  exists (1 + k). split_and!; [done | lia | | done].
  apply Hstop. apply Nat.lt_succ_r.
  assert (Hsub : Rules.backticks <$> seq 1 k ⊆+ matches).
  { apply NoDup_submseteq.
    - apply NoDup_fmap_2_strong; [|apply NoDup_seq].
      intros a b _ _. apply backticks_inj.
    - intros x Hx. apply list_elem_of_fmap in Hx as (m & -> & Hm).
      apply elem_of_seq in Hm. apply Hall. lia. }
  apply submseteq_length in Hsub. by rewrite length_fmap, length_seq in Hsub.
Qed.

(** X8: for a non-empty content without line feed, the rule
    [improved-code] wraps the content in two equal runs of backticks
    whose length is the least positive one that no maximal run of
    backticks inside the content has, so that the code span is not
    closed by its own content; between the opening run and the content
    it puts nothing, a space or (for a run of three) a line feed. *)
Theorem improved_code_delimiter (content : string) :
  content <> "" ->
  Text.includesChar Str.newline content = false ->
  exists n extraSpace closing,
    Rules.improvedCode content
    = (Rules.backticks n ++ extraSpace ++ content ++ closing ++ Rules.backticks n)%string
    /\ 1 <= n
    /\ (Rules.backticks n ∉ Rules.backtickRuns 0 content)
    /\ (forall m, 1 <= m < n -> Rules.backticks m ∈ Rules.backtickRuns 0 content)
    /\ (extraSpace = "" \/ extraSpace = " " \/ extraSpace = Str.nl)
    /\ (closing = "" \/ (n = 3 /\ closing = Str.nl)).
Proof.
  intros Hne Hnl. unfold Rules.improvedCode.
  apply String.eqb_neq in Hne. rewrite Hne, Hnl.
  destruct (growDelimiter_stops (Rules.backtickRuns 0 content)) as (n & -> & Hn & Hnot & Hall).
  exists n. eexists. eexists. split; [reflexivity|]. split_and!; try done.
  - destruct (String.eqb (Rules.backticks n) "```"); [by right; right|].
    destruct (Rules.needsExtraSpace content); [right; by left | by left].
  - destruct (String.eqb (Rules.backticks n) "```") eqn:E; [|by left]. simpl.
    destruct (negb _); [|by left]. right. split; [|done].
    apply String.eqb_eq in E. by apply (backticks_inj n 3).
Qed.

Lemma improved_code_delimiter_witness :
  "a`b``c" <> ""
  /\ Text.includesChar Str.newline "a`b``c" = false
  /\ Rules.improvedCode "a`b``c" = ("```" ++ Str.nl ++ "a`b``c" ++ Str.nl ++ "```")%string.
Proof.
  split; [discriminate|]. split; [reflexivity|].
  destruct (improved_code_delimiter "a`b``c" ltac:(discriminate) eq_refl)
    as (n & sp & cl & Heq & _).
  vm_compute. reflexivity.
Defined.

(** The rule on samples: a plain word, a content with a backtick, a
    content between spaces, and two lines. *)
Example improved_code_samples :
  Rules.improvedCode "x" = "`x`"
  /\ Rules.improvedCode "a`b" = "``a`b``"
  /\ Rules.improvedCode "`a" = "`` `a``"
  /\ Rules.improvedCode " a " = "`  a `"
  /\ Rules.improvedCode ("a" ++ Str.nl ++ "b")%string
     = ("```" ++ Str.nl ++ "a" ++ Str.nl ++ "b" ++ Str.nl ++ "```")%string
  /\ Rules.improvedCode "" = "".
Proof. repeat split; vm_compute; reflexivity. Qed.

(** ** The formatter: when and on what the rewriter runs *)

Section FormatterMoreFacts.
Import Crawler.
Variable Element : Type.
Variable snippetToElement : option string -> string -> option Element.
Variable runTurndown : TurndownService -> @TurndownInput Element -> nat -> option string * nat.
Variable host : string.
Variable keepImgDataUrl withImagesSummary withLinksSummary : bool.
Variable inferredImages inferredLinks imageSummary : PageSnapshot -> list (string * string).
Variable randomUUID : string.
Variable saveFileLocally : string -> string -> bool.

Abbreviation fmt' :=
  (formatSnapshot Element snippetToElement runTurndown host keepImgDataUrl
     withImagesSummary withLinksSummary inferredImages inferredLinks imageSummary
     randomUUID saveFileLocally).
Abbreviation contentOf'' :=
  (contentOf Element snippetToElement runTurndown keepImgDataUrl).
Abbreviation retry := (runWithRetry Element runTurndown).

(** What a run with retry leaves: the text it was given, or the
    rendering of one of its runs; its runs are on its input, with one
    of its two services. *)
Lemma runWithRetry_inv service vanilla input post contentText imgIdx c k rs :
  retry service vanilla input post contentText imgIdx = (c, k, rs) ->
  (c = contentText
   \/ exists run i j t,
        run ∈ rs /\ runTurndown (fst run) (snd run) i = (Some t, j) /\ c = Some (post t))
  /\ (forall run, run ∈ rs ->
        (fst run = service \/ fst run = vanilla) /\ snd run = input)
  /\ rs <> [].
Proof.
  unfold runWithRetry.
  destruct (runTurndown service input imgIdx) as [[t|] k1] eqn:H1.
  - intros [= <- <- <-]. split_and!; [|  | done].
    + right. exists (service, input), imgIdx, k1, t. split; [apply list_elem_of_here | done].
    + intros run Hr. apply list_elem_of_singleton in Hr as ->. split; [by left | done].
  - destruct (runTurndown vanilla input k1) as [[t|] k2] eqn:H2; intros [= <- <- <-].
    + split_and!; [|  | done].
      * right. exists (vanilla, input), k1, k2, t.
        split; [apply list_elem_of_further, list_elem_of_here | done].
      * intros run Hr. apply elem_of_cons in Hr as [->|Hr]; [split; [by left | done]|].
        apply list_elem_of_singleton in Hr as ->. split; [by right | done].
    + split_and!; [by left |  | done].
      intros run Hr. apply elem_of_cons in Hr as [->|Hr]; [split; [by left | done]|].
      apply list_elem_of_singleton in Hr as ->. split; [by right | done].
Qed.

(** The steps of the [do { ... } while (false)] block for a snapshot
    that is not degraded. *)
Lemma contentOf_inv mode snapshot nominalUrl c runs :
  degraded snapshot = false ->
  contentOf'' mode snapshot nominalUrl = Some (c, runs) ->
  let url := JS.or_else (rebase snapshot) nominalUrl in
  let withRules := getTurndown (mkOptions false url (negb keepImgDataUrl)) in
  exists document service0 target (whole : bool) runs0 c1 i1 runs1 c2 i2 runs2,
    snippetToElement (snapHtml snapshot) (href snapshot) = Some document
    /\ (mode = "markdown" -> service0 = withRules /\ target = document /\ runs0 = [])
    /\ (whole = true -> target = document)
    /\ retry (addRule "img-generated-alt" (use "gfm-tables" service0)) withRules
         (OfElement target) Str.trim (Some "") 0 = (c1, i1, runs1)
    /\ ((negb (JS.truthy c1) || (looksLikeHtml c1 && negb whole) = true
         /\ retry (addRule "img-generated-alt" (use "gfm-tables" service0)) withRules
              (OfHtml (snapHtml snapshot)) (fun t => t) c1 i1 = (c2, i2, runs2))
        \/ (negb (JS.truthy c1) || (looksLikeHtml c1 && negb whole) = false
            /\ c2 = c1 /\ runs2 = []))
    /\ c = (if negb (JS.truthy c2) || startsOrEndsLikeHtml c2 then snapText snapshot else c2)
    /\ runs = runs0 ++ runs1 ++ runs2.
Proof.
  intros Hdeg H url withRules. revert H. unfold contentOf. rewrite Hdeg.
  destruct (snippetToElement (snapHtml snapshot) (href snapshot)) as [document|]; [|done].
  fold url. fold withRules.
  set (chosen := if negb (String.eqb mode "markdown") && _ then _ else _).
  destruct chosen as [[[[service0 target] whole] runs0]|] eqn:Hchosen; [|done].
  unfold turnDownPlugins. simpl foldl.
  destruct (retry _ withRules (OfElement target) Str.trim (Some "") 0)
    as [[c1 i1] runs1] eqn:Hr1.
  set (cond := negb (JS.truthy c1) || (looksLikeHtml c1 && negb whole)).
  destruct cond eqn:Hcond.
  - destruct (retry _ withRules (OfHtml (snapHtml snapshot)) (fun t => t) c1 i1)
      as [[c2 i2] runs2] eqn:Hr2.
    intros [= <- <-].
    exists document, service0, target, whole, runs0, c1, i1, runs1, c2, i2, runs2.
    split_and!; try done.
    + intros ->. unfold chosen in Hchosen. simpl in Hchosen. by injection Hchosen as <- <- _ <-.
    + intros ->. unfold chosen in Hchosen.
      destruct (negb (String.eqb mode "markdown") && _);
        [|by injection Hchosen as _ <- _].
      destruct (snippetToElement _ _); [|done].
      destruct (runTurndown withRules (OfElement document) 0) as [[?|] ?]; [|done].
      destruct (runTurndown withRules (OfElement e) 0) as [[?|] ?]; [|done].
      destruct (readabilityDidItsJob _ _); [done|]. by injection Hchosen as _ <- _.
    + by left.
  - intros [= <- <-].
    exists document, service0, target, whole, runs0, c1, i1, runs1, c1, i1, [].
    split_and!; try done.
    + intros ->. unfold chosen in Hchosen. simpl in Hchosen. by injection Hchosen as <- <- _ <-.
    + intros ->. unfold chosen in Hchosen.
      destruct (negb (String.eqb mode "markdown") && _);
        [|by injection Hchosen as _ <- _].
      destruct (snippetToElement _ _); [|done].
      destruct (runTurndown withRules (OfElement document) 0) as [[?|] ?]; [|done].
      destruct (runTurndown withRules (OfElement e) 0) as [[?|] ?]; [|done].
      destruct (readabilityDidItsJob _ _); [done|]. by injection Hchosen as _ <- _.
    + by right.
Qed.

(** The page of a mode that goes through the block holds the trimmed
    content of the block, and its runs. *)
Lemma fmt_inv mode snapshot nominalUrl page runs :
  JS.includes earlyModes mode = false ->
  fmt' mode snapshot nominalUrl = Some (page, runs) ->
  exists c,
    contentOf'' mode snapshot nominalUrl = Some (c, runs)
    /\ content page = Some (Str.trim (match JS.or_else c (Some "") with
                                      | Some s => s | None => "" end)).
Proof.
  unfold earlyModes. rewrite !includes_cons_false. intros (E1 & E2 & E3 & E4 & _).
  unfold formatSnapshot. rewrite E1, E2, E3, E4.
  destruct (contentOf'' mode snapshot nominalUrl) as [[c rs]|]; [|done].
  intros [= <- <-]. by exists c.
Qed.

Lemma text_or_empty (v : option string) :
  match JS.or_else v (Some "") with Some s => s | None => "" end = default "" v.
Proof.
  destruct v as [s|]; [|done]. unfold JS.or_else. simpl.
  destruct (String.eqb s "") eqn:E; [|done]. apply String.eqb_eq in E. by subst.
Qed.

(** The pages of the modes that return early. *)
Lemma fmt_early mode snapshot nominalUrl page runs :
  JS.includes earlyModes mode = true ->
  fmt' mode snapshot nominalUrl = Some (page, runs) ->
  runs = [] /\ title page = None /\ url page = None /\ content page = None.
Proof.
  unfold earlyModes, JS.includes. simpl. rewrite orb_false_r. unfold formatSnapshot.
  destruct (String.eqb mode "screenshot");
    [destruct (shotUrl _ _ _ _ _ _); [by intros _ [= <- <-] | done]|].
  destruct (String.eqb mode "pageshot");
    [destruct (shotUrl _ _ _ _ _ _); [by intros _ [= <- <-] | done]|].
  destruct (String.eqb mode "html"); [by intros _ [= <- <-]|].
  destruct (String.eqb mode "text"); [by intros _ [= <- <-]|]. done.
Qed.

(** The rules of the two services that the block runs. *)
Lemma final_rules service :
  rules (addRule "img-generated-alt" (use "gfm-tables" service))
  = rules service ++ ["img-generated-alt"].
Proof. done. Qed.

Lemma withRules_rules url (b : bool) name :
  name ∈ ["remove-irrelevant"; "truncate-svg"; "title-as-h1"] ->
  name ∈ rules (getTurndown (mkOptions false url b)).
Proof. intros H. unfold getTurndown. cbn [rules noRules]. apply elem_of_app. by left. Qed.

End FormatterMoreFacts.

(** X9: in the modes screenshot, pageshot, html and text the formatter
    never runs the Markdown rewriter and its page has no title, no URL
    and no content; the modes html and text always give a page.  In
    every other mode a snapshot over the depth or size limit is
    formatted without the DOM builder and without the rewriter: the
    call succeeds and the content is the trimmed text of the
    snapshot. *)
Theorem format_without_rewriter
    (Element : Type) (snippetToElement : option string -> string -> option Element)
    (runTurndown : Crawler.TurndownService -> @Crawler.TurndownInput Element -> nat -> option string * nat)
    (host : string) (keepImgDataUrl withImagesSummary withLinksSummary : bool)
    (inferredImages inferredLinks imageSummary : Crawler.PageSnapshot -> list (string * string))
    (randomUUID : string) (saveFileLocally : string -> string -> bool)
    (mode : string) (snapshot : Crawler.PageSnapshot) (nominalUrl : option string) :
  let format := Crawler.formatSnapshot Element snippetToElement runTurndown host keepImgDataUrl
                  withImagesSummary withLinksSummary inferredImages inferredLinks imageSummary
                  randomUUID saveFileLocally in
  (JS.includes Crawler.earlyModes mode = true ->
   (forall page runs, format mode snapshot nominalUrl = Some (page, runs) ->
      runs = [] /\ title page = None /\ url page = None /\ content page = None)
   /\ (mode = "html" \/ mode = "text" ->
       exists page, format mode snapshot nominalUrl = Some (page, [])))
  /\ (JS.includes Crawler.earlyModes mode = false -> Crawler.degraded snapshot = true ->
      exists page,
        format mode snapshot nominalUrl = Some (page, [])
        /\ content page = Some (Str.trim (default "" (Crawler.snapText snapshot)))).
Proof.
  intros format. split.
  - intros Hearly. split.
    + intros page runs. by apply fmt_early.
    + intros [-> | ->]; eexists; reflexivity.
  - intros Hmode Hdeg.
    assert (Hc : Crawler.contentOf Element snippetToElement runTurndown keepImgDataUrl
                   mode snapshot nominalUrl = Some (Crawler.snapText snapshot, [])).
    { unfold Crawler.contentOf. by rewrite Hdeg. }
    destruct (fmt_content Element snippetToElement runTurndown host keepImgDataUrl
                withImagesSummary withLinksSummary inferredImages inferredLinks imageSummary
                randomUUID saveFileLocally mode snapshot nominalUrl _ _ Hmode Hc)
      as (page & Hp & Hcont & _).
    exists page. split; [exact Hp|]. by rewrite Hcont, text_or_empty.
Qed.

Lemma format_without_rewriter_witness :
  (exists page, toyFormat "text" sampleSnapshot sampleUrl = Some (page, []))
  /\ (exists page,
        toyFormat "markdown" MoreSamples.deepSnapshot sampleUrl = Some (page, [])
        /\ content page = Some "hello").
Proof.
  split.
  - pose proof (format_without_rewriter string toySnippet toyRun "localhost" false false false
                  (fun _ => []) (fun _ => []) (fun _ => []) "0000" (fun _ _ => true)
                  "text" sampleSnapshot sampleUrl) as [HA _].
    apply (HA eq_refl). by right.
  - pose proof (format_without_rewriter string toySnippet toyRun "localhost" false false false
                  (fun _ => []) (fun _ => []) (fun _ => []) "0000" (fun _ _ => true)
                  "markdown" MoreSamples.deepSnapshot sampleUrl) as [_ HB].
    apply (HB eq_refl eq_refl).
Defined.

(** X10: in the mode markdown every run of the rewriter is made with a
    service that has the three cleaning rules (remove-irrelevant,
    truncate-svg, title-as-h1), and its input is the element of the
    whole document or the raw HTML of the snapshot: the parsed content
    is never rendered. *)
Theorem markdown_mode_runs
    (Element : Type) (snippetToElement : option string -> string -> option Element)
    (runTurndown : Crawler.TurndownService -> @Crawler.TurndownInput Element -> nat -> option string * nat)
    (host : string) (keepImgDataUrl withImagesSummary withLinksSummary : bool)
    (inferredImages inferredLinks imageSummary : Crawler.PageSnapshot -> list (string * string))
    (randomUUID : string) (saveFileLocally : string -> string -> bool)
    (snapshot : Crawler.PageSnapshot) (nominalUrl : option string)
    (page : FormattedPage) (runs : list (Crawler.TurndownService * @Crawler.TurndownInput Element)) :
  Crawler.formatSnapshot Element snippetToElement runTurndown host keepImgDataUrl
    withImagesSummary withLinksSummary inferredImages inferredLinks imageSummary
    randomUUID saveFileLocally "markdown" snapshot nominalUrl = Some (page, runs) ->
  forall run, run ∈ runs ->
    (forall name, name ∈ ["remove-irrelevant"; "truncate-svg"; "title-as-h1"] ->
       name ∈ Crawler.rules (fst run))
    /\ Crawler.baseUrl (fst run) = JS.or_else (Crawler.rebase snapshot) nominalUrl
    /\ (snd run = Crawler.OfHtml (Crawler.snapHtml snapshot)
        \/ exists document,
             snippetToElement (Crawler.snapHtml snapshot) (Crawler.href snapshot) = Some document
             /\ snd run = Crawler.OfElement document).
Proof.
  intros Hfmt run Hrun.
  apply fmt_inv in Hfmt as (c & Hc & _); [|done].
  destruct (Crawler.degraded snapshot) eqn:Hdeg.
  { unfold Crawler.contentOf in Hc. rewrite Hdeg in Hc. injection Hc as _ <-.
    by apply elem_of_nil in Hrun. }
  apply contentOf_inv in Hc; [|done]. simpl in Hc.
  destruct Hc as (document & service0 & target & whole & runs0 & c1 & i1 & runs1 & c2 & i2
                  & runs2 & Hdoc & Hmd & _ & Hr1 & Hr2 & _ & ->).
  destruct (Hmd eq_refl) as (-> & -> & ->). simpl in Hrun.
  assert (Hserv : fst run = Crawler.addRule "img-generated-alt"
                    (Crawler.use "gfm-tables"
                       (Crawler.getTurndown
                          (Crawler.mkOptions false (JS.or_else (Crawler.rebase snapshot) nominalUrl)
                             (negb keepImgDataUrl))))
                  \/ fst run = Crawler.getTurndown
                       (Crawler.mkOptions false (JS.or_else (Crawler.rebase snapshot) nominalUrl)
                          (negb keepImgDataUrl))
                  -> (forall name, name ∈ ["remove-irrelevant"; "truncate-svg"; "title-as-h1"] ->
                        name ∈ Crawler.rules (fst run))
                     /\ Crawler.baseUrl (fst run) = JS.or_else (Crawler.rebase snapshot) nominalUrl).
  { intros [-> | ->]; (split; [|done]); intros name Hn.
    - rewrite final_rules. apply elem_of_app. left. by apply withRules_rules.
    - by apply withRules_rules. }
  apply runWithRetry_inv in Hr1 as (_ & Hin1 & _).
  apply elem_of_app in Hrun as [Hrun | Hrun].
  - destruct (Hin1 run Hrun) as [Hs Hi]. destruct (Hserv Hs) as [? ?].
    split_and!; [done | done |]. right. by exists document.
  - destruct Hr2 as [[_ Hr2] | (_ & _ & ->)]; [|by apply elem_of_nil in Hrun].
    apply runWithRetry_inv in Hr2 as (_ & Hin2 & _).
    destruct (Hin2 run Hrun) as [Hs Hi]. destruct (Hserv Hs) as [? ?].
    split_and!; [done | done |]. by left.
Qed.

Lemma markdown_mode_runs_witness :
  exists page run,
    toyFormat "markdown" sampleSnapshot sampleUrl = Some (page, [run])
    /\ "title-as-h1" ∈ Crawler.rules (fst run)
    /\ snd run <> Crawler.OfElement "<p>hello</p>".
Proof.
  do 2 eexists. split; [vm_compute; reflexivity|].
  destruct (markdown_mode_runs string toySnippet toyRun "localhost" false false false
              (fun _ => []) (fun _ => []) (fun _ => []) "0000" (fun _ _ => true)
              sampleSnapshot sampleUrl _ _ eq_refl _ (list_elem_of_here _ _))
    as (Hrules & _ & _).
  split; [apply Hrules; apply list_elem_of_further, list_elem_of_further, list_elem_of_here|].
  vm_compute. discriminate.
Defined.

(** X11: outside the modes screenshot, pageshot, html and text, the
    content of a formatted page is the trimmed text of the snapshot, or
    the trimmed output of one of the recorded runs of the rewriter, and
    an output that is kept is not empty, does not start with '<' and
    does not end with '>'. *)
Theorem content_is_text_or_clean_rendering
    (Element : Type) (snippetToElement : option string -> string -> option Element)
    (runTurndown : Crawler.TurndownService -> @Crawler.TurndownInput Element -> nat -> option string * nat)
    (host : string) (keepImgDataUrl withImagesSummary withLinksSummary : bool)
    (inferredImages inferredLinks imageSummary : Crawler.PageSnapshot -> list (string * string))
    (randomUUID : string) (saveFileLocally : string -> string -> bool)
    (mode : string) (snapshot : Crawler.PageSnapshot) (nominalUrl : option string)
    (page : FormattedPage) (runs : list (Crawler.TurndownService * @Crawler.TurndownInput Element)) :
  JS.includes Crawler.earlyModes mode = false ->
  Crawler.formatSnapshot Element snippetToElement runTurndown host keepImgDataUrl
    withImagesSummary withLinksSummary inferredImages inferredLinks imageSummary
    randomUUID saveFileLocally mode snapshot nominalUrl = Some (page, runs) ->
  content page = Some (Str.trim (default "" (Crawler.snapText snapshot)))
  \/ exists run i j t kept,
       run ∈ runs
       /\ runTurndown (fst run) (snd run) i = (Some t, j)
       /\ (kept = Str.trim t \/ kept = t)
       /\ kept <> ""
       /\ Str.startsWith Str.lt kept = false
       /\ Str.endsWith Str.gt kept = false
       /\ content page = Some (Str.trim kept).
Proof.
  intros Hmode Hfmt.
  apply fmt_inv in Hfmt as (c & Hc & Hcont); [|done].
  rewrite text_or_empty in Hcont.
  destruct (Crawler.degraded snapshot) eqn:Hdeg.
  { unfold Crawler.contentOf in Hc. rewrite Hdeg in Hc. injection Hc as <- <-. by left. }
  apply contentOf_inv in Hc; [|done]. simpl in Hc.
  destruct Hc as (document & service0 & target & whole & runs0 & c1 & i1 & runs1 & c2 & i2
                  & runs2 & Hdoc & _ & _ & Hr1 & Hr2 & -> & ->).
  destruct (negb (JS.truthy c2) || Crawler.startsOrEndsLikeHtml c2) eqn:Hbad; [by left|].
  apply orb_false_iff in Hbad as [Htruthy Hclean]. apply negb_false_iff in Htruthy.
  right.
  assert (Hkept : forall kept, c2 = Some kept ->
            kept <> "" /\ Str.startsWith Str.lt kept = false
            /\ Str.endsWith Str.gt kept = false /\ content page = Some (Str.trim kept)).
  { intros kept ->. simpl in Htruthy, Hclean. apply orb_false_iff in Hclean as [? ?].
    split_and!; try done. intros ->. done. }
  apply runWithRetry_inv in Hr1 as (Hc1 & _ & _).
  assert (Hfirst : c2 = c1 ->
            exists run i j t kept,
              run ∈ runs0 ++ runs1 ++ runs2
              /\ runTurndown (fst run) (snd run) i = (Some t, j)
              /\ (kept = Str.trim t \/ kept = t)
              /\ kept <> ""
              /\ Str.startsWith Str.lt kept = false
              /\ Str.endsWith Str.gt kept = false
              /\ content page = Some (Str.trim kept)).
  { intros E. destruct Hc1 as [-> | (run & i & j & t & Hin & Hrun & ->)].
    - by rewrite E in Htruthy.
    - destruct (Hkept _ E) as (? & ? & ? & ?).
      exists run, i, j, t, (Str.trim t). split_and!; try done; [|by left].
      apply elem_of_app. right. apply elem_of_app. by left. }
  destruct Hr2 as [[_ Hr2] | (_ & E & _)]; [|by apply Hfirst].
  apply runWithRetry_inv in Hr2 as (Hc2 & _ & _).
  destruct Hc2 as [E | (run & i & j & t & Hin & Hrun & E)]; [by apply Hfirst|].
  destruct (Hkept _ E) as (? & ? & ? & ?).
  exists run, i, j, t, t. split_and!; try done; [|by right].
  apply elem_of_app. right. apply elem_of_app. by right.
Qed.

Lemma content_is_text_or_clean_rendering_witness :
  exists page runs,
    toyFormat "default" sampleSnapshot sampleUrl = Some (page, runs)
    /\ (content page = Some (Str.trim (default "" (Crawler.snapText sampleSnapshot)))
        \/ exists run i j t kept,
             run ∈ runs
             /\ toyRun (fst run) (snd run) i = (Some t, j)
             /\ (kept = Str.trim t \/ kept = t)
             /\ kept <> ""
             /\ Str.startsWith Str.lt kept = false
             /\ Str.endsWith Str.gt kept = false
             /\ content page = Some (Str.trim kept)).
Proof.
  do 2 eexists. split; [vm_compute; reflexivity|].
  apply (content_is_text_or_clean_rendering string toySnippet toyRun "localhost" false false false
           (fun _ => []) (fun _ => []) (fun _ => []) "0000" (fun _ _ => true)
           "default" sampleSnapshot sampleUrl _ _ eq_refl eq_refl).
Defined.

(** ** [crawl]: one answer, and the snapshot it is made from *)

Section CrawlFacts.
Import Crawler Crawl CrawlView.
Variable optionsHeaderOnly optionsParamsAllowed : Request -> option CrawlerOptions.
Variable tryDecodeURIComponent : string -> string.
Variable normalizedURL : string -> option URL.
Variable puppeteerScrap : URL -> ExtraScrappingOptions -> Stream.
Variable narrowSnapshot : option Scrapped -> ExtraScrappingOptions -> ScrapError + option Scrapped.
Variable format : string -> PageSnapshot -> option string -> ScrapError + FormattedPage.

(** The two shapes of the answer for a formatted page. *)
Lemma sendFormatted_fresh page mode :
  exists a,
    sent (sendFormattedResponse fresh page mode) = [a]
    /\ ((exists body, plainAnswer a 200 body) \/ redirect a).
Proof.
  unfold sendFormattedResponse, pageString.
  destruct (String.eqb mode "screenshot") eqn:E1.
  { apply String.eqb_eq in E1 as ->. simpl String.eqb.
    destruct (screenshotUrl page) as [location|] eqn:Hs.
    - simpl JS.truthy. destruct (String.eqb location "") eqn:El; simpl.
      + eexists. split; [reflexivity|]. left. by eexists.
      + eexists. split; [reflexivity|]. right. exists location.
        split; [by apply String.eqb_neq | done].
    - simpl. eexists. split; [reflexivity|]. left. by eexists. }
  destruct (String.eqb mode "pageshot") eqn:E2.
  { apply String.eqb_eq in E2 as ->. simpl andb.
    destruct (pageshotUrl page) as [location|] eqn:Hs.
    - simpl JS.truthy. destruct (String.eqb location "") eqn:El; simpl.
      + eexists. split; [reflexivity|]. left. by eexists.
      + eexists. split; [reflexivity|]. right. exists location.
        split; [by apply String.eqb_neq | done].
    - simpl. eexists. split; [reflexivity|]. left. by eexists. }
  simpl andb. cbv iota. eexists. split; [reflexivity|]. left. by eexists.
Qed.

Lemma formatAndSend_fresh crawlerOptions parsedUrl x :
  exists a,
    sent (formatAndSend format fresh crawlerOptions parsedUrl x) = [a]
    /\ ((exists body, plainAnswer a 200 body) \/ redirect a
        \/ plainAnswer a 500 "Internal server error").
Proof.
  unfold formatAndSend. destruct (format _ _ _) as [err|page].
  - eexists. split; [reflexivity|]. by right; right.
  - destruct (sendFormatted_fresh page (respondWith crawlerOptions)) as (a & Ha & [H|H]);
      exists a; (split; [done|]); [by left | by right; left].
Qed.

(** The loop stops at the first complete snapshot when no timeout is
    set. *)
Lemma scrapLoop_first_complete crawlerOptions parsedUrl pre s post e lastScrapped :
  selectorTruthy (waitForSelector crawlerOptions) = false ->
  timeout crawlerOptions = None ->
  completeOnes crawlerOptions pre = [] ->
  incomplete s = false ->
  scrapLoop format crawlerOptions parsedUrl (pre ++ Some s :: post) e lastScrapped
  = (match format (respondWith crawlerOptions) (snapshot s) (Some (urlHref parsedUrl)) with
     | inr formatted => Answered formatted
     | inl err => Thrown err
     end, [snapshot s]).
Proof.
  intros Hw Ht Hpre Hs. unfold completeOnes in Hpre. rewrite Hw in Hpre.
  revert lastScrapped. induction pre as [|[x|] pre IH]; intros lastScrapped.
  - simpl. rewrite Hw, Hs, Ht. simpl. by destruct (format _ _ _).
  - simpl in *. rewrite Hw. simpl.
    rewrite filter_cons in Hpre. destruct (decide (incomplete x = false)) as [Hx|Hx]; [done|].
    apply not_false_is_true in Hx. rewrite Hx. by apply IH.
  - simpl in *. by apply IH.
Qed.

Lemma last_cons_default {A} (x : A) (l : list A) (d : A) :
  match last (x :: l) with Some y => y | None => d end
  = match last l with Some y => y | None => x end.
Proof.
  destruct l as [|y l]; [done|]. change (last (x :: y :: l)) with (last (y :: l)).
  destruct (last (y :: l)) eqn:E; [done|]. by apply last_None in E.
Qed.

(** The loop goes through the whole stream when every complete
    snapshot can be formatted and a timeout is set, or when there is
    no complete snapshot. *)
Lemma scrapLoop_whole crawlerOptions parsedUrl l e lastScrapped :
  (timeout crawlerOptions <> None \/ completeOnes crawlerOptions l = []) ->
  (forall s, s ∈ completeOnes crawlerOptions l ->
     exists formatted,
       format (respondWith crawlerOptions) (snapshot s) (Some (urlHref parsedUrl))
       = inr formatted) ->
  scrapLoop format crawlerOptions parsedUrl l e lastScrapped
  = (match e with
     | Finished => Exhausted (match last l with Some x => x | None => lastScrapped end)
     | Failed err => Thrown err
     end, snapshot <$> completeOnes crawlerOptions l).
Proof.
  unfold completeOnes.
  destruct (selectorTruthy (waitForSelector crawlerOptions)) eqn:Hw.
  - intros _ _. revert lastScrapped. induction l as [|[x|] l IH]; intros lastScrapped.
    + done.
    + simpl. rewrite Hw. simpl. rewrite IH. by rewrite last_cons_default.
    + simpl. rewrite IH. by rewrite last_cons_default.
  - revert lastScrapped. induction l as [|[x|] l IH]; intros lastScrapped Hrun Hfmt.
    + done.
    + simpl in *. rewrite Hw. simpl. rewrite filter_cons in *.
      destruct (decide (incomplete x = false)) as [Hx|Hx].
      * rewrite Hx. destruct (Hfmt x) as [formatted ->]; [apply list_elem_of_here|].
        destruct Hrun as [Hrun|Hrun]; [|done].
        destruct (timeout crawlerOptions) as [t|] eqn:Ht; [|done].
        rewrite IH; [by rewrite last_cons_default | by left |].
        intros s Hs. apply Hfmt. by apply list_elem_of_further.
      * apply not_false_is_true in Hx. rewrite Hx.
        rewrite IH; [by rewrite last_cons_default | done | done].
    + simpl in *. rewrite IH; [by rewrite last_cons_default | done | done].
Qed.

(** [simpleLoop] before and after the first snapshot with parsed
    content. *)
Lemma simpleLoop_good x rest e lastSnapshot :
  simpleLoop (x :: rest) e lastSnapshot true = (x, None).
Proof. done. Qed.

Lemma simpleLoop_first_content pre x y post e lastSnapshot :
  Forall (fun z => hasParsedContent z = false) pre ->
  hasParsedContent x = true ->
  simpleLoop (pre ++ x :: y :: post) e lastSnapshot false = (y, None).
Proof.
  intros Hpre Hx. revert lastSnapshot.
  induction Hpre as [|z pre Hz _ IH]; intros lastSnapshot.
  - simpl. by rewrite Hx.
  - simpl. rewrite Hz. apply IH.
Qed.

Lemma simpleLoop_no_content l e lastSnapshot :
  Forall (fun z => hasParsedContent z = false) (removelast l) ->
  simpleLoop l e lastSnapshot false
  = (match last l with Some x => x | None => lastSnapshot end,
     match e with Finished => None | Failed err => Some err end).
Proof.
  revert lastSnapshot. induction l as [|z l IH]; intros lastSnapshot Hl; [done|].
  destruct l as [|z' l]; [done|].
  change (removelast (z :: z' :: l)) with (z :: removelast (z' :: l)) in Hl.
  apply Forall_cons in Hl as [Hz Hl].
  change (simpleLoop (z :: z' :: l) e lastSnapshot false)
    with (simpleLoop (z' :: l) e z (hasParsedContent z)).
  rewrite Hz, IH; [|done]. by rewrite (last_cons_default z (z' :: l) lastSnapshot), last_cons_default.
Qed.

End CrawlFacts.

(** X12: on a fresh response object [crawl] sends exactly one answer,
    whatever the request and whatever the collaborators do.  The
    answer is a page (status 200, text/plain), a redirection to a
    stored shot (302, the body repeats the location), one of the two
    texts for an invalid URL (400, and then no snapshot was
    formatted), "No content available" (404) or "Internal server
    error" (500). *)
Theorem crawl_answers_once
    (optionsHeaderOnly optionsParamsAllowed : Crawl.Request -> option Crawl.CrawlerOptions)
    (tryDecodeURIComponent : string -> string)
    (normalizedURL : string -> option Crawl.URL)
    (puppeteerScrap : Crawl.URL -> Crawl.ExtraScrappingOptions -> Crawl.Stream)
    (narrowSnapshot : option Crawl.Scrapped -> Crawl.ExtraScrappingOptions
                      -> Crawl.ScrapError + option Crawl.Scrapped)
    (format : string -> Crawler.PageSnapshot -> option string -> Crawl.ScrapError + FormattedPage)
    (req : Crawl.Request) :
  let out := Crawl.crawl optionsHeaderOnly optionsParamsAllowed tryDecodeURIComponent
               normalizedURL puppeteerScrap narrowSnapshot format req Crawl.fresh in
  exists a,
    Crawl.sent (fst out) = [a]
    /\ ((exists body, CrawlView.plainAnswer a 200 body)
        \/ CrawlView.redirect a
        \/ ((CrawlView.plainAnswer a 400 "Invalid URL"
             \/ CrawlView.plainAnswer a 400 "Invalid URL or TLD") /\ snd out = [])
        \/ CrawlView.plainAnswer a 404 "No content available"
        \/ CrawlView.plainAnswer a 500 "Internal server error").
Proof.
  intros out. unfold out, Crawl.crawl. clear out.
  assert (H500 : exists a,
            Crawl.sent (Crawl.internalError Crawl.fresh) = [a]
            /\ CrawlView.plainAnswer a 500 "Internal server error")
    by (eexists; split; reflexivity).
  destruct (optionsHeaderOnly req) as [headerOnly|];
    [|destruct H500 as (a & ? & ?); exists a; split; [done | by do 4 right]].
  destruct (optionsParamsAllowed req) as [paramsAllowed|];
    [|destruct H500 as (a & ? & ?); exists a; split; [done | by do 4 right]].
  set (crawlerOptions := if String.eqb (Crawl.method req) "GET" then headerOnly else paramsAllowed).
  destruct (Crawl.getTargetUrl normalizedURL _ crawlerOptions) as [| |parsedUrl].
  - destruct H500 as (a & ? & ?); exists a; split; [done | by do 4 right].
  - eexists. split; [reflexivity|]. right; right; left. split; [by left | done].
  - destruct (negb _ || negb _).
    + eexists. split; [reflexivity|]. right; right; left. split; [by right | done].
    + unfold Crawl.scrapAndRespond.
      destruct (Crawl.scrapLoop format crawlerOptions parsedUrl _ _ None)
        as [[formatted|[lastScrapped|]|err] done].
      * destruct (sendFormatted_fresh formatted (Crawl.respondWith crawlerOptions))
          as (a & Ha & [H|H]); exists a; (split; [exact Ha|]); [by left | by right; left].
      * destruct (formatAndSend_fresh format crawlerOptions parsedUrl
                    (Crawl.snapshot lastScrapped)) as (a & Ha & [H|[H|H]]);
          exists a; (split; [exact Ha|]); [by left | by right; left | by do 4 right].
      * eexists. split; [reflexivity|]. by do 3 right; left.
      * destruct (Crawl.domainError err).
        -- destruct (formatAndSend_fresh format crawlerOptions parsedUrl
                       (Crawl.errorSnapshot parsedUrl)) as (a & Ha & [H|[H|H]]);
             exists a; (split; [exact Ha|]); [by left | by right; left | by do 4 right].
        -- destruct H500 as (a & ? & ?); exists a; split; [done | by do 4 right].
Qed.

(** X13: when the request sets no timeout and waits for no selector,
    the first snapshot of the stream that has parsed content and a
    title, or PDFs, decides the answer: it is the only snapshot
    formatted and its page is sent, whatever the stream yields
    afterwards and however it ends.  If its formatting fails the
    answer is the error page of an invalid domain or status 500. *)
Theorem crawl_first_complete_snapshot
    (puppeteerScrap : Crawl.URL -> Crawl.ExtraScrappingOptions -> Crawl.Stream)
    (narrowSnapshot : option Crawl.Scrapped -> Crawl.ExtraScrappingOptions
                      -> Crawl.ScrapError + option Crawl.Scrapped)
    (format : string -> Crawler.PageSnapshot -> option string -> Crawl.ScrapError + FormattedPage)
    (crawlerOptions : Crawl.CrawlerOptions) (parsedUrl : Crawl.URL) (r : Crawl.Res)
    (pre post : list (option Crawl.Scrapped)) (s : Crawl.Scrapped) :
  Crawl.selectorTruthy (Crawl.waitForSelector crawlerOptions) = false ->
  Crawl.timeout crawlerOptions = None ->
  Crawl.items (Crawl.scrap puppeteerScrap narrowSnapshot parsedUrl
                 (Crawl.configure crawlerOptions) (Some crawlerOptions))
  = pre ++ Some s :: post ->
  CrawlView.completeOnes crawlerOptions pre = [] ->
  Crawl.incomplete s = false ->
  Crawl.scrapAndRespond puppeteerScrap narrowSnapshot format crawlerOptions parsedUrl r
  = match format (Crawl.respondWith crawlerOptions) (Crawl.snapshot s)
            (Some (Crawl.urlHref parsedUrl)) with
    | inr formatted =>
        (Crawl.sendFormattedResponse r formatted (Crawl.respondWith crawlerOptions),
         [Crawl.snapshot s])
    | inl err =>
        if Crawl.domainError err
        then (Crawl.formatAndSend format r crawlerOptions parsedUrl
                (Crawl.errorSnapshot parsedUrl),
              [Crawl.snapshot s; Crawl.errorSnapshot parsedUrl])
        else (Crawl.internalError r, [Crawl.snapshot s])
    end.
Proof.
  intros Hw Ht Hitems Hpre Hs. unfold Crawl.scrapAndRespond. cbv zeta.
  rewrite Hitems, (scrapLoop_first_complete format crawlerOptions parsedUrl pre s post _ None
                     Hw Ht Hpre Hs).
  by destruct (format _ _ _).
Qed.

Lemma crawl_first_complete_snapshot_witness :
  snd (Crawl.scrapAndRespond CrawlSamples.toyScrap CrawlSamples.toyNarrow
         CrawlSamples.toyCrawlFormat CrawlSamples.getOptions CrawlSamples.sampleTarget
         Crawl.fresh)
  = [sampleSnapshot].
Proof.
  rewrite (crawl_first_complete_snapshot CrawlSamples.toyScrap CrawlSamples.toyNarrow
             CrawlSamples.toyCrawlFormat CrawlSamples.getOptions CrawlSamples.sampleTarget
             Crawl.fresh [Some (Crawl.mkScrapped CrawlSamples.emptySnapshot None)] []
             (Crawl.mkScrapped sampleSnapshot None)
             eq_refl eq_refl eq_refl eq_refl eq_refl).
  reflexivity.
Defined.

(** X14: when the request sets a timeout and every complete snapshot
    can be formatted, or when the loop meets no complete snapshot (as
    when it waits for a selector), the loop reads the whole stream and
    the answer is made from the last thing the stream yielded: its
    page, formatted after the others, 404 when the stream yielded
    nothing or ended on an undefined snapshot.  When the stream fails
    the answer is the error page of an invalid domain or status 500. *)
Theorem crawl_whole_stream
    (puppeteerScrap : Crawl.URL -> Crawl.ExtraScrappingOptions -> Crawl.Stream)
    (narrowSnapshot : option Crawl.Scrapped -> Crawl.ExtraScrappingOptions
                      -> Crawl.ScrapError + option Crawl.Scrapped)
    (format : string -> Crawler.PageSnapshot -> option string -> Crawl.ScrapError + FormattedPage)
    (crawlerOptions : Crawl.CrawlerOptions) (parsedUrl : Crawl.URL) (r : Crawl.Res) :
  let stream := Crawl.scrap puppeteerScrap narrowSnapshot parsedUrl
                  (Crawl.configure crawlerOptions) (Some crawlerOptions) in
  let seen := CrawlView.completeOnes crawlerOptions (Crawl.items stream) in
  (Crawl.timeout crawlerOptions <> None \/ seen = []) ->
  (forall s, s ∈ seen ->
     exists formatted,
       format (Crawl.respondWith crawlerOptions) (Crawl.snapshot s)
         (Some (Crawl.urlHref parsedUrl)) = inr formatted) ->
  Crawl.scrapAndRespond puppeteerScrap narrowSnapshot format crawlerOptions parsedUrl r
  = match Crawl.ending stream with
    | Crawl.Finished =>
        match CrawlView.lastOf (Crawl.items stream) with
        | Some lastScrapped =>
            (Crawl.formatAndSend format r crawlerOptions parsedUrl
               (Crawl.snapshot lastScrapped),
             (Crawl.snapshot <$> seen) ++ [Crawl.snapshot lastScrapped])
        | None =>
            (Crawl.sendResponse r "No content available" (Crawl.plain (Some 404%Z)),
             Crawl.snapshot <$> seen)
        end
    | Crawl.Failed err =>
        if Crawl.domainError err
        then (Crawl.formatAndSend format r crawlerOptions parsedUrl
                (Crawl.errorSnapshot parsedUrl),
              (Crawl.snapshot <$> seen) ++ [Crawl.errorSnapshot parsedUrl])
        else (Crawl.internalError r, Crawl.snapshot <$> seen)
    end.
Proof.
  intros stream seen Hrun Hfmt. unfold Crawl.scrapAndRespond. cbv zeta. fold stream.
  rewrite (scrapLoop_whole format crawlerOptions parsedUrl (Crawl.items stream)
             (Crawl.ending stream) None Hrun Hfmt).
  fold seen. unfold CrawlView.lastOf.
  destruct (Crawl.ending stream); [|done].
  by destruct (last (Crawl.items stream)) as [[lastScrapped|]|].
Qed.

Lemma crawl_whole_stream_witness :
  snd (Crawl.scrapAndRespond CrawlSamples.toyScrap CrawlSamples.toyNarrow
         CrawlSamples.toyCrawlFormat CrawlSamples.timedOptions CrawlSamples.sampleTarget
         Crawl.fresh)
  = [sampleSnapshot; sampleSnapshot].
Proof.
  rewrite (crawl_whole_stream CrawlSamples.toyScrap CrawlSamples.toyNarrow
             CrawlSamples.toyCrawlFormat CrawlSamples.timedOptions CrawlSamples.sampleTarget
             Crawl.fresh).
  - reflexivity.
  - left. discriminate.
  - intros s Hs. apply list_elem_of_singleton in Hs as ->. eexists. reflexivity.
Defined.

(** X15: [simpleCrawl] formats the snapshot that follows the first one
    with parsed content, and fails with "No content available" when
    that one is undefined.  When no snapshot but possibly the last has
    parsed content, it formats the last snapshot of the stream, also
    when the stream ended by throwing; only without a last snapshot
    does it throw, the error of the stream or "No content
    available". *)
Theorem simple_crawl_snapshot
    (puppeteerScrap : Crawl.URL -> Crawl.ExtraScrappingOptions -> Crawl.Stream)
    (narrowSnapshot : option Crawl.Scrapped -> Crawl.ExtraScrappingOptions
                      -> Crawl.ScrapError + option Crawl.Scrapped)
    (format : string -> Crawler.PageSnapshot -> option string -> Crawl.ScrapError + FormattedPage)
    (mode : string) (url : Crawl.URL) (opts : Crawl.ExtraScrappingOptions) :
  let stream := Crawl.scrap puppeteerScrap narrowSnapshot url opts None in
  let result := Crawl.simpleCrawl puppeteerScrap narrowSnapshot format mode url opts in
  (forall pre x y post,
     Crawl.items stream = pre ++ x :: y :: post ->
     Forall (fun z => Crawl.hasParsedContent z = false) pre ->
     Crawl.hasParsedContent x = true ->
     result = match y with
              | Some s => format mode (Crawl.snapshot s) (Some (Crawl.urlHref url))
              | None => inl (Crawl.mkScrapError true "No content available")
              end)
  /\ (Forall (fun z => Crawl.hasParsedContent z = false) (removelast (Crawl.items stream)) ->
      result = match CrawlView.lastOf (Crawl.items stream), Crawl.ending stream with
               | Some s, _ => format mode (Crawl.snapshot s) (Some (Crawl.urlHref url))
               | None, Crawl.Failed err => inl err
               | None, Crawl.Finished => inl (Crawl.mkScrapError true "No content available")
               end).
Proof.
  intros stream result. unfold result, Crawl.simpleCrawl. cbv zeta. fold stream. split.
  - intros pre x y post Hitems Hpre Hx.
    rewrite Hitems, (simpleLoop_first_content pre x y post _ None Hpre Hx). by destruct y.
  - intros Hl. rewrite (simpleLoop_no_content _ _ None Hl). unfold CrawlView.lastOf.
    destruct (last (Crawl.items stream)) as [[s|]|]; try done; by destruct (Crawl.ending stream).
Qed.

Lemma simple_crawl_snapshot_witness :
  Crawl.simpleCrawl CrawlSamples.toyScrap CrawlSamples.toyNarrow CrawlSamples.toyCrawlFormat
    "markdown" CrawlSamples.sampleTarget (Crawl.configure CrawlSamples.getOptions)
  = CrawlSamples.toyCrawlFormat "markdown" sampleSnapshot (Some "http://a.example/").
Proof.
  destruct (simple_crawl_snapshot CrawlSamples.toyScrap CrawlSamples.toyNarrow
              CrawlSamples.toyCrawlFormat "markdown" CrawlSamples.sampleTarget
              (Crawl.configure CrawlSamples.getOptions)) as [_ H].
  apply H. repeat constructor.
Defined.

(** ** A search request, end to end *)

(** X16: whatever batch a search request answers with, from the loop
    or from the timer, is one of the batches that [fetchSearchResults]
    built from the upstream results: the status is 200, the batch has
    one page per upstream result (after the truncation to [count]), and
    the page at position [i] is made from upstream result [i]. *)
Theorem search_answer_follows_upstream
    (Element : Type) (snippetToElement : option string -> string -> option Element)
    (runTurndown : Crawler.TurndownService -> @Crawler.TurndownInput Element -> nat -> option string * nat)
    (host : string) (keepImgDataUrl withImagesSummary withLinksSummary : bool)
    (inferredImages inferredLinks imageSummary : Crawler.PageSnapshot -> list (string * string))
    (saveFileLocally : string -> string -> bool) (randomUUID : nat -> string)
    (parseURL : string -> option string)
    (timeout : option Z)
    (mode : string) (upstreamResults : list SearXNGSearchResult) (count : nat)
    (emissions : list (list (option Crawler.PageSnapshot)))
    (evs : list Event) (s : State) (st : Z) (batch : list FormattedPage) :
  1 <= count ->
  (forall s u, parseURL s = Some u -> u <> "") ->
  let searchResults := take count upstreamResults in
  Forall (fun scrapped => length scrapped = length searchResults) emissions ->
  Fetch.slotLocal emissions ->
  Request.drivenBy evs
    (Request.generatorEvents
       (Fetch.fetchSearchResults Element snippetToElement runTurndown host keepImgDataUrl
          withImagesSummary withLinksSummary inferredImages inferredLinks imageSummary
          saveFileLocally randomUUID parseURL mode searchResults count emissions)) ->
  run timeout count init evs = Some s ->
  wire (res s) = [(st, BatchBody batch)] ->
  st = 200%Z
  /\ length batch = length searchResults
  /\ forall i up, searchResults !! i = Some up ->
       exists p, batch !! i = Some p /\ Fetch.madeFrom parseURL mode up p.
Proof.
  intros Hcount Hne searchResults Hlen Hlocal Hdriven Hrun Hwire.
  pose proof (run_answerOk timeout count evs [] init s Hrun (init_ok timeout) init_answerOk)
    as (Hf & Ht & _ & _). simpl in Ht.
  destruct (headersSent (res s)) eqn:Hs;
    [|destruct (Hf eq_refl) as (Hw & _); by rewrite Hw in Hwire].
  destruct (Ht eq_refl) as (entry & Hw & Hok). rewrite Hwire in Hw. injection Hw as <-.
  unfold LoopInv.sentOk in Hok. simpl in Hok. destruct Hok as [-> Hin].
  split; [done|].
  (* the batch is one of the generator's *)
  assert (Hgen : Emit batch ∈ filter (fun e => Request.isTimerFire e = false) evs)
    by (apply list_elem_of_filter; by split).
  destruct Hdriven as [k Hk]. unfold Request.generatorEvents in Hk.
  assert (Hb : Emit batch ∈ Emit <$> fst
            (Fetch.fetchSearchResults Element snippetToElement runTurndown host keepImgDataUrl
               withImagesSummary withLinksSummary inferredImages inferredLinks imageSummary
               saveFileLocally randomUUID parseURL mode searchResults count emissions)).
  { assert (Hall : Emit batch ∈ filter (fun e => Request.isTimerFire e = false) evs ++ k)
      by (apply elem_of_app; by left).
    rewrite <- Hk in Hall. apply elem_of_app in Hall as [Hall|Hall]; [done|].
    apply list_elem_of_singleton in Hall. by destruct (snd _). }
  apply list_elem_of_fmap in Hb as (b & [= <-] & Hb).
  apply list_elem_of_lookup in Hb as [n Hn].
  revert Hn. unfold Fetch.fetchSearchResults.
  destruct (count =? 0)%nat eqn:E; [apply Nat.eqb_eq in E; lia|].
  destruct (mapM parseURL (sr_url <$> searchResults)) as [urls|] eqn:Hurls; [|done].
  apply mapM_Some in Hurls. intros Hn.
  destruct (batchesFrom_made Element snippetToElement runTurndown host keepImgDataUrl
              withImagesSummary withLinksSummary inferredImages inferredLinks imageSummary
              saveFileLocally randomUUID parseURL mode searchResults count emissions
              Hne Hcount) with (urls := urls) (rest := emissions) (st := Fetch.emptyFetch)
              (n := n) (batch := batch)
    as (scrapped & _ & Hl & Hslots); try done.
  { unfold searchResults. rewrite length_take. lia. }
  split; [done|]. intros i up Hup. destruct (Hslots i up Hup) as (p & ? & ? & _). by exists p.
Qed.

Lemma search_answer_follows_upstream_witness :
  exists s batch,
    run None 2 init (Request.generatorEvents (toyFetch "markdown" (take 2 twoResults) 2 twoEmissions))
    = Some s
    /\ wire (res s) = [(200%Z, BatchBody batch)]
    /\ length batch = 2.
Proof.
  assert (H2 : forall s u, toyParseURL s = Some u -> u <> "").
  { intros s u. unfold toyParseURL. destruct (String.eqb s "") eqn:E; [done|].
    destruct (String.eqb s "http://c.example"); [by intros [= <-]|].
    intros [= <-]. by apply String.eqb_neq. }
  assert (H4 : Fetch.slotLocal twoEmissions).
  { intros e1 e2 i j x y He1 He2 Hx Hy _.
    assert (Hzero : forall e k z, e ∈ twoEmissions -> e !! k = Some (Some z) -> k = 0).
    { intros e k z He Hk. unfold twoEmissions in He.
      apply elem_of_cons in He as [->|He]; [by destruct k as [|[|k]]|].
      apply list_elem_of_singleton in He as ->. by destruct k as [|[|k]]. }
    rewrite (Hzero e1 i x He1 Hx), (Hzero e2 j y He2 Hy). reflexivity. }
  do 2 eexists. split; [vm_compute; reflexivity|]. split; [vm_compute; reflexivity|].
  refine (proj1 (proj2 (search_answer_follows_upstream string toySnippet toyRun "localhost"
           false false false (fun _ => []) (fun _ => []) (fun _ => []) (fun _ _ => true)
           (fun _ => "0000") toyParseURL None "markdown" twoResults 2 twoEmissions
           (Request.generatorEvents (toyFetch "markdown" (take 2 twoResults) 2 twoEmissions))
           _ 200%Z _ ltac:(lia) H2 ltac:(repeat constructor) H4 _ _ _))).
  - exists []. vm_compute. reflexivity.
  - vm_compute. reflexivity.
  - vm_compute. reflexivity.
Defined.

(** ** The string form of a batch *)







Example batch_string_sample :
  Render.batchToString [goodPage; stubPage]
  = ("[1] Title: T" ++ Str.nl ++ "[1] URL Source: http://a.example/" ++ Str.nl
     ++ "[1] Markdown Content:" ++ Str.nl ++ "body" ++ Str.nl ++ Str.nl ++ Str.nl
     ++ "[2] Title: T" ++ Str.nl ++ "[2] URL Source: http://b.example/" ++ Str.nl
     ++ "[2] Description: snippet" ++ Str.nl)%string.
Proof. vm_compute. reflexivity. Qed.

(** ** The paragraph rule: the shape of its output *)




(** ** The count of a search request *)

(** X19: the count that [search] works with is 5 when the request
    gives none; otherwise it is [NaN] exactly when the given value
    converts to [NaN], and else a finite number between 1 and 20, never
    0: for an integer [z] it is [max 1 (min z 20)]. *)
Theorem request_count_range (truthy : bool) (asNumber : Count.Number) :
  (truthy = false -> Count.requestCount truthy asNumber = Count.Finite (inject_Z 5))
  /\ (Count.requestCount truthy asNumber = Count.NaN
      <-> truthy = true /\ asNumber = Count.NaN)
  /\ (Count.requestCount truthy asNumber = Count.NaN
      \/ exists q, Count.requestCount truthy asNumber = Count.Finite q
                   /\ (inject_Z 1 <= q)%Q /\ (q <= inject_Z 20)%Q)
  /\ (forall z, truthy = true -> asNumber = Count.Finite (inject_Z z) ->
        Count.requestCount truthy asNumber
        = Count.Finite (inject_Z (Z.max 1 (Z.min z 20)))).
Proof.
  split; [by intros ->|]. split; [|split].
  - unfold Count.requestCount, Count.mathMax, Count.mathMin.
    destruct truthy, asNumber as [| |q|];
      repeat match goal with
             | |- context [Qle_bool ?a ?b] => destruct (Qle_bool a b) eqn:?
             end;
      (split; [done | by intros [? ?]]).
  - destruct truthy; [|right; eexists; split; [reflexivity|]; split; by vm_compute].
    destruct asNumber as [| |q|]; simpl.
    + by left.
    + right. eexists. split; [reflexivity|]. split; by vm_compute.
    + right. destruct (Qle_bool q (inject_Z 20)) eqn:H20; simpl.
      * destruct (Qle_bool (inject_Z 1) q) eqn:H1.
        -- exists q. split; [done|]. split; by apply Qle_bool_iff.
        -- eexists. split; [reflexivity|]. split; by vm_compute.
      * eexists. split; [reflexivity|]. split; by vm_compute.
    + right. eexists. split; [reflexivity|]. split; by vm_compute.
  - intros z -> ->. simpl.
    destruct (Qle_bool (inject_Z z) (inject_Z 20)) eqn:H20; simpl.
    + apply Qle_bool_iff in H20. rewrite <- Zle_Qle in H20.
      destruct (Qle_bool (inject_Z 1) (inject_Z z)) eqn:H1.
      * apply Qle_bool_iff in H1. rewrite <- Zle_Qle in H1. do 2 f_equal. lia.
      * assert (~ (1 <= z)%Z) by (intros Hz; rewrite Zle_Qle in Hz; apply Qle_bool_iff in Hz; congruence).
        do 2 f_equal. lia.
    + assert (~ (z <= 20)%Z) by (intros Hz; rewrite Zle_Qle in Hz; apply Qle_bool_iff in Hz; congruence).
      replace (Z.max 1 (Z.min z 20)) with 20%Z by lia. reflexivity.
Qed.

Lemma request_count_range_witness :
  Count.requestCount true (Count.Finite (inject_Z 50)) = Count.Finite (inject_Z 20)
  /\ Count.requestCount true (Count.Finite (inject_Z 0)) = Count.Finite (inject_Z 1)
  /\ Count.requestCount false Count.NaN = Count.Finite (inject_Z 5).
Proof.
  split; [|split].
  - exact (proj2 (proj2 (proj2 (request_count_range true (Count.Finite (inject_Z 50)))))
             50%Z eq_refl eq_refl).
  - exact (proj2 (proj2 (proj2 (request_count_range true (Count.Finite (inject_Z 0)))))
             0%Z eq_refl eq_refl).
  - exact (proj1 (request_count_range false Count.NaN) eq_refl).
Defined.
